(** * Grievance-Resolver: complaint pipeline and SLA monitoring

    A shallow embedding of the complaint pipeline
    ([src/workflows/complaint_workflow.py] and the agents it calls) and of
    the monitoring / escalation cycle
    ([src/workflows/monitoring_workflow.py], [src/agents/monitoring.py],
    [src/agents/escalation.py]), followed by the properties proved of them.

    Conventions of the embedding.
    - Python strings are [string]; [lower] is [str.lower] on ASCII text.
    - Python floats are [pyfloat]: a rational, the two infinities or NaN.
      The code only compares floats and selects among them (it does no
      float arithmetic on the values modelled here), so only their order
      matters; decimal literals stand for themselves.
    - Points in time are rationals counting hours; [timedelta(hours=h)] is
      the rational [h].  One run of a workflow reads one clock value.
    - A call to the language model is a value of [llm_reply]: the call
      raised, the reply held no JSON object that parses, or the parsed
      object.  An entry of the parsed object is a [field] (absent, of the
      expected type, or of a type on which the code raises) or, where no
      operation of the code can raise on it, an [option].
    - A Python exception is the [Raise] branch of [exc].
    - A write to the store is performed or refused; which, is part of
      what the caller meets outside itself (the environment of a run, or
      an argument of a controller method).
    - Logging and the sending of notifications are left out: they change
      neither the pipeline state nor the store. *)

From Stdlib Require Import String Ascii List Bool Arith ZArith QArith Qround Lia Lqa.
Import ListNotations.
Open Scope string_scope.

(* ------------------------------------------------------------------ *)
(** ** Python values *)

Module Py.

Definition lower_ascii (c : ascii) : ascii :=
  let n := nat_of_ascii c in
  if (65 <=? n)%nat && (n <=? 90)%nat then ascii_of_nat (n + 32) else c.

(** [str.lower()] *)
Fixpoint lower (s : string) : string :=
  match s with
  | EmptyString => EmptyString
  | String c r => String (lower_ascii c) (lower r)
  end.

(** [kw in s] for strings: [kw] occurs in [s] as a substring. *)
Fixpoint is_in (kw s : string) : bool :=
  match s with
  | EmptyString => String.prefix kw EmptyString
  | String _ r => String.prefix kw s || is_in kw r
  end.

(** [any(keyword in s for keyword in kws)] *)
Definition any_in (kws : list string) (s : string) : bool :=
  existsb (fun kw => is_in kw s) kws.

(** [x in xs] for a list of strings. *)
Definition mem (x : string) (xs : list string) : bool :=
  existsb (String.eqb x) xs.

(** [s[:n]] *)
Definition take (n : nat) (s : string) : string := String.substring 0 n s.

(** [a or b] on strings: the empty string is falsy. *)
Definition str_or (a b : string) : string :=
  match a with EmptyString => b | _ => a end.

Inductive pyfloat : Type :=
| Fin (q : Q)
| PInf
| NInf
| NaN.

Definition Qltb (x y : Q) : bool := negb (Qle_bool y x).

(** [a < b]; every comparison with NaN is false. *)
Definition flt (a b : pyfloat) : bool :=
  match a, b with
  | NaN, _ | _, NaN => false
  | Fin x, Fin y => Qltb x y
  | NInf, NInf => false
  | NInf, _ => true
  | _, NInf => false
  | PInf, _ => false
  | Fin _, PInf => true
  end.

Definition not_nan (h : pyfloat) : bool :=
  match h with NaN => false | _ => true end.

(** [a > b] *)
Definition fgt (a b : pyfloat) : bool := flt b a.

(** [min(a, b)]: the first argument unless the second is smaller. *)
Definition fmin (a b : pyfloat) : pyfloat := if flt b a then b else a.

(** [max(a, b)]: the first argument unless the second is greater. *)
Definition fmax (a b : pyfloat) : pyfloat := if fgt b a then b else a.

(** Outcome of a computation that may raise. *)
Inductive exc (E A : Type) : Type :=
| Return (a : A)
| Raise (e : E).
Arguments Return {E A} a.
Arguments Raise {E A} e.

Definition bind {E A B} (m : exc E A) (k : A -> exc E B) : exc E B :=
  match m with
  | Return a => k a
  | Raise e => Raise e
  end.

(** The value a parsed JSON object holds under one key, as the code reads
    it with [dict.get] and then uses it at type [A]. *)
Inductive field (A : Type) : Type :=
| Absent                   (* key absent: [dict.get] returns its default *)
| Val (a : A)              (* a value of the expected type *)
| Mistyped.                (* a value on which the code's next operation raises *)
Arguments Absent {A}.
Arguments Val {A} a.
Arguments Mistyped {A}.

(** [T(parsed.get(key, default))]: [float(...)] raises on null, on a list
    and on a text that is not a number. *)
Definition read {E A} (e : E) (default : A) (f : field A) : exc E A :=
  match f with
  | Absent => Return default
  | Val a => Return a
  | Mistyped => Raise e
  end.

Definition typed {A} (f : field A) : bool :=
  match f with Mistyped => false | _ => true end.

(** Outcome of [self.llm.invoke] followed by the extraction of the JSON
    object from the reply. *)
Inductive llm_reply (A : Type) : Type :=
| CallRaises               (* [llm.invoke] raised *)
| NoJson                   (* no JSON object found in the reply, or it does not parse *)
| Reply (parsed : A).      (* the parsed object *)
Arguments CallRaises {A}.
Arguments NoJson {A}.
Arguments Reply {A} parsed.

End Py.
Import Py.

Notation "x <- m ;; k" := (bind m (fun x => k))
  (at level 61, m at next level, right associativity).

(* ------------------------------------------------------------------ *)
(** ** SLA stage: [src/agents/sla_assignment.py] *)

Module SLA.

(** The reply is read at the key ["sla_hours"] only (the other keys are
    copied into the metadata). *)
Definition sla_field : Type := field pyfloat.

Inductive error : Type :=
| LLMCallFailed            (* the call itself raised *)
| NoJsonFound              (* ValueError("No JSON found in LLM response") or JSONDecodeError *)
| BadSlaHours              (* float(sla_hours_raw) raised *)
| BadTimedelta.            (* timedelta(hours=...) raised: NaN or an infinity *)

Record result : Type := mkResult {
  sla_deadline : Q;
  sla_hours : Q
}.

Definition default_sla (urgency : string) : Q :=
  if urgency =? "urgent" then 0.5
  else if urgency =? "high" then 6
  else if urgency =? "medium" then 72
  else if urgency =? "low" then 168
  else 72.

(** [if h > hi: h = hi  elif h < lo: h = lo] *)
Definition band (lo hi : Q) (h : pyfloat) : pyfloat :=
  if fgt h (Fin hi) then Fin hi
  else if flt h (Fin lo) then Fin lo
  else h.

(** [if h > hi: h = hi] *)
Definition cap (hi : Q) (h : pyfloat) : pyfloat :=
  if fgt h (Fin hi) then Fin hi else h.

Definition on (b : bool) (f : pyfloat -> pyfloat) (h : pyfloat) : pyfloat :=
  if b then f h else h.

Definition fire_keywords : list string :=
  ["fire"; "burning"; "blaze"; "smoke"; "flames"; "on fire"; "caught fire"].
Definition medical_keywords : list string :=
  ["medical emergency"; "heart attack"; "stroke"; "unconscious";
   "not breathing"; "ambulance"].
Definition accident_keywords : list string :=
  ["accident"; "crash"; "collision"; "injured"; "hurt"; "bleeding"; "trapped"].
Definition gas_keywords : list string :=
  ["gas leak"; "gas smell"; "lpg leak"; "explosion risk"; "gas emergency"].
Definition collapse_keywords : list string :=
  ["building collapse"; "wall collapse"; "structure falling";
   "unsafe building"; "trapped"].
Definition crime_keywords : list string :=
  ["robbery"; "assault"; "attack"; "violence"; "threat"; "danger";
   "crime in progress"].
Definition electrical_keywords : list string :=
  ["electrical fire"; "power line down"; "sparking wires"; "live wire";
   "electrical hazard"].
Definition health_risk_keywords : list string :=
  ["contamination"; "disease outbreak"; "unsafe water"; "food poisoning";
   "health risk"].
Definition infrastructure_keywords : list string :=
  ["bridge collapse"; "major road damage"; "building structural";
   "infrastructure failure"].
Definition cosmetic_keywords : list string :=
  ["paint"; "aesthetic"; "cosmetic"; "minor repair"].

Definition police : list string := ["maharashtra_police"; "mumbai_police"].
Definition city_bodies : list string := ["bmc"; "pune_municipal"; "municipal"].

(** The [urgency == "urgent"] block, lines 158-228. *)
Definition clamp_urgent (d department : string) (h : pyfloat) : pyfloat :=
  let h := on (any_in fire_keywords d || (department =? "fire")) (band 0.25 0.5) h in
  let h := on (any_in medical_keywords d || (department =? "maharashtra_health"))
              (band 0.25 0.5) h in
  let h := on (any_in accident_keywords d && mem department police) (band 0.5 1) h in
  let h := on (any_in gas_keywords d) (band 0.25 0.5) h in
  let h := on (any_in collapse_keywords d) (band 0.5 1) h in
  let h := on (any_in crime_keywords d && mem department police) (band 0.25 0.5) h in
  let h := on (any_in electrical_keywords d && mem department ["fire"; "mseb"])
              (band 0.25 0.5) h in
  cap 2 h.

(** The [urgency == "high"] block, lines 233-274. *)
Definition clamp_high (d department : string) (h : pyfloat) : pyfloat :=
  let h := on (any_in health_risk_keywords d) (band 2 6) h in
  let h := on (any_in infrastructure_keywords d
               && mem department ["maharashtra_pwd"; "bmc"; "pune_municipal"; "municipal"])
              (band 4 12) h in
  let h := on ((is_in "power outage" d || is_in "power cut" d) && (department =? "mseb"))
              (band 2 8) h in
  let h := on ((is_in "water contamination" d || is_in "contaminated water" d)
               && mem department city_bodies) (band 2 6) h in
  cap 12 h.

(** The [urgency == "medium"] block, lines 279-339. *)
Definition clamp_medium (d department : string) (h : pyfloat) : pyfloat :=
  let h := on ((is_in "garbage" d || is_in "waste" d) && mem department city_bodies)
              (band 24 72) h in
  let h := on ((is_in "road" d || is_in "pothole" d)
               && mem department ["bmc"; "pune_municipal"; "maharashtra_pwd"; "municipal"])
              (band 48 120) h in
  let h := on ((is_in "water" d && is_in "supply" d) && mem department city_bodies)
              (band 24 72) h in
  let h := on ((is_in "electricity" d || is_in "power" d) && (department =? "mseb"))
              (band 24 72) h in
  let h := on ((is_in "drainage" d || is_in "drain" d) && mem department city_bodies)
              (band 48 96) h in
  let h := on ((is_in "street light" d || is_in "light" d) && mem department city_bodies)
              (band 48 120) h in
  band 24 168 h.

(** The [urgency == "low"] block, lines 344-359. *)
Definition clamp_low (d : string) (h : pyfloat) : pyfloat :=
  let h := on (any_in cosmetic_keywords d) (band 168 336) h in
  band 168 336 h.

(** Final validation, lines 365-368: two independent [if]s. *)
Definition final_validation (h : pyfloat) : pyfloat :=
  let h := if flt h (Fin 0.25) then Fin 0.25 else h in
  if fgt h (Fin 336) then Fin 336 else h.

Definition clamp (urgency description department : string) (h : pyfloat) : pyfloat :=
  let d := lower description in
  let h :=
    if urgency =? "urgent" then clamp_urgent d department h
    else if urgency =? "high" then clamp_high d department h
    else if urgency =? "medium" then clamp_medium d department h
    else if urgency =? "low" then clamp_low d h
    else h in
  final_validation h.

(** [float(parsed.get("sla_hours", default_hours))] *)
Definition read_sla_hours (urgency : string) (f : sla_field) : exc error pyfloat :=
  read BadSlaHours (Fin (default_sla urgency)) f.

(** [now + timedelta(hours=sla_hours)] *)
Definition deadline_after (now : Q) (h : pyfloat) : exc error result :=
  match h with
  | Fin q => Return (mkResult (now + q) q)
  | _ => Raise BadTimedelta
  end.

(** [_assign_sla_with_llm] *)
Definition assign_sla_with_llm (now : Q) (reply : llm_reply sla_field)
    (urgency description department : string) : exc error result :=
  match reply with
  | CallRaises => Raise LLMCallFailed
  | NoJson => Raise NoJsonFound
  | Reply f =>
      h <- read_sla_hours urgency f ;;
      deadline_after now (clamp urgency description department h)
  end.

(** [SLAAssignmentAgent.process]: any exception is re-raised as a
    [RuntimeError]; the cause is kept to tell the failures apart. *)
Definition process (now : Q) (reply : llm_reply sla_field)
    (urgency description department : string) : exc error result :=
  assign_sla_with_llm now reply urgency description department.

End SLA.

(* ------------------------------------------------------------------ *)
(** ** Sentiment stage: [src/agents/sentiment.py] *)

Module Sentiment.

(** The keys of the reply that [_analyze_sentiment_with_llm] reads.  The
    indicators are copied as they come: [None] is a value that is not a
    list, on which [in] / [append] raise. *)
Record reply_json : Type := mkReply {
  j_sentiment_score : field pyfloat;
  j_emotion_level : field string;
  j_urgency_boost : field pyfloat;
  j_priority_recommendation : field string;
  j_frustration_indicators : field (list string)
}.

Record result : Type := mkResult {
  sentiment_score : pyfloat;
  emotion_level : string;
  frustration_indicators : option (list string);
  urgency_boost : pyfloat;
  priority_recommendation : string
}.

(** The neutral result returned for an empty description and on any error. *)
Definition neutral : result := mkResult (Fin 0) "calm" (Some []) (Fin 0) "normal".

Definition valid_emotions : list string :=
  ["calm"; "concerned"; "frustrated"; "angry"; "urgent"].
Definition valid_priorities : list string := ["normal"; "high"; "urgent"].

(** Every entry the stage reads has the type the stage expects. *)
Definition readable (p : reply_json) : bool :=
  typed (j_sentiment_score p) && typed (j_emotion_level p)
  && typed (j_urgency_boost p) && typed (j_priority_recommendation p)
  && typed (j_frustration_indicators p).

(** [parsed.get("frustration_indicators", [])], kept without a check. *)
Definition raw_indicators (f : field (list string)) : option (list string) :=
  match f with
  | Absent => Some []
  | Val l => Some l
  | Mistyped => None
  end.

(** [_analyze_sentiment_with_llm]; [tt] stands for whichever exception is
    raised, all of which [process] handles alike. *)
Definition analyze_sentiment_with_llm (reply : llm_reply reply_json) : exc unit result :=
  match reply with
  | CallRaises | NoJson => Raise tt
  | Reply p =>
      s <- read tt (Fin 0) (j_sentiment_score p) ;;
      let s := fmax (Fin (-1)) (fmin (Fin 1) s) in
      e <- read tt "calm" (j_emotion_level p) ;;
      let e := lower e in
      let e := if mem e valid_emotions then e else "calm" in
      b <- read tt (Fin 0) (j_urgency_boost p) ;;
      let b := fmax (Fin 0) (fmin (Fin 1) b) in
      r <- read tt "normal" (j_priority_recommendation p) ;;
      let r := lower r in
      let r := if mem r valid_priorities then r else "normal" in
      Return (mkResult s e (raw_indicators (j_frustration_indicators p)) b r)
  end.

Definition critical_anger : list string :=
  ["very angry"; "extremely angry"; "furious"; "outraged"; "livid";
   "fed up"; "had enough"; "unacceptable"; "disgusted"; "appalled"].
Definition high_frustration : list string :=
  ["frustrated"; "annoyed"; "irritated"; "disappointed"; "upset";
   "not happy"; "dissatisfied"; "complained before"; "no response";
   "ignored"; "neglected"; "repeated complaint"].
Definition urgency_language : list string :=
  ["immediately"; "urgent"; "asap"; "right now"; "emergency";
   "critical"; "life threatening"; "dangerous"; "unsafe"].
Definition positive_indicators : list string :=
  ["thank you"; "appreciate"; "grateful"; "please"; "kindly";
   "respectfully"; "hope"; "would be great"].

(** Lines 157-163. *)
Definition boost_anger (r : result) : exc unit result :=
  match frustration_indicators r with
  | None => Raise tt
  | Some l =>
      let l := if mem "critical_anger" l then l
               else (l ++ ["critical_anger_detected"])%list in
      Return (mkResult (fmin (Fin (-0.8)) (sentiment_score r)) "angry" (Some l)
                       (fmax (Fin 0.7) (urgency_boost r)) "urgent")
  end.

(** Lines 171-177. *)
Definition boost_frustration (r : result) : result :=
  mkResult (fmin (Fin (-0.5)) (sentiment_score r))
           (if mem (emotion_level r) ["angry"; "urgent"] then emotion_level r
            else "frustrated")
           (frustration_indicators r)
           (fmax (Fin 0.4) (urgency_boost r))
           (if priority_recommendation r =? "normal" then "high"
            else priority_recommendation r).

(** Lines 184-187. *)
Definition boost_urgency_language (r : result) : result :=
  mkResult (sentiment_score r) (emotion_level r) (frustration_indicators r)
           (fmax (Fin 0.5) (urgency_boost r))
           (if priority_recommendation r =? "urgent" then priority_recommendation r
            else "high").

(** Lines 194-196. *)
Definition soften_positive (r : result) : result :=
  mkResult (if flt (sentiment_score r) (Fin 0)
            then fmax (Fin (-0.3)) (sentiment_score r)
            else sentiment_score r)
           (emotion_level r) (frustration_indicators r) (urgency_boost r)
           (priority_recommendation r).

(** [_apply_keyword_boosts] *)
Definition apply_keyword_boosts (description : string) (r : result) : exc unit result :=
  let d := lower description in
  r <- (if any_in critical_anger d then boost_anger r else Return r) ;;
  let r := if any_in high_frustration d then boost_frustration r else r in
  let r := if any_in urgency_language d then boost_urgency_language r else r in
  let r := if any_in positive_indicators d then soften_positive r else r in
  Return r.

(** [SentimentAnalysisAgent.process]: never raises. *)
Definition process (reply : llm_reply reply_json) (description : string) : result :=
  match description with
  | EmptyString => neutral
  | _ =>
      match (r <- analyze_sentiment_with_llm reply ;; apply_keyword_boosts description r) with
      | Return r => r
      | Raise _ => neutral
      end
  end.

End Sentiment.

(* ------------------------------------------------------------------ *)
(** ** Department catalogue: [src/config/india_data.py] *)

Module Departments.

(** [INDIAN_DEPARTMENTS]: key and display name. *)
Definition INDIAN_DEPARTMENTS : list (string * string) :=
  [("bmc", "Brihanmumbai Municipal Corporation (BMC)");
   ("pune_municipal", "Pune Municipal Corporation (PMC)");
   ("nagpur_municipal", "Nagpur Municipal Corporation (NMC)");
   ("municipal", "Municipal Corporation");
   ("maharashtra_police", "Maharashtra Police");
   ("mumbai_police", "Mumbai Police");
   ("fire", "Maharashtra Fire Department");
   ("maharashtra_pwd", "Maharashtra Public Works Department (PWD)");
   ("msrtc", "Maharashtra State Road Transport Corporation (MSRTC)");
   ("maharashtra_health", "Maharashtra Health Department");
   ("maharashtra_education", "Maharashtra Education Department");
   ("central_railways", "Indian Railways");
   ("central_post", "India Post");
   ("mseb", "Maharashtra State Electricity Board (MSEB)");
   ("central_telecom", "Telecom Regulatory Authority");
   ("maharashtra_environment", "Maharashtra Environment Department");
   ("rural_development", "Rural Development Department")].

Definition is_department (k : string) : bool :=
  mem k (map fst INDIAN_DEPARTMENTS).

(** [INDIAN_DEPARTMENTS[k]["name"]] for a key of the catalogue. *)
Definition name_of (k : string) : string :=
  match find (fun kv => fst kv =? k) INDIAN_DEPARTMENTS with
  | Some kv => snd kv
  | None => ""
  end.

End Departments.

(* ------------------------------------------------------------------ *)
(** ** Classification stage: [src/agents/classification.py] *)

Module Classification.
Import Departments.

(** The location dictionary as the agent reads it: whether it is non-empty
    and what it holds under ["city"] ([Mistyped]: a value without
    [.lower()], such as the [None] of an unset form field). *)
Record location : Type := mkLocation {
  loc_nonempty : bool;
  loc_city : field string
}.

(** The keys of the reply that [_classify_with_llm] reads.  [j_location]
    is [Mistyped] for a truthy value that [dict.update] rejects. *)
Record reply_json : Type := mkReply {
  j_urgency : option string;
  j_category : option string;
  j_department : option string;
  j_department_name : option string;
  j_location : field unit
}.

Inductive error : Type :=
| EmptyDescription
| LLMCallFailed
| NoJsonFound
| CityNotText
| BadLocation.

Record result : Type := mkResult {
  urgency : string;
  structured_category : string;
  department : string;
  department_name : string
}.

Definition fire_keywords : list string :=
  ["fire"; "burning"; "blaze"; "smoke"; "flames"; "on fire"; "caught fire";
   "fire broke out"; "fire incident"; "building on fire"; "house on fire"].
Definition medical_keywords : list string :=
  ["medical emergency"; "heart attack"; "stroke"; "unconscious";
   "not breathing"; "ambulance needed"; "ambulance"; "emergency medical"].
Definition accident_keywords : list string :=
  ["accident"; "crash"; "collision"; "injured"; "hurt"; "bleeding"; "trapped";
   "road accident"; "car accident"].
Definition gas_keywords : list string :=
  ["gas leak"; "gas smell"; "lpg leak"; "explosion risk"; "gas emergency";
   "gas"; "lpg"; "cng leak"].
Definition police_keywords : list string :=
  ["police"; "cop"; "constable"; "officer"; "law enforcement"; "police station";
   "police help"; "police complaint"; "file fir"; "fir";
   "first information report"; "police intervention"; "police action";
   "police report"; "police case"; "police investigation"; "police department";
   "robbery"; "assault"; "attack"; "violence"; "threat"; "crime"; "theft";
   "fraud"; "stolen"; "robbed"; "mugging"; "burglary"; "break-in"; "vandalism";
   "harassment"; "molestation"; "domestic violence"; "abuse"; "cybercrime";
   "scam"; "cheating"; "illegal"; "criminal"; "criminal activity";
   "law violation"; "illegal activity";
   "security issue"; "safety concern"; "unsafe"; "dangerous situation";
   "threatening"; "intimidation"; "extortion"; "blackmail"; "kidnapping";
   "missing person";
   "traffic violation"; "rash driving"; "drunk driving"; "hit and run";
   "traffic police";
   "legal action"; "law and order"; "public order"; "disturbance"; "riot";
   "commotion"].
Definition electricity_keywords : list string :=
  ["electricity"; "power"; "meter"; "electric"; "power cut"; "load shedding";
   "blackout"; "outage"; "voltage"; "transformer"].
Definition garbage_keywords : list string :=
  ["garbage"; "waste"; "sewage"; "trash"; "dumping"; "garbage collection";
   "solid waste"; "refuse"].
Definition water_keywords : list string :=
  ["water supply"; "water shortage"; "water pressure"; "no water";
   "water problem"; "water issue"; "water cut"; "water connection"].
Definition road_keywords : list string :=
  ["road"; "pothole"; "bridge"; "street"; "highway"; "pavement"; "footpath";
   "sidewalk"; "road repair"; "road condition"].
Definition bus_keywords : list string :=
  ["bus"; "transport"; "st bus"; "state transport"; "msrtc"; "public transport"].
Definition train_keywords : list string :=
  ["train"; "railway"; "railway station"; "rail"; "locomotive"; "railway ticket"].
Definition school_keywords : list string :=
  ["school"; "education"; "college"; "teacher"; "student"; "tuition";
   "scholarship"; "exam"].
Definition hospital_keywords : list string :=
  ["hospital"; "health"; "clinic"; "doctor"; "medicine"; "treatment";
   "healthcare"; "medical"].
Definition pollution_keywords : list string :=
  ["pollution"; "environment"; "air quality"; "noise"; "toxic";
   "contamination"; "emission"].
Definition post_keywords : list string :=
  ["post"; "mail"; "postal"; "post office"; "parcel"; "letter"].
Definition telecom_keywords : list string :=
  ["internet"; "telecom"; "mobile"; "phone"; "network"; "signal"; "data";
   "broadband"].
Definition drainage_keywords : list string :=
  ["drainage"; "sewer"; "sewerage"; "drain"; "flooding"; "water logging"].
Definition street_light_keywords : list string :=
  ["street light"; "streetlight"; "lamp post"; "lighting"; "dark street"].

Definition valid_urgencies : list string := ["urgent"; "high"; "medium"; "low"].
Definition valid_categories : list string :=
  ["infrastructure"; "utilities"; "sanitation"; "transport"; "health";
   "education"; "safety"; "environment"; "governance"; "other"].

(** [provided_location.get("city", "").lower() if provided_location else ""] *)
Definition get_city (loc : location) : exc error string :=
  if loc_nonempty loc
  then c <- read CityNotText "" (loc_city loc) ;; Return (lower c)
  else Return "".

(** The city, or ["mumbai"] when there is none and the description names it. *)
Definition police_city (loc : location) (d : string) : exc error string :=
  city <- get_city loc ;;
  Return (if (city =? "") && is_in "mumbai" d then "mumbai" else city).

Definition police_for (city : string) : string :=
  if is_in "mumbai" city then "mumbai_police" else "maharashtra_police".

Definition municipal_for (city : string) : string :=
  if is_in "mumbai" city then "bmc"
  else if is_in "pune" city then "pune_municipal"
  else if is_in "nagpur" city then "nagpur_municipal"
  else "municipal".

(** What the keyword scan fixes: department, urgency, category. *)
Definition fixed : Type := (option string * option string * option string)%type.

(** Lines 111-242: the first matching branch wins. *)
Definition keyword_routing (loc : location) (d : string) : exc error fixed :=
  let by_city cat :=
    city <- get_city loc ;; Return (Some (municipal_for city), None, Some cat) in
  if any_in fire_keywords d then
    Return (Some "fire", Some "urgent", Some "safety")
  else if any_in medical_keywords d then
    Return (Some "maharashtra_health", Some "urgent", Some "health")
  else if any_in accident_keywords d then
    city <- get_city loc ;;
    Return (Some (police_for city), Some "urgent", Some "safety")
  else if any_in gas_keywords d then
    Return (Some "fire", Some "urgent", Some "safety")
  else if any_in police_keywords d then
    city <- police_city loc d ;;
    Return (Some (police_for city),
            Some (if is_in "in progress" d || is_in "happening" d || is_in "urgent" d
                  then "urgent" else "high"),
            Some "safety")
  else if any_in electricity_keywords d then
    Return (Some "mseb", None, Some "utilities")
  else if any_in garbage_keywords d then by_city "sanitation"
  else if any_in water_keywords d then by_city "utilities"
  else if any_in road_keywords d then by_city "infrastructure"
  else if any_in bus_keywords d then Return (Some "msrtc", None, Some "transport")
  else if any_in train_keywords d then
    Return (Some "central_railways", None, Some "transport")
  else if any_in school_keywords d then
    Return (Some "maharashtra_education", None, Some "education")
  else if any_in hospital_keywords d then
    Return (Some "maharashtra_health", None, Some "health")
  else if any_in pollution_keywords d then
    Return (Some "maharashtra_environment", None, Some "environment")
  else if any_in post_keywords d then Return (Some "central_post", None, Some "other")
  else if any_in telecom_keywords d then
    Return (Some "central_telecom", None, Some "utilities")
  else if any_in drainage_keywords d then by_city "infrastructure"
  else if any_in street_light_keywords d then by_city "infrastructure"
  else Return (None, None, None).

(** Lines 293-333: the department of the reply, re-checked against the
    keywords when the reply says ["municipal"]. *)
Definition department_from_reply (loc : location) (d : string) (p : reply_json)
    (urgency category : string) : exc error (string * string * string) :=
  let dep := match j_department p with Some k => k | None => "municipal" end in
  if dep =? "municipal" then
    if any_in police_keywords d then
      city <- police_city loc d ;;
      Return (police_for city, str_or urgency "high", str_or category "safety")
    else if any_in ["electricity"; "power"; "meter"; "electric"; "power cut"] d then
      Return ("mseb", urgency, str_or category "utilities")
    else if any_in ["bus"; "transport"; "st bus"; "state transport"] d then
      Return ("msrtc", urgency, str_or category "transport")
    else if any_in ["train"; "railway"; "railway station"] d then
      Return ("central_railways", urgency, str_or category "transport")
    else if any_in ["school"; "education"; "college"; "teacher"] d then
      Return ("maharashtra_education", urgency, str_or category "education")
    else if any_in ["hospital"; "health"; "clinic"; "doctor"] d then
      Return ("maharashtra_health", urgency, str_or category "health")
    else if any_in ["pollution"; "environment"; "air quality"] d then
      Return ("maharashtra_environment", urgency, str_or category "environment")
    else Return (dep, urgency, category)
  else Return (dep, urgency, category).

(** Lines 336-348: police matters never stay with a municipal body. *)
Definition police_safety_check (loc : location) (d : string)
    (x : string * string * string) : exc error (string * string * string) :=
  let '(dep, urgency, category) := x in
  if any_in police_keywords d
     && mem dep ["municipal"; "bmc"; "pune_municipal"; "nagpur_municipal"]
  then
    city <- police_city loc d ;;
    Return (police_for city,
            (if mem urgency ["urgent"; "high"] then urgency else "high"),
            "safety")
  else Return x.

(** Lines 351-370: a plain ["municipal"] is refined by the city. *)
Definition municipal_by_location (loc : location) (d : string) (dep : string)
    : exc error string :=
  if dep =? "municipal" then
    city <- get_city loc ;;
    let city :=
      if city =? "" then
        if is_in "mumbai" d then "mumbai"
        else if is_in "pune" d then "pune"
        else if is_in "nagpur" d then "nagpur"
        else city
      else city in
    Return (municipal_for city)
  else Return dep.

(** [_classify_with_llm] *)
Definition classify_with_llm (loc : location) (reply : llm_reply reply_json)
    (description : string) : exc error result :=
  let d := lower description in
  kw <- keyword_routing loc d ;;
  let '(kw_department, kw_urgency, kw_category) := kw in
  match reply with
  | CallRaises => Raise LLMCallFailed
  | NoJson => Raise NoJsonFound
  | Reply p =>
      let urgency :=
        match kw_urgency with
        | Some u => u
        | None => match j_urgency p with Some u => u | None => "medium" end
        end in
      let urgency := if mem urgency valid_urgencies then urgency else "medium" in
      let category :=
        match kw_category with
        | Some c => c
        | None => match j_category p with Some c => c | None => "other" end
        end in
      let category := if mem category valid_categories then category else "other" in
      x <- match kw_department with
           | Some k => Return (k, urgency, category)
           | None => department_from_reply loc d p urgency category
           end ;;
      x <- police_safety_check loc d x ;;
      let '(dep, urgency, category) := x in
      dep <- municipal_by_location loc d dep ;;
      let dep := if is_department dep then dep else "municipal" in
      let name := match j_department_name p with
                  | Some n => n
                  | None => name_of dep
                  end in
      _ <- read BadLocation tt (j_location p) ;;
      Return (mkResult urgency category dep name)
  end.

(** [ClassificationAgent.process]: an empty description is refused, and
    every exception of the classification is re-raised. *)
Definition process (loc : location) (reply : llm_reply reply_json)
    (description : string) : exc error result :=
  match description with
  | EmptyString => Raise EmptyDescription
  | _ => classify_with_llm loc reply description
  end.

End Classification.

(* ------------------------------------------------------------------ *)
(** ** Fallback agents: [src/agents/complaint_understanding.py],
       [src/agents/department_routing.py] *)

Module Understanding.

Record reply_json : Type := mkReply {
  j_category : option string;
  j_urgency : option string;
  j_location : field unit
}.

Record result : Type := mkResult {
  structured_category : string;
  urgency : string
}.

(** [ComplaintUnderstandingAgent.process]; [tt] is any exception. *)
Definition process (reply : llm_reply reply_json) (description : string)
    : exc unit result :=
  match description with
  | EmptyString => Raise tt
  | _ =>
      match reply with
      | CallRaises | NoJson => Raise tt
      | Reply p =>
          _ <- read tt tt (j_location p) ;;
          let category := match j_category p with Some c => c | None => "other" end in
          let category :=
            if mem category Classification.valid_categories then category else "other" in
          let urgency := match j_urgency p with Some u => u | None => "medium" end in
          let urgency :=
            if mem urgency Classification.valid_urgencies then urgency else "medium" in
          Return (mkResult category urgency)
      end
  end.

End Understanding.

Module Routing.
Import Departments.

Record reply_json : Type := mkReply {
  j_department : option string;
  j_department_name : option string
}.

Record result : Type := mkResult {
  department : string;
  department_name : string
}.

(** [DepartmentRoutingAgent.process]; [tt] is any exception. *)
Definition process (reply : llm_reply reply_json) : exc unit result :=
  match reply with
  | CallRaises | NoJson => Raise tt
  | Reply p =>
      let dep := match j_department p with Some k => k | None => "municipal" end in
      let dep := if is_department dep then dep else "municipal" in
      let name := match j_department_name p with Some n => n | None => "" end in
      let name := str_or name (name_of dep) in
      Return (mkResult dep name)
  end.

End Routing.

(* ------------------------------------------------------------------ *)
(** ** Persistent store: [src/models/database.py], [src/models/schemas.py]

    The two tables are lists.  [complaints] is kept newest first, the
    order in which the queries of the code ask for their rows
    ([order("created_at", desc=True)]); [escalations] grows at its end.
    A read always answers.  A write is performed or refused: each
    writing method takes the store's answer as its first argument, which
    the caller's environment supplies. *)

Module Store.

(** The entries of the pipeline's error list, by the stage that failed
    (the text of the exception is not kept). *)
Inductive stage_error : Type :=
| ClassificationFailed
| SentimentFailed
| SLAFailed
| PolicyFailed
| PersistenceFailed
| NotificationFailed
| WorkflowFailed.

(** [ComplaintStatus] *)
Definition OPEN := "open".
Definition IN_PROGRESS := "in_progress".
Definition ESCALATED := "escalated".
Definition RESOLVED := "resolved".
Definition CLOSED := "closed".

(** [EscalationLevel] *)
Definition NONE := "none".
Definition LEVEL_1 := "level_1".
Definition LEVEL_2 := "level_2".
Definition LEVEL_3 := "level_3".
Definition LEVEL_4 := "level_4".

Record complaint : Type := mkComplaint {
  c_id : string;
  c_description : string;
  c_structured_category : string;
  c_responsible_department : string;
  c_status : string;
  c_urgency : string;
  c_sla_deadline : option Q;
  c_escalation_level : string;
  c_citizen_email : string;
  c_sla_hours : Q;
  c_workflow_errors : list stage_error;
  c_followup_count : nat;
  c_updated_at : Q;
  (* agent_metadata["admin_notes"]: the note and the status it came with *)
  c_admin_notes : list (string * string)
}.

(** The reason text of an escalation: the one the decision service gave,
    or the default built from the hours overdue and the urgency. *)
Inductive reason : Type :=
| Given (text : string)
| Overdue (hours : Q) (urgency : string).

Record escalation : Type := mkEscalation {
  e_complaint_id : string;
  e_escalation_level : string;
  e_reason : reason;
  e_escalated_to : string;
  e_at : Q                       (* the clock reading that ends the record's id *)
}.

Record db : Type := mkDb {
  complaints : list complaint;
  escalations : list escalation
}.

(** [db.get_complaint] *)
Definition get_complaint (d : db) (id : string) : option complaint :=
  find (fun c => c_id c =? id) (complaints d).

(** [db.create_complaint] *)
Definition create_complaint (d : db) (c : complaint) : db :=
  mkDb (c :: complaints d) (escalations d).

(** [updates["updated_at"] = datetime.utcnow().isoformat()] *)
Definition touch (now : Q) (c : complaint) : complaint :=
  mkComplaint (c_id c) (c_description c) (c_structured_category c)
    (c_responsible_department c) (c_status c) (c_urgency c) (c_sla_deadline c)
    (c_escalation_level c) (c_citizen_email c) (c_sla_hours c)
    (c_workflow_errors c) (c_followup_count c) now (c_admin_notes c).

(** [table("complaints").update(updates).eq("id", id).execute()], once
    performed: the rows with this id get the new fields and a new
    [updated_at]. *)
Definition updated_rows (now : Q) (d : db) (id : string)
    (updates : complaint -> complaint) : db :=
  mkDb (map (fun c => if c_id c =? id then touch now (updates c) else c)
            (complaints d))
       (escalations d).

(** [db.update_complaint]: the store after the call and what the call
    returns, [result.data[0]] or [None].  A refused write is logged,
    changes nothing and gives [None] (lines 201-204); so does an update
    that no row matches. *)
Definition update_complaint (accepted : bool) (now : Q) (d : db) (id : string)
    (updates : complaint -> complaint) : db * option complaint :=
  if accepted then
    let d := updated_rows now d id updates in
    (d, get_complaint d id)
  else (d, None).

(** [db.get_complaints_by_status] *)
Definition get_complaints_by_status (d : db) (status : string) (limit : nat)
    : list complaint :=
  firstn limit (filter (fun c => c_status c =? status) (complaints d)).

(** [db.get_complaints_breaching_sla]: deadline before now, neither
    resolved nor closed. *)
Definition breaching (now : Q) (c : complaint) : bool :=
  match c_sla_deadline c with
  | Some dl => Qltb dl now
  | None => false
  end
  && negb (c_status c =? RESOLVED) && negb (c_status c =? CLOSED).

Definition get_complaints_breaching_sla (now : Q) (d : db) : list complaint :=
  filter (breaching now) (complaints d).

(** [db.create_escalation]: appends the record, or raises when the store
    refuses the insert (lines 339-347); [tt] is the exception. *)
Definition create_escalation (accepted : bool) (d : db) (e : escalation)
    : exc unit db :=
  if accepted then Return (mkDb (complaints d) (escalations d ++ [e]))
  else Raise tt.

(** [db.get_escalations_for_complaint] *)
Definition get_escalations_for_complaint (d : db) (id : string) : list escalation :=
  filter (fun e => e_complaint_id e =? id) (escalations d).

End Store.

(* ------------------------------------------------------------------ *)
(** ** Complaint pipeline: [src/workflows/complaint_workflow.py] *)

Module Pipeline.
Import Store.

(** What one run of the pipeline meets outside itself: the replies of the
    language model to each stage, whether the store accepts the new row,
    the clock and the identifier drawn for the complaint. *)
Record env : Type := mkEnv {
  classification_reply : llm_reply Classification.reply_json;
  understanding_reply : llm_reply Understanding.reply_json;
  routing_reply : llm_reply Routing.reply_json;
  sentiment_reply : llm_reply Sentiment.reply_json;
  sla_reply : llm_reply SLA.sla_field;
  (* the policy agent's result: legal SLA hours and reported violation;
     [None] when the node's [try] block raises *)
  policy_result : option (option Q * bool);
  (* the communication agent's message, [None] when it raises *)
  communication_result : option string;
  create_complaint_succeeds : bool;
  uuid4 : string;
  utcnow : Q
}.

(** The input of [ComplaintWorkflow.run]. *)
Record input : Type := mkInput {
  in_description : string;
  in_location : Classification.location;
  in_citizen_email : string
}.

(** [ComplaintState] *)
Record state : Type := mkState {
  complaint_id : string;
  description : string;
  location : Classification.location;
  citizen_email : string;
  structured_category : string;
  urgency : string;
  department : string;
  department_name : string;
  sla_deadline : option Q;
  sla_hours : Q;
  sentiment_score : pyfloat;
  emotion_level : string;
  urgency_boost : pyfloat;
  priority_recommendation : string;
  policy_violation : bool;
  status : string;
  escalation_level : string;
  citizen_message : string;
  errors : list stage_error
}.

Definition set_classification (cat urg dep name : string) (s : state) : state :=
  mkState (complaint_id s) (description s) (location s) (citizen_email s)
    cat urg dep name (sla_deadline s) (sla_hours s) (sentiment_score s)
    (emotion_level s) (urgency_boost s) (priority_recommendation s)
    (policy_violation s) (status s) (escalation_level s) (citizen_message s)
    (errors s).

Definition set_urgency (urg : string) (s : state) : state :=
  set_classification (structured_category s) urg (department s) (department_name s) s.

Definition set_sentiment (r : Sentiment.result) (s : state) : state :=
  mkState (complaint_id s) (description s) (location s) (citizen_email s)
    (structured_category s) (urgency s) (department s) (department_name s)
    (sla_deadline s) (sla_hours s) (Sentiment.sentiment_score r)
    (Sentiment.emotion_level r) (Sentiment.urgency_boost r)
    (Sentiment.priority_recommendation r)
    (policy_violation s) (status s) (escalation_level s) (citizen_message s)
    (errors s).

Definition set_sla (deadline hours : Q) (s : state) : state :=
  mkState (complaint_id s) (description s) (location s) (citizen_email s)
    (structured_category s) (urgency s) (department s) (department_name s)
    (Some deadline) hours (sentiment_score s)
    (emotion_level s) (urgency_boost s) (priority_recommendation s)
    (policy_violation s) (status s) (escalation_level s) (citizen_message s)
    (errors s).

Definition set_policy_violation (v : bool) (s : state) : state :=
  mkState (complaint_id s) (description s) (location s) (citizen_email s)
    (structured_category s) (urgency s) (department s) (department_name s)
    (sla_deadline s) (sla_hours s) (sentiment_score s)
    (emotion_level s) (urgency_boost s) (priority_recommendation s)
    v (status s) (escalation_level s) (citizen_message s) (errors s).

Definition set_complaint_id (id : string) (s : state) : state :=
  mkState id (description s) (location s) (citizen_email s)
    (structured_category s) (urgency s) (department s) (department_name s)
    (sla_deadline s) (sla_hours s) (sentiment_score s)
    (emotion_level s) (urgency_boost s) (priority_recommendation s)
    (policy_violation s) (status s) (escalation_level s) (citizen_message s)
    (errors s).

Definition set_citizen_message (m : string) (s : state) : state :=
  mkState (complaint_id s) (description s) (location s) (citizen_email s)
    (structured_category s) (urgency s) (department s) (department_name s)
    (sla_deadline s) (sla_hours s) (sentiment_score s)
    (emotion_level s) (urgency_boost s) (priority_recommendation s)
    (policy_violation s) (status s) (escalation_level s) m (errors s).

(** [state.setdefault("errors", []).append(...)] *)
Definition add_error (e : stage_error) (s : state) : state :=
  mkState (complaint_id s) (description s) (location s) (citizen_email s)
    (structured_category s) (urgency s) (department s) (department_name s)
    (sla_deadline s) (sla_hours s) (sentiment_score s)
    (emotion_level s) (urgency_boost s) (priority_recommendation s)
    (policy_violation s) (status s) (escalation_level s) (citizen_message s)
    (errors s ++ [e])%list.

(** The safety-net list of [_classify_complaint], line 135. *)
Definition fire_keywords : list string :=
  ["fire"; "burning"; "blaze"; "smoke"; "flames"; "on fire"; "caught fire";
   "fire broke out"].

(** The last resort of [_classify_complaint], lines 195-198. *)
Definition ultimate_fallback (s : state) : state :=
  set_classification "other" "medium" "municipal" "Municipal Corporation" s.

(** Lines 173-198: the two separate agents, then the last resort. *)
Definition classify_fallback (e : env) (s : state) : state :=
  match Understanding.process (understanding_reply e) (description s) with
  | Return u =>
      let s := set_classification (Understanding.structured_category u)
                 (Understanding.urgency u) (department s) (department_name s) s in
      match Routing.process (routing_reply e) with
      | Return r =>
          set_classification (structured_category s) (urgency s)
            (Routing.department r) (Routing.department_name r) s
      | Raise _ => ultimate_fallback s
      end
  | Raise _ => ultimate_fallback s
  end.

(** [_classify_complaint] *)
Definition classify_complaint (e : env) (s : state) : state :=
  match Classification.process (location s) (classification_reply e) (description s) with
  | Return r =>
      let s := set_classification (Classification.structured_category r)
                 (Classification.urgency r) (Classification.department r)
                 (Classification.department_name r) s in
      let has_fire := any_in fire_keywords (lower (description s)) in
      let s := if has_fire && negb (department s =? "fire")
               then set_classification "safety" "urgent" "fire"
                      "Maharashtra Fire Department" s
               else s in
      let s := if has_fire && negb (urgency s =? "urgent")
               then set_urgency "urgent" s else s in
      set_sentiment (Sentiment.mkResult (Fin 0) "calm" (Some []) (Fin 0) "normal") s
  | Raise _ => classify_fallback e (add_error ClassificationFailed s)
  end.

(** [urgency_map.get(state["urgency"], 2)] *)
Definition urgency_level (u : string) : nat :=
  if u =? "low" then 1
  else if u =? "medium" then 2
  else if u =? "high" then 3
  else if u =? "urgent" then 4
  else 2.

(** [low -> medium], [medium -> high], anything else unchanged. *)
Definition one_step_up (u : string) : string :=
  if u =? "low" then "medium"
  else if u =? "medium" then "high"
  else u.

(** Lines 218-240 of [_analyze_sentiment]. *)
Definition adjust_urgency (emotion priority u : string) : string :=
  let level := urgency_level u in
  if mem emotion ["angry"; "urgent"] then
    if (level <? 4)%nat then "urgent" else u
  else if emotion =? "frustrated" then
    if (level <? 3)%nat then one_step_up u else u
  else if (priority =? "high") && (level <? 3)%nat then one_step_up u
  else u.

(** [_analyze_sentiment].  The sentiment agent never raises, so the
    [except] branch of the node is not entered. *)
Definition analyze_sentiment (e : env) (s : state) : state :=
  let r := Sentiment.process (sentiment_reply e) (description s) in
  let s := set_sentiment r s in
  set_urgency (adjust_urgency (emotion_level s) (priority_recommendation s) (urgency s)) s.

(** The fallback of [_assign_sla], lines 297-312. *)
Definition fallback_sla_hours (s : state) : Q :=
  if any_in ["fire"; "burning"; "blaze"; "smoke"; "flames"] (lower (description s))
     || (department s =? "fire") then 0.5
  else if urgency s =? "urgent" then 1
  else if urgency s =? "high" then 6
  else if urgency s =? "medium" then 72
  else 168.

(** [_assign_sla] *)
Definition assign_sla (e : env) (s : state) : state :=
  match SLA.process (utcnow e) (sla_reply e) (urgency s) (description s) (department s) with
  | Return r => set_sla (SLA.sla_deadline r) (SLA.sla_hours r) s
  | Raise _ =>
      let s := add_error SLAFailed s in
      let h := fallback_sla_hours s in
      set_sla (utcnow e + h) h s
  end.

(** Python truthiness of a number. *)
Definition nonzero (q : Q) : bool := negb (Qeq_bool q 0).

(** [_analyze_policy]: the violation flag of the agent, forced when the
    assigned SLA exceeds the legal one. *)
Definition analyze_policy (e : env) (s : state) : state :=
  match policy_result e with
  | Some (legal, violation) =>
      let exceeds :=
        match legal with
        | Some l => nonzero l && nonzero (sla_hours s) && Qltb l (sla_hours s)
        | None => false
        end in
      set_policy_violation (if exceeds then true else violation) s
  | None => set_policy_violation false (add_error PolicyFailed s)
  end.

(** The row that [_persist_complaint] builds, lines 393-419. *)
Definition complaint_data (e : env) (s : state) : complaint :=
  mkComplaint (complaint_id s) (description s) (structured_category s)
    (department s) OPEN (urgency s) (sla_deadline s) NONE (citizen_email s)
    (sla_hours s) (errors s) 0 (utcnow e) [].

(** [_persist_complaint]: the state and the store after the node. *)
Definition persist_complaint (e : env) (s : state) (d : db) : state * db :=
  let id := str_or (complaint_id s) (uuid4 e) in
  let s := set_complaint_id id s in
  if create_complaint_succeeds e
  then (s, create_complaint d (complaint_data e s))
  else (add_error PersistenceFailed s, d).

(** [_notify_citizen] *)
Definition notify_citizen (e : env) (s : state) : state :=
  match communication_result e with
  | Some m => set_citizen_message m s
  | None => add_error NotificationFailed s
  end.

Definition initial_state (i : input) : state :=
  mkState "" (in_description i) (in_location i) (in_citizen_email i)
    "" "" "" "" None 0 (Fin 0) "calm" (Fin 0) "normal" false OPEN NONE "" [].

(** [ComplaintWorkflow.run]: the graph
    classify -> analyze_sentiment -> assign_sla -> analyze_policy ->
    persist -> notify.  Every node handles its own exceptions, so the
    [except] branch of [run] is not entered. *)
Definition run (e : env) (i : input) (d : db) : state * db :=
  let s := classify_complaint e (initial_state i) in
  let s := analyze_sentiment e s in
  let s := assign_sla e s in
  let s := analyze_policy e s in
  let '(s, d) := persist_complaint e s d in
  (notify_citizen e s, d).

End Pipeline.

(* ------------------------------------------------------------------ *)
(** ** Monitoring and escalation: [src/agents/monitoring.py],
       [src/agents/followup.py], [src/agents/escalation.py],
       [src/workflows/monitoring_workflow.py] *)

Module Monitoring.
Import Store Departments.

(** What the escalation prompt is built from, lines 107-120 of
    [escalation.py]: the decision service sees nothing else. *)
Record decision_input : Type := mkDecisionInput {
  di_complaint_id : string;
  di_category : string;
  di_description : string;        (* the first 200 characters *)
  di_department : string;
  di_hours_overdue : Q;
  di_urgency : string;
  di_past_escalations : nat
}.

(** The keys of the decision that [_escalate_with_llm] reads;
    [j_escalation_needed] is the truth value of the entry. *)
Record decision_json : Type := mkDecision {
  j_escalation_needed : option bool;
  j_escalation_level : option string;
  j_authority : option string;
  j_reason : option string
}.

(** The decision service: a function of the prompt it is given. *)
Definition service : Type := decision_input -> llm_reply decision_json.

(** The result of [EscalationAgent.process]. *)
Inductive decision : Type :=
| NotFound                                   (* {"error": "Complaint not found"} *)
| NoEscalation (current_level : string)      (* escalation_needed: False *)
| Escalate (level escalated_to : string) (why : reason).

(** [round(x, 2)] *)
Definition round2 (x : Q) : Q :=
  let y := x * 100 in
  let z := Qfloor y in
  let r := y - inject_Z z in
  let up :=
    if Qltb (1 # 2) r then true
    else if Qltb r (1 # 2) then false
    else Z.odd z in
  inject_Z (if up then z + 1 else z) / 100.

(** [MonitoringAgent.check_complaint_status]: [(is_breaching_sla,
    hours_overdue)]. *)
Definition check_complaint_status (now : Q) (c : complaint) : bool * Q :=
  match c_sla_deadline c with
  | Some dl => if Qltb dl now then (true, round2 (now - dl)) else (false, 0)
  | None => (false, 0)
  end.

(** [MonitoringAgent._find_stale_complaints]: no update in more than
    seven whole days. *)
Definition stale7 (now : Q) (c : complaint) : bool :=
  (7 <? Qfloor ((now - c_updated_at c) / 24))%Z.

(** [MonitoringAgent.process]: the ids of the breaching and of the stale
    complaints. *)
Definition monitor (now : Q) (d : db) : list string * list string :=
  (map c_id (get_complaints_breaching_sla now d),
   map c_id (filter (stale7 now) (get_complaints_by_status d IN_PROGRESS 100))).

(** [FollowUpAgent.find_stale_complaints(days_without_update=3)] *)
Definition find_stale_complaints (now : Q) (d : db) : list complaint :=
  filter (fun c => Qltb (c_updated_at c) (now - 72))
         (get_complaints_by_status d IN_PROGRESS 1000).

(** The fields that [process_followup] writes: the count read from the
    complaint as it was found, plus one. *)
Definition stamp_followup (found : complaint) (r : complaint) : complaint :=
  mkComplaint (c_id r) (c_description r) (c_structured_category r)
    (c_responsible_department r) (c_status r) (c_urgency r) (c_sla_deadline r)
    (c_escalation_level r) (c_citizen_email r) (c_sla_hours r)
    (c_workflow_errors r) (S (c_followup_count found)) (c_updated_at r)
    (c_admin_notes r).

(** [_followup_stale]: each follow-up stamps the complaint; the store
    performs these updates where it has the follow-up columns
    ([followup_columns]) and refuses them where it has not. *)
Definition followup_stale (followup_columns : bool) (now : Q) (d : db) : db :=
  fold_left (fun d c => fst (update_complaint followup_columns now d (c_id c)
                               (stamp_followup c)))
    (find_stale_complaints now d) d.

(** [_get_escalation_authority] *)
Definition get_escalation_authority (level department : string) : string :=
  let name := if is_department department then name_of department
              else name_of "municipal" in
  if level =? LEVEL_1 then name ++ " - Department Head"
  else if level =? LEVEL_2 then "State/City Commissioner"
  else if level =? LEVEL_3 then "Chief Secretary / Minister"
  else if level =? LEVEL_4 then "Chief Minister / Governor Office"
  else "Unknown Authority".

(** [_escalate_with_llm], lines 139-166; [tt] is any exception. *)
Definition escalate_with_llm (llm : service) (i : decision_input)
    (current_level : string) : exc unit decision :=
  match llm i with
  | CallRaises | NoJson => Raise tt
  | Reply p =>
      let escalation_needed :=
        match j_escalation_needed p with Some b => b | None => false end in
      let escalation_level :=
        match j_escalation_level p with Some l => l | None => NONE end in
      if negb escalation_needed || (escalation_level =? NONE)
         || (escalation_level =? current_level)
      then Return (NoEscalation current_level)
      else
        Return (Escalate escalation_level
                  (match j_authority p with
                   | Some a => a
                   | None => get_escalation_authority escalation_level (di_department i)
                   end)
                  (match j_reason p with
                   | Some r => Given r
                   | None => Overdue (di_hours_overdue i) (di_urgency i)
                   end))
  end.

(** The prompt input for a stored complaint. *)
Definition decision_input_of (d : db) (c : complaint) (hours_overdue : Q)
    (urgency : string) : decision_input :=
  mkDecisionInput (c_id c) (c_structured_category c) (take 200 (c_description c))
    (c_responsible_department c) hours_overdue urgency
    (length (get_escalations_for_complaint d (c_id c))).

(** [EscalationAgent.process] *)
Definition process (llm : service) (d : db) (complaint_id : string)
    (hours_overdue : Q) (urgency current_level : string) : exc unit decision :=
  match get_complaint d complaint_id with
  | None => Return NotFound
  | Some c =>
      escalate_with_llm llm (decision_input_of d c hours_overdue urgency) current_level
  end.

(** One entry of [state["escalated_complaints"]]. *)
Record escalation_info : Type := mkInfo {
  ei_complaint_id : string;
  ei_level : string;
  ei_escalated_to : string;
  ei_reason : reason
}.

(** The body of the loop of [_check_escalations] for one id: the entry it
    appends, if any.  An exception of the agent is logged and the loop
    goes on. *)
Definition check_one (llm : service) (now : Q) (d : db) (complaint_id : string)
    : option escalation_info :=
  match get_complaint d complaint_id with
  | None => None
  | Some c =>
      let '(is_breaching, hours_overdue) := check_complaint_status now c in
      if is_breaching then
        match process llm d complaint_id hours_overdue (c_urgency c)
                (c_escalation_level c) with
        | Return (Escalate level to why) => Some (mkInfo complaint_id level to why)
        | _ => None
        end
      else None
  end.

(** [_check_escalations] *)
Definition check_escalations (llm : service) (now : Q) (d : db)
    (breaching_complaints stale_complaints : list string) : list escalation_info :=
  flat_map (fun id => match check_one llm now d id with
                      | Some i => [i]
                      | None => []
                      end)
           (breaching_complaints ++ stale_complaints).

(** The record that [_escalate_complaints] builds, lines 148-154. *)
Definition escalation_record (now : Q) (i : escalation_info) : escalation :=
  mkEscalation (ei_complaint_id i) (ei_level i) (ei_reason i) (ei_escalated_to i) now.

(** The fields that [_escalate_complaints] writes, lines 159-162. *)
Definition set_escalated (level : string) (r : complaint) : complaint :=
  mkComplaint (c_id r) (c_description r) (c_structured_category r)
    (c_responsible_department r) ESCALATED (c_urgency r) (c_sla_deadline r)
    level (c_citizen_email r) (c_sla_hours r) (c_workflow_errors r)
    (c_followup_count r) (c_updated_at r) (c_admin_notes r).

(** What the store answers to the two writes of one escalation: the
    insert of the record and the update of the complaint.  (A store whose
    records are keyed by their id refuses, for one, the second of two
    records made under the same id.) *)
Record writes : Type := mkWrites {
  insert_accepted : bool;
  update_accepted : bool
}.

(** The body of the loop of [_escalate_complaints], lines 143-167: the
    record, then the complaint.  When the insert raises, the [except]
    logs it and the complaint is not updated; the value that
    [db.update_complaint] returns is not looked at. *)
Definition escalate_one (w : writes) (now : Q) (d : db) (i : escalation_info) : db :=
  match create_escalation (insert_accepted w) d (escalation_record now i) with
  | Raise _ => d
  | Return d =>
      fst (update_complaint (update_accepted w) now d (ei_complaint_id i)
             (set_escalated (ei_level i)))
  end.

(** [_escalate_complaints]; [store k] is what the store answers to the
    writes of the [k]-th escalation of the list. *)
Fixpoint escalate_complaints (store : nat -> writes) (now : Q) (d : db)
    (l : list escalation_info) : db :=
  match l with
  | [] => d
  | i :: l =>
      escalate_complaints (fun k => store (S k)) now
        (escalate_one (store 0%nat) now d i) l
  end.

(** What a cycle meets outside itself. *)
Record env : Type := mkEnv {
  llm : service;
  utcnow : Q;
  followup_columns : bool;
  (* the store's answers to the writes of the cycle's escalations *)
  store : nat -> writes
}.

(** [MonitoringWorkflow.run]: the graph
    monitor -> followup -> check_escalation -> escalate -> notify;
    the store after the cycle and the escalations it made.  The
    notifications leave the store as it is. *)
Definition run (e : env) (d : db) : db * list escalation_info :=
  let '(breaching_complaints, stale_complaints) := monitor (utcnow e) d in
  let d := followup_stale (followup_columns e) (utcnow e) d in
  let escalated := check_escalations (llm e) (utcnow e) d
                     breaching_complaints stale_complaints in
  (escalate_complaints (store e) (utcnow e) d escalated, escalated).

End Monitoring.

(* ------------------------------------------------------------------ *)
(** ** Tolerant JSON extraction: [_parse_json_response] of
       [src/agents/sentiment.py] *)

Module JsonSpan.

Inductive error : Type :=
| NoJsonFound          (* ValueError("No JSON found in response") *)
| IncompleteJson       (* ValueError("Incomplete JSON in response") *)
| InvalidJson.         (* json.loads raised *)

Definition is_open (c : ascii) : bool := Ascii.eqb c "{".
Definition is_close (c : ascii) : bool := Ascii.eqb c "}".

(** [response[response.find('{'):]], [None] when [find] gives -1. *)
Fixpoint from_first_brace (response : string) : option string :=
  match response with
  | EmptyString => None
  | String c r => if is_open c then Some response else from_first_brace r
  end.

(** The loop of lines 210-217 over [response[start_idx:]]: the brace
    count it ends with and, when it breaks, the characters from
    [start_idx] to [end_idx] included. *)
Fixpoint scan (brace_count : Z) (s : string) : Z * option string :=
  match s with
  | EmptyString => (brace_count, None)
  | String c r =>
      if is_open c then
        let '(k, span) := scan (brace_count + 1) r in
        (k, option_map (String c) span)
      else if is_close c then
        if (brace_count - 1 =? 0)%Z then (0%Z, Some (String c EmptyString))
        else
          let '(k, span) := scan (brace_count - 1) r in
          (k, option_map (String c) span)
      else
        let '(k, span) := scan brace_count r in
        (k, option_map (String c) span)
  end.

(** Lines 203-222: the text handed to [json.loads].  When the loop does
    not break, [end_idx] is still [start_idx]. *)
Definition json_str (response : string) : exc error string :=
  match from_first_brace response with
  | None => Raise NoJsonFound
  | Some s =>
      let '(brace_count, span) := scan 0 s in
      if (brace_count =? 0)%Z
      then Return (match span with
                   | Some j => j
                   | None => String.substring 0 1 s
                   end)
      else Raise IncompleteJson
  end.

(** [_parse_json_response], with [json.loads] as a parameter. *)
Definition parse_json_response {A : Type} (loads : string -> option A)
    (response : string) : exc error A :=
  j <- json_str response ;;
  match loads j with
  | Some a => Return a
  | None => Raise InvalidJson
  end.

(** The reply of the sentiment call as [_analyze_sentiment_with_llm]
    gets it: [None] when [llm.invoke] raises, else the text. *)
Definition reply_of {A : Type} (loads : string -> option A)
    (response : option string) : llm_reply A :=
  match response with
  | None => CallRaises
  | Some text =>
      match parse_json_response loads text with
      | Return a => Reply a
      | Raise _ => NoJson
      end
  end.

(** Opening braces minus closing braces. *)
Fixpoint depth (s : string) : Z :=
  match s with
  | EmptyString => 0
  | String c r =>
      ((if is_open c then 1 else if is_close c then -1 else 0) + depth r)%Z
  end.

(** No opening brace in the text. *)
Fixpoint no_open (s : string) : bool :=
  match s with
  | EmptyString => true
  | String c r => negb (is_open c) && no_open r
  end.

(** A text that opens with a brace and closes, with its last character,
    the brace it opened with: the braces balance at its end and nowhere
    before. *)
Definition object (j : string) : Prop :=
  (exists r, j = String "{" r)
  /\ depth j = 0%Z
  /\ forall p q, j = p ++ q -> p <> "" -> q <> "" -> (0 < depth p)%Z.

End JsonSpan.

(* ------------------------------------------------------------------ *)
(** ** Input validation: [validate_phone] of [src/models/schemas.py] *)

Module Schemas.

(** [str.replace(" ", "").replace("-", "").replace("+", "")] *)
Fixpoint strip_separators (s : string) : string :=
  match s with
  | EmptyString => EmptyString
  | String c r =>
      if Ascii.eqb c " " || Ascii.eqb c "-" || Ascii.eqb c "+"
      then strip_separators r
      else String c (strip_separators r)
  end.

Definition is_digit (c : ascii) : bool :=
  let n := nat_of_ascii c in (48 <=? n)%nat && (n <=? 57)%nat.

Fixpoint all_digits (s : string) : bool :=
  match s with
  | EmptyString => true
  | String c r => is_digit c && all_digits r
  end.

(** [str.isdigit()]: every character a digit, and at least one.  The
    digits here are the ASCII ones, 0 to 9. *)
Definition isdigit (s : string) : bool :=
  match s with
  | EmptyString => false
  | _ => all_digits s
  end.

(** [validate_phone]: [Raise] is the [ValueError]; [None] is an absent
    number. *)
Definition validate_phone (v : option string) : exc unit (option string) :=
  match v with
  | None | Some EmptyString => Return v
  | Some s =>
      let cleaned := strip_separators s in
      let cleaned := if String.prefix "91" cleaned
                     then String.substring 2 (String.length cleaned - 2) cleaned
                     else cleaned in
      if isdigit cleaned && (String.length cleaned =? 10)%nat
      then Return v else Raise tt
  end.

End Schemas.

(* ------------------------------------------------------------------ *)
(** ** Callers of the workflow and of the store:
       [src/controllers/complaint_controller.py],
       [src/controllers/admin_controller.py],
       [_boost_urgency_from_votes] of [src/controllers/forum_controller.py] *)

Module Controllers.
Import Store.

(** What [ComplaintController.create_complaint] answers. *)
Inductive submission : Type :=
| Submitted (id status assigned_department : string) (deadline : option Q)
            (urgency : string)              (* ComplaintSubmissionView.format *)
| Http500                                   (* "Failed to create complaint" *)
| Http404.                                  (* "Complaint not found after creation" *)

(** [ComplaintController.create_complaint]: run the workflow, read the
    complaint back, format it. *)
Definition create_complaint (e : Pipeline.env) (i : Pipeline.input) (d : db)
    : submission * db :=
  let '(workflow_result, d) := Pipeline.run e i d in
  match Pipeline.complaint_id workflow_result with
  | EmptyString => (Http500, d)
  | id =>
      match get_complaint d id with
      | None => (Http404, d)
      | Some c =>
          (Submitted (c_id c) (c_status c) (c_responsible_department c)
             (c_sla_deadline c) (c_urgency c), d)
      end
  end.

Inductive status_update : Type :=
| Updated (c : complaint)
| InvalidStatus                             (* error_code INVALID_STATUS *)
| ComplaintNotFound                         (* error_code COMPLAINT_NOT_FOUND *)
| UpdateFailed.                             (* error_code UPDATE_FAILED *)

Definition valid_statuses : list string :=
  [OPEN; IN_PROGRESS; RESOLVED; ESCALATED; CLOSED].

Definition set_status (new_status : string) (r : complaint) : complaint :=
  mkComplaint (c_id r) (c_description r) (c_structured_category r)
    (c_responsible_department r) new_status (c_urgency r) (c_sla_deadline r)
    (c_escalation_level r) (c_citizen_email r) (c_sla_hours r)
    (c_workflow_errors r) (c_followup_count r) (c_updated_at r)
    (c_admin_notes r).

Definition set_admin_notes (admin_notes : list (string * string)) (r : complaint)
    : complaint :=
  mkComplaint (c_id r) (c_description r) (c_structured_category r)
    (c_responsible_department r) (c_status r) (c_urgency r) (c_sla_deadline r)
    (c_escalation_level r) (c_citizen_email r) (c_sla_hours r)
    (c_workflow_errors r) (c_followup_count r) (c_updated_at r) admin_notes.

(** The admin notes that the update writes, lines 105-116: those of the
    complaint as it was read plus the new one; [None] when [notes] is
    absent or empty, and the metadata is then not part of the update. *)
Definition noted (current_complaint : complaint) (new_status : string)
    (notes : option string) : option (list (string * string)) :=
  match notes with
  | None | Some EmptyString => None
  | Some note => Some (c_admin_notes current_complaint ++ [(note, new_status)])%list
  end.

(** The [updates] of lines 99-116, as what they do to a row. *)
Definition status_updates (current_complaint : complaint) (new_status : string)
    (notes : option string) (r : complaint) : complaint :=
  let r := set_status new_status r in
  match noted current_complaint new_status notes with
  | Some admin_notes => set_admin_notes admin_notes r
  | None => r
  end.

(** [AdminController.update_complaint_status]; [update_accepted] is the
    store's answer to the update. *)
Definition update_complaint_status (update_accepted : bool) (now : Q) (d : db)
    (complaint_id new_status : string) (notes : option string)
    : status_update * db :=
  if negb (mem new_status valid_statuses) then (InvalidStatus, d)
  else
    match get_complaint d complaint_id with
    | None => (ComplaintNotFound, d)
    | Some current_complaint =>
        let '(d, updated_complaint) :=
          update_complaint update_accepted now d complaint_id
            (status_updates current_complaint new_status notes) in
        match updated_complaint with
        | Some updated => (Updated updated, d)
        | None => (UpdateFailed, d)
        end
    end.

Definition set_urgency (new_urgency : string) (r : complaint) : complaint :=
  mkComplaint (c_id r) (c_description r) (c_structured_category r)
    (c_responsible_department r) (c_status r) new_urgency (c_sla_deadline r)
    (c_escalation_level r) (c_citizen_email r) (c_sla_hours r)
    (c_workflow_errors r) (c_followup_count r) (c_updated_at r)
    (c_admin_notes r).

(** The urgency that the upvotes earn, lines 424-432; [None]: no boost. *)
Definition boosted_urgency (current_urgency : string) (upvote_count : Z)
    : option string :=
  let current_level := Pipeline.urgency_level current_urgency in
  if (50 <=? upvote_count)%Z && (current_level <? 4)%nat then Some "urgent"
  else if (20 <=? upvote_count)%Z && (current_level <? 3)%nat then Some "high"
  else if (10 <=? upvote_count)%Z && (current_level <? 2)%nat then Some "medium"
  else None.

(** [ForumController._boost_urgency_from_votes], lines 415-442.  The
    update goes to the table directly; when the store refuses it
    ([update_accepted] false) the [except] logs the exception and nothing
    is written. *)
Definition boost_urgency_from_votes (update_accepted : bool) (now : Q) (d : db)
    (complaint_id : string) (upvote_count : Z) : db :=
  match get_complaint d complaint_id with
  | None => d
  | Some complaint =>
      match boosted_urgency (c_urgency complaint) upvote_count with
      | None => d
      | Some new_urgency =>
          if update_accepted
          then updated_rows now d complaint_id (set_urgency new_urgency)
          else d
      end
  end.

End Controllers.

(* ------------------------------------------------------------------ *)
(** ** Vocabulary of the further statements *)

Module Notions.
Import Store.

(** The order of two finite floats. *)
Definition fle (a b : pyfloat) : Prop :=
  match a, b with
  | Fin x, Fin y => x <= y
  | _, _ => False
  end.

(** A float that is a number between two bounds. *)
Definition within (lo hi : Q) (h : pyfloat) : Prop :=
  exists q, h = Fin q /\ lo <= q /\ q <= hi.

(** A row differs from another in its [updated_at] and its follow-up
    count at most. *)
Definition same_but_stamp (c c' : complaint) : Prop :=
  c_id c' = c_id c
  /\ c_description c' = c_description c
  /\ c_structured_category c' = c_structured_category c
  /\ c_responsible_department c' = c_responsible_department c
  /\ c_status c' = c_status c
  /\ c_urgency c' = c_urgency c
  /\ c_sla_deadline c' = c_sla_deadline c
  /\ c_escalation_level c' = c_escalation_level c
  /\ c_citizen_email c' = c_citizen_email c
  /\ c_sla_hours c' = c_sla_hours c
  /\ c_workflow_errors c' = c_workflow_errors c.

(** The ranges of the output of the Sentiment stage. *)
Definition sentiment_in_range (r : Sentiment.result) : Prop :=
  within (-1) 1 (Sentiment.sentiment_score r)
  /\ within 0 1 (Sentiment.urgency_boost r)
  /\ mem (Sentiment.emotion_level r) Sentiment.valid_emotions = true
  /\ mem (Sentiment.priority_recommendation r) Sentiment.valid_priorities = true.

(** The departments of the emergency branches of the keyword scan. *)
Definition emergency_departments : list string :=
  ["fire"; "maharashtra_health"; "maharashtra_police"; "mumbai_police"].

(** The computation raised. *)
Definition raised {E A : Type} (m : exc E A) : bool :=
  match m with
  | Raise _ => true
  | Return _ => false
  end.

(** The entry a stage adds to the error list when it failed. *)
Definition flag (failed : bool) (t : stage_error) : list stage_error :=
  if failed then [t] else [].

(** The urgency level that a number of upvotes earns. *)
Definition earned_level (upvote_count : Z) : nat :=
  if (50 <=? upvote_count)%Z then 4
  else if (20 <=? upvote_count)%Z then 3
  else if (10 <=? upvote_count)%Z then 2
  else 1.

(** A text whose braces never balance: after each of its characters
    more braces are open than closed. *)
Definition never_closes (s : string) : Prop :=
  forall p q, s = p ++ q -> p <> "" -> (0 < JsonSpan.depth p)%Z.

(** Two rows differ in their status and [updated_at] at most. *)
Definition same_but_status (c c' : complaint) : Prop :=
  c_id c' = c_id c
  /\ c_description c' = c_description c
  /\ c_structured_category c' = c_structured_category c
  /\ c_responsible_department c' = c_responsible_department c
  /\ c_urgency c' = c_urgency c
  /\ c_sla_deadline c' = c_sla_deadline c
  /\ c_escalation_level c' = c_escalation_level c
  /\ c_citizen_email c' = c_citizen_email c
  /\ c_sla_hours c' = c_sla_hours c
  /\ c_workflow_errors c' = c_workflow_errors c
  /\ c_followup_count c' = c_followup_count c.

(** Two rows differ in their urgency and [updated_at] at most. *)
Definition same_but_urgency (c c' : complaint) : Prop :=
  c_id c' = c_id c
  /\ c_description c' = c_description c
  /\ c_structured_category c' = c_structured_category c
  /\ c_responsible_department c' = c_responsible_department c
  /\ c_status c' = c_status c
  /\ c_sla_deadline c' = c_sla_deadline c
  /\ c_escalation_level c' = c_escalation_level c
  /\ c_citizen_email c' = c_citizen_email c
  /\ c_sla_hours c' = c_sla_hours c
  /\ c_workflow_errors c' = c_workflow_errors c
  /\ c_followup_count c' = c_followup_count c
  /\ c_admin_notes c' = c_admin_notes c.

End Notions.
Import Notions.

(* ------------------------------------------------------------------ *)
(** ** Vocabulary of the statements *)

Module Vocabulary.
Import Store Monitoring.

(** The stages after the sentiment step leave the classification fields
    as they find them. *)
Definition same_classification (s s' : Pipeline.state) : Prop :=
  Pipeline.urgency s' = Pipeline.urgency s
  /\ Pipeline.department s' = Pipeline.department s
  /\ Pipeline.structured_category s' = Pipeline.structured_category s.

(** The fields of a complaint that the monitoring cycle never writes. *)
Definition same_core (c c' : complaint) : Prop :=
  c_id c' = c_id c
  /\ c_description c' = c_description c
  /\ c_structured_category c' = c_structured_category c
  /\ c_responsible_department c' = c_responsible_department c
  /\ c_urgency c' = c_urgency c
  /\ c_sla_deadline c' = c_sla_deadline c.

(** No two entries of the list are equal. *)
Fixpoint distinct (l : list string) : bool :=
  match l with
  | [] => true
  | x :: r => negb (mem x r) && distinct r
  end.

(** The complaints of the store have distinct ids ([id] is the key of the
    table). *)
Definition unique_ids (d : db) : bool := distinct (map c_id (complaints d)).

(** The decision service answers alike whatever the count of past
    escalations in its prompt. *)
Definition ignores_past_escalations (llm : service) : Prop :=
  forall i n,
    llm (mkDecisionInput (di_complaint_id i) (di_category i) (di_description i)
           (di_department i) (di_hours_overdue i) (di_urgency i) n)
    = llm i.

(** One row after the escalations of a list, in their order. *)
Definition apply_escalations (now : Q) (l : list escalation_info) (c : complaint)
    : complaint :=
  fold_left (fun c i => if c_id c =? ei_complaint_id i
                        then touch now (set_escalated (ei_level i) c) else c)
            l c.

(** One row after the follow-ups of a list of complaints. *)
Definition apply_followups (now : Q) (l : list complaint) (c : complaint)
    : complaint :=
  fold_left (fun c f => if c_id c =? c_id f
                        then touch now (stamp_followup f c) else c)
            l c.

End Vocabulary.
Import Vocabulary.

Module Cycle.
Import Store Monitoring.

(** The escalations of a list whose record the store accepted. *)
Fixpoint recorded (store : nat -> writes) (l : list escalation_info)
    : list escalation_info :=
  match l with
  | [] => []
  | i :: l =>
      let rest := recorded (fun k => store (S k)) l in
      if insert_accepted (store 0%nat) then i :: rest else rest
  end.

(** The escalations of a list that reached the complaint: the store
    accepted the record and performed the update. *)
Fixpoint applied (store : nat -> writes) (l : list escalation_info)
    : list escalation_info :=
  match l with
  | [] => []
  | i :: l =>
      let rest := applied (fun k => store (S k)) l in
      if insert_accepted (store 0%nat) && update_accepted (store 0%nat)
      then i :: rest else rest
  end.

(** The store performs both writes of each of the first [n] escalations
    of a cycle. *)
Definition performs (store : nat -> writes) (n : nat) : Prop :=
  forall k, (k < n)%nat ->
    insert_accepted (store k) = true /\ update_accepted (store k) = true.

(** What a monitoring cycle may do to one row, given the escalations it
    made: the core stays; status and escalation level stay too, or the
    status becomes escalated and the level that of an escalation made
    for this complaint. *)
Definition cycle_step (escalated : list escalation_info) (c c' : complaint) : Prop :=
  same_core c c'
  /\ ((c_status c' = c_status c /\ c_escalation_level c' = c_escalation_level c)
      \/ (c_status c' = ESCALATED
          /\ exists i, In i escalated /\ ei_complaint_id i = c_id c
                       /\ c_escalation_level c' = ei_level i)).

End Cycle.
Import Cycle.

(* ================================================================== *)
(** * Properties *)

(** ** Comparisons of floats *)

Lemma Qltb_lt (x y : Q) : Qltb x y = true <-> x < y.
Proof.
  unfold Qltb. rewrite negb_true_iff.
  split; intro H.
  - apply Qnot_le_lt. intro L. apply Qle_bool_iff in L. congruence.
  - destruct (Qle_bool y x) eqn:E; [|reflexivity].
    apply Qle_bool_iff in E. exfalso. now apply (Qlt_not_le x y).
Qed.

Lemma Qltb_ge (x y : Q) : Qltb x y = false <-> y <= x.
Proof.
  unfold Qltb. rewrite negb_false_iff. apply Qle_bool_iff.
Qed.

(** Turns every decided comparison among the hypotheses into its
    proposition. *)
Ltac reflect_Q :=
  repeat match goal with
         | H : Qltb _ _ = true |- _ => apply Qltb_lt in H
         | H : Qltb _ _ = false |- _ => apply Qltb_ge in H
         end.

(** Splits on every comparison the goal still branches on, innermost
    first. *)
Ltac split_cmp :=
  repeat match goal with
         | |- context [Qltb ?a ?b] =>
             lazymatch a with
             | context [Qltb _ _] => fail
             | _ => lazymatch b with
                    | context [Qltb _ _] => fail
                    | _ => destruct (Qltb a b) eqn:?
                    end
             end
         end.

(** ** SLA stage *)

Lemma final_validation_bounds (h : pyfloat) (q : Q) :
  SLA.final_validation h = Fin q -> 0.25 <= q /\ q <= 336.
Proof.
  unfold SLA.final_validation, fgt.
  destruct h as [x| | |]; cbn [flt].
  - destruct (Qltb x 0.25) eqn:E1.
    + cbn [flt]. destruct (Qltb 336 0.25) eqn:E2; intro H; injection H as <-;
        reflect_Q; lra.
    + cbn [flt]. destruct (Qltb 336 x) eqn:E2; intro H; injection H as <-;
        reflect_Q; lra.
  - intro H; injection H as <-. lra.
  - cbn. intro H; injection H as <-. lra.
  - discriminate.
Qed.

Lemma band_not_nan (lo hi : Q) (h : pyfloat) :
  not_nan (SLA.band lo hi h) = not_nan h.
Proof.
  unfold SLA.band, fgt. destruct h; cbn [flt]; split_cmp; reflexivity.
Qed.

Lemma cap_not_nan (hi : Q) (h : pyfloat) :
  not_nan (SLA.cap hi h) = not_nan h.
Proof.
  unfold SLA.cap, fgt. destruct h; cbn [flt]; split_cmp; reflexivity.
Qed.

Lemma on_band_not_nan (b : bool) (lo hi : Q) (h : pyfloat) :
  not_nan (SLA.on b (SLA.band lo hi) h) = not_nan h.
Proof.
  destruct b; [apply band_not_nan | reflexivity].
Qed.

Lemma clamp_not_nan (urgency description department : string) (h : pyfloat) :
  not_nan h = true ->
  exists q, SLA.clamp urgency description department h = Fin q.
Proof.
  intro N.
  assert (F : forall x, not_nan x = true -> exists q, SLA.final_validation x = Fin q).
  { intros x Nx. unfold SLA.final_validation, fgt.
    destruct x; cbn [flt] in *; try discriminate Nx;
      split_cmp; cbn [flt]; split_cmp; eauto. }
  unfold SLA.clamp. apply F.
  unfold SLA.clamp_urgent, SLA.clamp_high, SLA.clamp_medium, SLA.clamp_low.
  repeat match goal with
         | |- context [if ?b then _ else _] => destruct b
         end;
  rewrite ?cap_not_nan, ?band_not_nan, ?on_band_not_nan; exact N.
Qed.

Lemma clamp_nan (urgency description department : string) :
  SLA.clamp urgency description department NaN = NaN.
Proof.
  assert (B : forall lo hi, SLA.band lo hi NaN = NaN) by reflexivity.
  assert (O : forall b lo hi, SLA.on b (SLA.band lo hi) NaN = NaN)
    by (intros [] ? ?; reflexivity).
  unfold SLA.clamp, SLA.clamp_urgent, SLA.clamp_high, SLA.clamp_medium,
    SLA.clamp_low.
  repeat match goal with
         | |- context [(?a =? ?b)%string] =>
             lazymatch a with
             | urgency => destruct (a =? b)%string
             end
         end;
  rewrite ?O, ?B; reflexivity.
Qed.

Lemma final_cap_bounds (c : Q) (h : pyfloat) (q : Q) :
  0.25 <= c -> SLA.final_validation (SLA.cap c h) = Fin q -> q <= c.
Proof.
  intros Hc. unfold SLA.final_validation, SLA.cap, fgt.
  destruct h as [x| | |]; cbn [flt]; split_cmp; cbn [flt]; split_cmp;
    intro H; try discriminate H; injection H as <-; reflect_Q; lra.
Qed.

Lemma final_band_bounds (lo hi : Q) (h : pyfloat) (q : Q) :
  0.25 <= lo -> lo <= hi -> hi <= 336 ->
  SLA.final_validation (SLA.band lo hi h) = Fin q -> lo <= q /\ q <= hi.
Proof.
  intros H1 H2 H3. unfold SLA.final_validation, SLA.band, fgt.
  destruct h as [x| | |]; cbn [flt]; split_cmp; cbn [flt]; split_cmp;
    intro H; try discriminate H; injection H as <-; reflect_Q; lra.
Qed.

Lemma process_returns (now : Q) (f : SLA.sla_field)
    (urgency description department : string) :
  f <> Mistyped -> f <> Val NaN ->
  exists r, SLA.process now (Reply f) urgency description department = Return r.
Proof.
  intros Hm Hn. unfold SLA.process, SLA.assign_sla_with_llm, SLA.read_sla_hours.
  assert (exists h, read SLA.BadSlaHours (Fin (SLA.default_sla urgency)) f = Return h
                    /\ not_nan h = true) as (h & -> & Nh).
  { destruct f as [|[x| | |]|]; cbn; try congruence; eauto. }
  cbn [bind].
  destruct (clamp_not_nan urgency description department h Nh) as (q & ->).
  cbn. eauto.
Qed.

Lemma process_bounds (now : Q) (reply : llm_reply SLA.sla_field)
    (urgency description department : string) (r : SLA.result) :
  SLA.process now reply urgency description department = Return r ->
  (0.25 <= SLA.sla_hours r /\ SLA.sla_hours r <= 336)
  /\ SLA.sla_deadline r = now + SLA.sla_hours r
  /\ (urgency = "urgent" -> SLA.sla_hours r <= 2.0)
  /\ (urgency = "low" -> 168.0 <= SLA.sla_hours r /\ SLA.sla_hours r <= 336.0).
Proof.
  unfold SLA.process, SLA.assign_sla_with_llm.
  destruct reply as [| |f]; try discriminate.
  destruct (SLA.read_sla_hours urgency f) as [h|]; cbn [bind]; [|discriminate].
  unfold SLA.deadline_after.
  destruct (SLA.clamp urgency description department h) as [q| | |] eqn:C;
    try discriminate.
  intro H; injection H as <-. cbn [SLA.sla_hours SLA.sla_deadline].
  unfold SLA.clamp in C.
  split; [exact (final_validation_bounds _ _ C)|].
  split; [reflexivity|].
  split; intros ->; cbn [String.eqb Ascii.eqb Bool.eqb] in C.
  - unfold SLA.clamp_urgent in C. apply final_cap_bounds in C; lra.
  - unfold SLA.clamp_low in C. apply final_band_bounds in C; lra.
Qed.

(** C3. Whatever number the service suggests (absent, finite or
    infinite), the SLA stage returns a result; and every result it returns
    has [sla_hours] within [0.25, 336], at most 2 for an urgent complaint,
    within [168, 336] for a low one, and a deadline of now plus
    [sla_hours]. *)
Theorem sla_hours_bounds :
  forall (now : Q) (reply : llm_reply SLA.sla_field)
         (urgency description department : string),
    (forall f, reply = Reply f -> f <> Mistyped -> f <> Val NaN ->
       exists r, SLA.process now reply urgency description department = Return r)
    /\
    (forall r, SLA.process now reply urgency description department = Return r ->
       (0.25 <= SLA.sla_hours r /\ SLA.sla_hours r <= 336)
       /\ SLA.sla_deadline r = now + SLA.sla_hours r
       /\ (urgency = "urgent" -> SLA.sla_hours r <= 2.0)
       /\ (urgency = "low" -> 168.0 <= SLA.sla_hours r /\ SLA.sla_hours r <= 336.0)).
Proof.
  intros now reply urgency description department. split.
  - intros f -> Hm Hn. now apply process_returns.
  - intro r. apply process_bounds.
Qed.

Lemma sla_hours_bounds_witness :
  (exists r, SLA.process 10 (Reply (Val (Fin 48))) "urgent"
               "Tree fell on the road" "municipal" = Return r)
  /\ SLA.sla_hours (SLA.mkResult (10 + 2) 2) <= 2.0.
Proof.
  destruct (sla_hours_bounds 10 (Reply (Val (Fin 48))) "urgent"
              "Tree fell on the road" "municipal") as [A B].
  split.
  - apply (A (Val (Fin 48))); [reflexivity | discriminate | discriminate].
  - apply (B (SLA.mkResult (10 + 2) 2)); [vm_compute; reflexivity | reflexivity].
Defined.

(** C6, as stated, fails: the call returned, and the stage still raises,
    because the text under ["sla_hours"] is not a number. *)
Lemma sla_rejects_unreadable_hours :
  SLA.process 0 (Reply Mistyped) "medium" "Garbage not collected for 3 days"
    "pune_municipal" = Raise SLA.BadSlaHours
  /\ Reply (@Mistyped pyfloat) <> CallRaises.
Proof.
  split; [reflexivity | discriminate].
Qed.

(** C6, amended. The SLA stage raises when the call raises, when the reply
    holds no JSON object, when the value under ["sla_hours"] does not
    convert to a float, and when it is NaN; every other reply, however far
    out of range its number, gives a result with [sla_hours] clamped into
    [0.25, 336]. *)
Theorem sla_failure_cases :
  forall (now : Q) (reply : llm_reply SLA.sla_field)
         (urgency description department : string),
    match reply with
    | CallRaises =>
        SLA.process now reply urgency description department = Raise SLA.LLMCallFailed
    | NoJson =>
        SLA.process now reply urgency description department = Raise SLA.NoJsonFound
    | Reply Mistyped =>
        SLA.process now reply urgency description department = Raise SLA.BadSlaHours
    | Reply (Val NaN) =>
        SLA.process now reply urgency description department = Raise SLA.BadTimedelta
    | Reply _ =>
        exists r, SLA.process now reply urgency description department = Return r
                  /\ 0.25 <= SLA.sla_hours r /\ SLA.sla_hours r <= 336
    end.
Proof.
  intros now reply urgency description department.
  assert (G : forall f, f <> Mistyped -> f <> Val NaN ->
            exists r, SLA.process now (Reply f) urgency description department = Return r
                      /\ 0.25 <= SLA.sla_hours r /\ SLA.sla_hours r <= 336).
  { intros f Hm Hn.
    destruct (process_returns now f urgency description department Hm Hn) as [r Hr].
    exists r. split; [exact Hr|]. apply (process_bounds _ _ _ _ _ _ Hr). }
  destruct reply as [| |[|[x| | |]|]]; try reflexivity;
    try (apply G; discriminate).
  unfold SLA.process, SLA.assign_sla_with_llm. cbn [SLA.read_sla_hours read bind].
  now rewrite clamp_nan.
Qed.

(** ** Sentiment stage *)

Lemma fmin_Fin (a b : Q) : fmin (Fin a) (Fin b) = Fin (if Qltb b a then b else a).
Proof. unfold fmin. cbn [flt]. now destruct (Qltb b a). Qed.

Lemma fmax_Fin (a b : Q) : fmax (Fin a) (Fin b) = Fin (if Qltb a b then b else a).
Proof. unfold fmax, fgt. cbn [flt]. now destruct (Qltb a b). Qed.

(** [max(lo, min(hi, x))] is a number between [lo] and [hi], whatever
    float [x] is. *)
Lemma clamp_between (lo hi : Q) (x : pyfloat) :
  lo <= hi ->
  exists q, fmax (Fin lo) (fmin (Fin hi) x) = Fin q /\ lo <= q /\ q <= hi.
Proof.
  intro L. unfold fmax, fmin, fgt.
  destruct x as [x| | |]; cbn [flt]; split_cmp; cbn [flt]; split_cmp;
    reflect_Q; eexists; (split; [reflexivity|]); lra.
Qed.

Lemma analyze_readable (p : Sentiment.reply_json) :
  Sentiment.readable p = true ->
  exists s e l b r,
    Sentiment.analyze_sentiment_with_llm (Reply p)
    = Return (Sentiment.mkResult (Fin s) e (Some l) (Fin b) r)
    /\ (-1 <= s /\ s <= 1) /\ (0 <= b /\ b <= 1).
Proof.
  destruct p as [fs fe fb fr fi]. unfold Sentiment.readable. cbn.
  intro H. repeat (apply andb_prop in H; destruct H as [H ?]).
  assert (Rd : forall (A : Type) (dflt : A) (f : field A),
             typed f = true -> exists a, read tt dflt f = Return a).
  { intros A dflt [|a|] T; try discriminate T; cbn; eauto. }
  destruct (Rd _ (Fin 0) fs H) as [s ->].
  destruct (Rd _ "calm" fe H3) as [e ->].
  destruct (Rd _ (Fin 0) fb H2) as [b ->].
  destruct (Rd _ "normal" fr H1) as [r ->].
  cbn [bind].
  destruct (clamp_between (-1) 1 s) as (s' & -> & Bs); [lra|].
  destruct (clamp_between 0 1 b) as (b' & -> & Bb); [lra|].
  assert (exists l, Sentiment.raw_indicators fi = Some l) as [l ->].
  { destruct fi; try discriminate; cbn; eauto. }
  do 5 eexists. split; [reflexivity|]. split; assumption.
Qed.

Lemma any_in_nonempty (kws : list string) (d : string) :
  forallb (fun kw => negb (kw =? "")) kws = true ->
  any_in kws (lower d) = true -> d <> "".
Proof.
  intros K H ->. cbn in H. unfold any_in in H.
  induction kws as [|kw kws IH]; cbn in *; [discriminate|].
  apply andb_prop in K. destruct K as [K1 K2].
  destruct kw; [discriminate K1|]. cbn in H. auto.
Qed.

(** C9, as stated, fails: an anger phrase together with a polite word
    leaves the score at -0.3. *)
Lemma anger_score_softened_by_politeness :
  let p := Sentiment.mkReply (Val (Fin (-0.9))) (Val "angry") (Val (Fin 0.9))
             (Val "urgent") (Val []) in
  let d := "I am furious, please fix the road" in
  any_in Sentiment.critical_anger (lower d) = true
  /\ Sentiment.sentiment_score (Sentiment.process (Reply p) d) = Fin (-0.3)
  /\ ~ (-0.3 <= -0.8).
Proof.
  cbv zeta. split; [reflexivity|]. split; [reflexivity|].
  intro H. apply Qle_bool_iff in H. discriminate H.
Qed.

(** C9, amended. For a description with an anger phrase and a reply whose
    entries have the expected types, the Sentiment stage answers
    [emotion_level = "angry"], [priority_recommendation = "urgent"] and an
    [urgency_boost] of at least 0.7; the [sentiment_score] is at most -0.8
    when the description holds no gratitude or politeness phrase, and is
    -0.3 when it holds one. *)
Theorem anger_overlay :
  forall (p : Sentiment.reply_json) (description : string),
    any_in Sentiment.critical_anger (lower description) = true ->
    Sentiment.readable p = true ->
    let r := Sentiment.process (Reply p) description in
    Sentiment.emotion_level r = "angry"
    /\ Sentiment.priority_recommendation r = "urgent"
    /\ (exists b, Sentiment.urgency_boost r = Fin b /\ 0.7 <= b)
    /\ (if any_in Sentiment.positive_indicators (lower description)
        then Sentiment.sentiment_score r = Fin (-0.3)
        else exists s, Sentiment.sentiment_score r = Fin s /\ s <= -0.8).
Proof.
  intros p description Hanger Hread.
  assert (Hne : description <> "")
    by (apply (any_in_nonempty Sentiment.critical_anger); [reflexivity|exact Hanger]).
  destruct (analyze_readable p Hread) as (s & e & l & b & r0 & Ha & Bs & Bb).
  unfold Sentiment.process.
  destruct description as [|c description']; [congruence|].
  set (d := String c description') in *.
  rewrite Ha. cbn [bind]. unfold Sentiment.apply_keyword_boosts.
  rewrite Hanger. unfold Sentiment.boost_anger. cbn [Sentiment.frustration_indicators bind].
  cbv zeta.
  unfold Sentiment.boost_frustration, Sentiment.boost_urgency_language,
    Sentiment.soften_positive.
  destruct (any_in Sentiment.high_frustration (lower d));
    destruct (any_in Sentiment.urgency_language (lower d));
    destruct (any_in Sentiment.positive_indicators (lower d));
    cbn [Sentiment.sentiment_score Sentiment.emotion_level
         Sentiment.urgency_boost Sentiment.priority_recommendation
         Sentiment.frustration_indicators mem existsb String.eqb Ascii.eqb
         Bool.eqb orb];
    rewrite ?fmin_Fin, ?fmax_Fin;
    (split; [reflexivity|]); (split; [reflexivity|]);
    (split; [eexists; split; [reflexivity|]; split_cmp; reflect_Q; lra|]);
    cbn [flt]; split_cmp; rewrite ?fmin_Fin, ?fmax_Fin; split_cmp; reflect_Q;
    try (exfalso; lra); try reflexivity;
    try (eexists; split; [reflexivity|]; lra).
Qed.

Lemma anger_overlay_witness :
  let p := Sentiment.mkReply (Val (Fin 0.2)) (Val "calm") Absent (Val "normal") Absent in
  let d := "This is unacceptable, the road has been broken for months" in
  Sentiment.emotion_level (Sentiment.process (Reply p) d) = "angry".
Proof.
  cbv zeta.
  destruct (anger_overlay
              (Sentiment.mkReply (Val (Fin 0.2)) (Val "calm") Absent (Val "normal") Absent)
              "This is unacceptable, the road has been broken for months")
    as [H _]; [vm_compute; reflexivity | reflexivity | exact H].
Defined.

(** ** Complaint pipeline *)

Lemma run_state (e : Pipeline.env) (i : Pipeline.input) (d : Store.db) :
  fst (Pipeline.run e i d)
  = Pipeline.notify_citizen e
      (fst (Pipeline.persist_complaint e
              (Pipeline.analyze_policy e
                 (Pipeline.assign_sla e
                    (Pipeline.analyze_sentiment e
                       (Pipeline.classify_complaint e (Pipeline.initial_state i)))))
              d)).
Proof.
  unfold Pipeline.run.
  destruct (Pipeline.persist_complaint e _ d) as [s d']. reflexivity.
Qed.

Lemma run_store (e : Pipeline.env) (i : Pipeline.input) (d : Store.db) :
  snd (Pipeline.run e i d)
  = snd (Pipeline.persist_complaint e
           (Pipeline.analyze_policy e
              (Pipeline.assign_sla e
                 (Pipeline.analyze_sentiment e
                    (Pipeline.classify_complaint e (Pipeline.initial_state i)))))
           d).
Proof.
  unfold Pipeline.run.
  destruct (Pipeline.persist_complaint e _ d) as [s d']. reflexivity.
Qed.

Lemma assign_sla_keeps (e : Pipeline.env) (s : Pipeline.state) :
  same_classification s (Pipeline.assign_sla e s).
Proof.
  unfold Pipeline.assign_sla. destruct (SLA.process _ _ _ _ _); repeat split.
Qed.

Lemma analyze_policy_keeps (e : Pipeline.env) (s : Pipeline.state) :
  same_classification s (Pipeline.analyze_policy e s).
Proof.
  unfold Pipeline.analyze_policy.
  destruct (Pipeline.policy_result e) as [[legal v]|]; repeat split.
Qed.

Lemma persist_complaint_keeps (e : Pipeline.env) (s : Pipeline.state) (d : Store.db) :
  same_classification s (fst (Pipeline.persist_complaint e s d)).
Proof.
  unfold Pipeline.persist_complaint.
  destruct (Pipeline.create_complaint_succeeds e); repeat split.
Qed.

Lemma notify_citizen_keeps (e : Pipeline.env) (s : Pipeline.state) :
  same_classification s (Pipeline.notify_citizen e s).
Proof.
  unfold Pipeline.notify_citizen.
  destruct (Pipeline.communication_result e); repeat split.
Qed.

Lemma same_classification_trans (a b c : Pipeline.state) :
  same_classification a b -> same_classification b c -> same_classification a c.
Proof.
  unfold same_classification. intuition congruence.
Qed.

Lemma after_sentiment_keeps (e : Pipeline.env) (i : Pipeline.input) (d : Store.db) :
  same_classification
    (Pipeline.analyze_sentiment e
       (Pipeline.classify_complaint e (Pipeline.initial_state i)))
    (fst (Pipeline.run e i d)).
Proof.
  rewrite run_state.
  eapply same_classification_trans; [apply assign_sla_keeps|].
  eapply same_classification_trans; [apply analyze_policy_keeps|].
  eapply same_classification_trans; [apply persist_complaint_keeps|].
  apply notify_citizen_keeps.
Qed.

Lemma analyze_sentiment_keeps (e : Pipeline.env) (s : Pipeline.state) :
  Pipeline.department (Pipeline.analyze_sentiment e s) = Pipeline.department s
  /\ Pipeline.structured_category (Pipeline.analyze_sentiment e s)
     = Pipeline.structured_category s.
Proof. split; reflexivity. Qed.

Lemma urgency_level_max (u : string) : (Pipeline.urgency_level u <= 4)%nat.
Proof.
  unfold Pipeline.urgency_level.
  repeat match goal with |- context [if ?b then _ else _] => destruct b end; lia.
Qed.

Lemma urgency_level_4 (u : string) : Pipeline.urgency_level u = 4%nat -> u = "urgent".
Proof.
  unfold Pipeline.urgency_level.
  destruct (u =? "low"); [discriminate|].
  destruct (u =? "medium"); [discriminate|].
  destruct (u =? "high"); [discriminate|].
  destruct (u =? "urgent") eqn:E; [|discriminate].
  intros _. now apply String.eqb_eq.
Qed.

Lemma one_step_up_level (u : string) :
  (Pipeline.urgency_level u <= Pipeline.urgency_level (Pipeline.one_step_up u)
   <= Pipeline.urgency_level u + 1)%nat.
Proof.
  unfold Pipeline.one_step_up.
  destruct (u =? "low") eqn:E1; [apply String.eqb_eq in E1; subst; cbn; lia|].
  destruct (u =? "medium") eqn:E2; [apply String.eqb_eq in E2; subst; cbn; lia|].
  lia.
Qed.

Lemma adjust_urgency_monotone (emotion priority u : string) :
  (Pipeline.urgency_level u
   <= Pipeline.urgency_level (Pipeline.adjust_urgency emotion priority u))%nat.
Proof.
  unfold Pipeline.adjust_urgency.
  pose proof (urgency_level_max u). pose proof (one_step_up_level u).
  repeat match goal with |- context [if ?b then _ else _] => destruct b end;
    cbn; lia.
Qed.

Lemma valid_urgency_cases (u : string) :
  mem u Classification.valid_urgencies = true ->
  u = "urgent" \/ u = "high" \/ u = "medium" \/ u = "low".
Proof.
  unfold mem, Classification.valid_urgencies. cbn [existsb].
  rewrite !orb_true_iff, !String.eqb_eq. intuition discriminate.
Qed.

Lemma valid_urgency_or (u dflt : string) :
  mem u Classification.valid_urgencies = true -> str_or u dflt = u.
Proof.
  intro V. destruct (valid_urgency_cases u V) as [->|[->|[->| ->]]]; reflexivity.
Qed.

Lemma validated_urgency (u : string) :
  mem (if mem u Classification.valid_urgencies then u else "medium")
      Classification.valid_urgencies = true.
Proof.
  destruct (mem u Classification.valid_urgencies) eqn:E; [exact E|reflexivity].
Qed.

Lemma department_from_reply_urgency (loc : Classification.location) (d : string)
    (p : Classification.reply_json) (u c dep u' c' : string) :
  mem u Classification.valid_urgencies = true ->
  Classification.department_from_reply loc d p u c = Return (dep, u', c') ->
  u' = u.
Proof.
  intros V. unfold Classification.department_from_reply.
  rewrite (valid_urgency_or u "high" V).
  destruct (Classification.police_city loc d) as [city|]; cbn [bind];
    repeat match goal with
           | |- context [if ?b then _ else _] => destruct b
           end;
    intro H; try discriminate H; now injection H.
Qed.

Lemma police_safety_check_urgency (loc : Classification.location) (d : string)
    (dep u c dep' u' c' : string) :
  mem u Classification.valid_urgencies = true ->
  Classification.police_safety_check loc d (dep, u, c) = Return (dep', u', c') ->
  mem u' Classification.valid_urgencies = true
  /\ (Pipeline.urgency_level u <= Pipeline.urgency_level u')%nat
  /\ (u = "urgent" -> u' = "urgent").
Proof.
  intros V. unfold Classification.police_safety_check.
  destruct (_ && _).
  - destruct (Classification.police_city loc d) as [city|]; cbn [bind];
      [|discriminate].
    intro H; injection H as <- <- <-.
    destruct (valid_urgency_cases u V) as [->|[->|[->| ->]]]; cbn;
      repeat split; auto; try lia; discriminate.
  - intro H; injection H as <- <- <-. repeat split; auto.
Qed.

Lemma process_urgency_valid (loc : Classification.location)
    (reply : llm_reply Classification.reply_json) (description : string)
    (r : Classification.result) :
  Classification.process loc reply description = Return r ->
  mem (Classification.urgency r) Classification.valid_urgencies = true.
Proof.
  unfold Classification.process.
  destruct description as [|a description']; [discriminate|].
  unfold Classification.classify_with_llm.
  destruct (Classification.keyword_routing loc _) as [[[kd ku] kc]|];
    cbn [bind]; [|discriminate].
  destruct reply as [| |p]; try discriminate.
  match goal with
  | |- context [if mem ?x Classification.valid_urgencies then _ else _] =>
      pose proof (validated_urgency x) as V;
      set (u0 := if mem x Classification.valid_urgencies then x else "medium") in *
  end.
  match goal with
  | |- context [if mem ?x Classification.valid_categories then _ else _] =>
      set (c0 := if mem x Classification.valid_categories then x else "other") in *
  end.
  assert (X : forall x,
             match kd with
             | Some k => Return (k, u0, c0)
             | None => Classification.department_from_reply loc
                         (lower (String a description')) p u0 c0
             end = Return x -> snd (fst x) = u0).
  { intros [[dep u'] c']. destruct kd.
    - intro H; now injection H.
    - intro H. cbn. eapply department_from_reply_urgency; eauto. }
  destruct (match kd with Some _ => _ | None => _ end) as [[[dep1 u1] c1]|];
    cbn [bind]; [|discriminate].
  specialize (X _ eq_refl). cbn in X. subst u1.
  destruct (Classification.police_safety_check loc _ (dep1, u0, c1))
    as [[[dep2 u2] c2]|] eqn:P; cbn [bind]; [|discriminate].
  apply police_safety_check_urgency in P; [|exact V]. destruct P as (V2 & _).
  destruct (Classification.municipal_by_location loc _ dep2); cbn [bind];
    [|discriminate].
  destruct (read Classification.BadLocation tt (Classification.j_location p));
    cbn [bind]; [|discriminate].
  intro H; injection H as <-. exact V2.
Qed.

Lemma understanding_urgency_valid (reply : llm_reply Understanding.reply_json)
    (description : string) (u : Understanding.result) :
  Understanding.process reply description = Return u ->
  mem (Understanding.urgency u) Classification.valid_urgencies = true.
Proof.
  unfold Understanding.process.
  destruct description; [discriminate|].
  destruct reply as [| |p]; try discriminate.
  destruct (read tt tt (Understanding.j_location p)); cbn [bind]; [|discriminate].
  intro H; injection H as <-. apply validated_urgency.
Qed.

Lemma classify_complaint_urgency (e : Pipeline.env) (s : Pipeline.state) :
  mem (Pipeline.urgency (Pipeline.classify_complaint e s))
      Classification.valid_urgencies = true
  /\ forall r,
       Classification.process (Pipeline.location s) (Pipeline.classification_reply e)
         (Pipeline.description s) = Return r ->
       (Pipeline.urgency_level (Classification.urgency r)
        <= Pipeline.urgency_level
             (Pipeline.urgency (Pipeline.classify_complaint e s)))%nat.
Proof.
  unfold Pipeline.classify_complaint.
  destruct (Classification.process _ _ _) as [r|err] eqn:C.
  - apply process_urgency_valid in C.
    split; [|intros r' H; injection H as <-];
      repeat match goal with
             | |- context [if ?b then _ else _] => destruct b
             end; cbn; auto; apply urgency_level_max.
  - split; [|discriminate].
    unfold Pipeline.classify_fallback.
    destruct (Understanding.process _ _) as [u|] eqn:U; [|reflexivity].
    apply understanding_urgency_valid in U.
    destruct (Routing.process _); [exact U|reflexivity].
Qed.

Lemma adjust_urgency_valid (emotion priority u : string) :
  mem u Classification.valid_urgencies = true ->
  mem (Pipeline.adjust_urgency emotion priority u) Classification.valid_urgencies = true.
Proof.
  intro V. unfold Pipeline.adjust_urgency.
  assert (mem (Pipeline.one_step_up u) Classification.valid_urgencies = true).
  { destruct (valid_urgency_cases u V) as [->|[->|[->| ->]]]; reflexivity. }
  repeat match goal with |- context [if ?b then _ else _] => destruct b end; auto.
Qed.

(** C2. The urgency at the end of the pipeline is at least the urgency
    the classification node left, which is at least the urgency the
    Classification stage returned; both are urgencies of the closed set,
    so that the levels compared are those of low < medium < high < urgent. *)
Theorem urgency_never_lowered :
  forall (e : Pipeline.env) (i : Pipeline.input) (d : Store.db),
    let classified := Pipeline.classify_complaint e (Pipeline.initial_state i) in
    let final := fst (Pipeline.run e i d) in
    (Pipeline.urgency_level (Pipeline.urgency classified)
     <= Pipeline.urgency_level (Pipeline.urgency final))%nat
    /\ (forall r,
          Classification.process (Pipeline.in_location i)
            (Pipeline.classification_reply e) (Pipeline.in_description i) = Return r ->
          (Pipeline.urgency_level (Classification.urgency r)
           <= Pipeline.urgency_level (Pipeline.urgency final))%nat)
    /\ mem (Pipeline.urgency classified) Classification.valid_urgencies = true
    /\ mem (Pipeline.urgency final) Classification.valid_urgencies = true.
Proof.
  intros e i d classified final.
  destruct (after_sentiment_keeps e i d) as (U & _).
  fold classified in U. fold final in U.
  destruct (classify_complaint_urgency e (Pipeline.initial_state i)) as (V & R).
  fold classified in V, R.
  assert (M : (Pipeline.urgency_level (Pipeline.urgency classified)
               <= Pipeline.urgency_level (Pipeline.urgency final))%nat).
  { rewrite U. apply adjust_urgency_monotone. }
  split; [exact M|]. split; [|split].
  - intros r Hr. specialize (R r Hr). lia.
  - exact V.
  - rewrite U. now apply adjust_urgency_valid.
Qed.

Lemma urgency_never_lowered_witness :
  let e := Pipeline.mkEnv
             (Reply (Classification.mkReply (Some "low") (Some "other")
                       (Some "municipal") None Absent))
             NoJson NoJson
             (Reply (Sentiment.mkReply (Val (Fin (-0.6))) (Val "frustrated")
                       (Val (Fin 0.4)) (Val "high") (Val [])))
             (Reply (Val (Fin 100))) None (Some "registered") true "id-1" 0 in
  let i := Pipeline.mkInput "The park benches need new varnish"
             (Classification.mkLocation true (Val "Pune")) "" in
  (Pipeline.urgency_level "low"
   <= Pipeline.urgency_level
        (Pipeline.urgency (fst (Pipeline.run e i (Store.mkDb [] [])))))%nat.
Proof.
  intros e i.
  destruct (urgency_never_lowered e i (Store.mkDb [] [])) as (_ & H & _).
  apply (H (Classification.mkResult "low" "other" "pune_municipal"
              "Pune Municipal Corporation (PMC)")).
  vm_compute. reflexivity.
Defined.

(** C8. In the sentiment step the urgency becomes urgent when the
    returned emotion is angry or urgent; with a frustrated emotion it goes
    up by one step from low or medium and stays as it is otherwise, never
    more than one level; and the stages after the sentiment step leave the
    urgency as that step set it. *)
Theorem sentiment_urgency_coupling :
  forall (e : Pipeline.env) (s : Pipeline.state),
    let s' := Pipeline.analyze_sentiment e s in
    Pipeline.emotion_level s'
    = Sentiment.emotion_level
        (Sentiment.process (Pipeline.sentiment_reply e) (Pipeline.description s))
    /\ (Pipeline.emotion_level s' = "angry" \/ Pipeline.emotion_level s' = "urgent" ->
        Pipeline.urgency s' = "urgent")
    /\ (Pipeline.emotion_level s' = "frustrated" ->
        (Pipeline.urgency s = "low" -> Pipeline.urgency s' = "medium")
        /\ (Pipeline.urgency s = "medium" -> Pipeline.urgency s' = "high")
        /\ (Pipeline.urgency s <> "low" -> Pipeline.urgency s <> "medium" ->
            Pipeline.urgency s' = Pipeline.urgency s)
        /\ (Pipeline.urgency_level (Pipeline.urgency s')
            <= Pipeline.urgency_level (Pipeline.urgency s) + 1)%nat)
    /\ (forall (i : Pipeline.input) (d : Store.db),
          Pipeline.urgency (fst (Pipeline.run e i d))
          = Pipeline.urgency
              (Pipeline.analyze_sentiment e
                 (Pipeline.classify_complaint e (Pipeline.initial_state i)))).
Proof.
  intros e s s'. split; [reflexivity|].
  assert (U : Pipeline.urgency s'
              = Pipeline.adjust_urgency (Pipeline.emotion_level s')
                  (Pipeline.priority_recommendation s') (Pipeline.urgency s))
    by reflexivity.
  split; [|split].
  - intros E. rewrite U. unfold Pipeline.adjust_urgency.
    assert (M : mem (Pipeline.emotion_level s') ["angry"; "urgent"] = true)
      by (destruct E as [-> | ->]; reflexivity).
    rewrite M.
    destruct (Pipeline.urgency_level (Pipeline.urgency s) <? 4)%nat eqn:L;
      [reflexivity|].
    apply Nat.ltb_ge in L. pose proof (urgency_level_max (Pipeline.urgency s)).
    apply urgency_level_4. lia.
  - intros E. rewrite U, E. unfold Pipeline.adjust_urgency.
    cbn [mem existsb String.eqb Ascii.eqb Bool.eqb orb].
    pose proof (one_step_up_level (Pipeline.urgency s)) as S1.
    repeat split.
    + intros ->. reflexivity.
    + intros ->. reflexivity.
    + intros N1 N2. apply String.eqb_neq in N1, N2.
      unfold Pipeline.one_step_up. rewrite N1, N2.
      now destruct (_ <? 3)%nat.
    + destruct (_ <? 3)%nat; lia.
  - intros i d. apply (after_sentiment_keeps e i d).
Qed.

Lemma sentiment_urgency_coupling_witness :
  let e := Pipeline.mkEnv NoJson NoJson NoJson
             (Reply (Sentiment.mkReply (Val (Fin (-0.6))) (Val "frustrated")
                       (Val (Fin 0.4)) (Val "normal") (Val [])))
             (Reply (Val (Fin 100))) None None true "id-1" 0 in
  let s := Pipeline.set_urgency "low"
             (Pipeline.initial_state
                (Pipeline.mkInput "The park benches need new varnish"
                   (Classification.mkLocation false Absent) "")) in
  Pipeline.urgency (Pipeline.analyze_sentiment e s) = "medium".
Proof.
  intros e s.
  destruct (sentiment_urgency_coupling e s) as (_ & _ & H & _).
  destruct H as (H & _); [vm_compute; reflexivity|].
  apply H. reflexivity.
Defined.

(** C10. The pipeline's only write to the store is the row of
    [_persist_complaint]: when the store accepts it, it is a new complaint
    with status open and escalation level none, whatever the stages
    before it produced; when the store refuses it, the store is left as
    it was. *)
Theorem created_complaint_is_open :
  forall (e : Pipeline.env) (i : Pipeline.input) (d : Store.db),
    let d' := snd (Pipeline.run e i d) in
    if Pipeline.create_complaint_succeeds e
    then exists c, d' = Store.create_complaint d c
                   /\ Store.c_status c = "open"
                   /\ Store.c_escalation_level c = "none"
    else d' = d.
Proof.
  intros e i d d'. subst d'. rewrite run_store.
  unfold Pipeline.persist_complaint.
  destruct (Pipeline.create_complaint_succeeds e); cbn [snd].
  - eexists. split; [reflexivity|]. split; reflexivity.
  - reflexivity.
Qed.

Lemma errors_after_node (t : Store.stage_error) (s : Pipeline.state) x :
  In x (Pipeline.errors (Pipeline.add_error t s)) ->
  In x (Pipeline.errors s) \/ x = t.
Proof.
  cbn. intro H. apply in_app_or in H. destruct H as [H|[H|[]]]; auto.
Qed.

(** Every entry of the error list of a run names one of the six stages. *)
Lemma run_errors (e : Pipeline.env) (i : Pipeline.input) (d : Store.db) :
  ~ In Store.WorkflowFailed (Pipeline.errors (fst (Pipeline.run e i d))).
Proof.
  rewrite run_state.
  unfold Pipeline.notify_citizen, Pipeline.persist_complaint,
    Pipeline.analyze_policy, Pipeline.assign_sla, Pipeline.analyze_sentiment,
    Pipeline.classify_complaint, Pipeline.classify_fallback.
  repeat match goal with
         | |- context [match ?x with _ => _ end] => destruct x
         end;
    cbn; intro H;
    repeat (apply in_app_or in H; destruct H as [H|H]);
    cbn in H; intuition discriminate.
Qed.

(** C7, as stated, fails: the store refuses the row, and the run goes on
    to the notification step and ends like any other run, its error list
    naming the persistence step only. *)
Lemma persistence_failure_does_not_abort :
  let e := Pipeline.mkEnv
             (Reply (Classification.mkReply (Some "medium") (Some "sanitation")
                       (Some "pune_municipal") None Absent))
             NoJson NoJson
             (Reply (Sentiment.mkReply (Val (Fin 0)) (Val "calm") (Val (Fin 0))
                       (Val "normal") (Val [])))
             (Reply (Val (Fin 48))) (Some (None, false))
             (Some "Your complaint has been registered")
             false "id-1" 0 in
  let i := Pipeline.mkInput "Garbage not collected for 3 days"
             (Classification.mkLocation true (Val "Pune")) "citizen@example.org" in
  let s := fst (Pipeline.run e i (Store.mkDb [] [])) in
  Pipeline.create_complaint_succeeds e = false
  /\ Pipeline.citizen_message s = "Your complaint has been registered"
  /\ Pipeline.complaint_id s = "id-1"
  /\ Pipeline.errors s = [Store.PersistenceFailed].
Proof.
  cbv zeta. repeat split; vm_compute; reflexivity.
Qed.

(** C7, amended. When the store refuses the row, the node records the
    persistence failure in the error list and leaves the store as it was;
    the run is not aborted: the notification node runs next on that
    state, no workflow failure is recorded, and [run] returns the state
    with its errors. *)
Theorem persistence_failure_recorded :
  forall (e : Pipeline.env) (i : Pipeline.input) (d : Store.db),
    Pipeline.create_complaint_succeeds e = false ->
    let before :=
      Pipeline.analyze_policy e
        (Pipeline.assign_sla e
           (Pipeline.analyze_sentiment e
              (Pipeline.classify_complaint e (Pipeline.initial_state i)))) in
    let final := fst (Pipeline.run e i d) in
    snd (Pipeline.run e i d) = d
    /\ final
       = Pipeline.notify_citizen e
           (Pipeline.add_error Store.PersistenceFailed
              (Pipeline.set_complaint_id
                 (str_or (Pipeline.complaint_id before) (Pipeline.uuid4 e)) before))
    /\ In Store.PersistenceFailed (Pipeline.errors final)
    /\ ~ In Store.WorkflowFailed (Pipeline.errors final).
Proof.
  intros e i d F before final.
  assert (E : final
              = Pipeline.notify_citizen e
                  (Pipeline.add_error Store.PersistenceFailed
                     (Pipeline.set_complaint_id
                        (str_or (Pipeline.complaint_id before) (Pipeline.uuid4 e))
                        before))).
  { subst final. rewrite run_state. fold before.
    unfold Pipeline.persist_complaint. now rewrite F. }
  split; [|split; [exact E|split]].
  - rewrite run_store. fold before. unfold Pipeline.persist_complaint.
    now rewrite F.
  - rewrite E. unfold Pipeline.notify_citizen.
    destruct (Pipeline.communication_result e);
      cbn [Pipeline.errors Pipeline.add_error Pipeline.set_citizen_message
           Pipeline.set_complaint_id];
      rewrite ?in_app_iff; cbn; auto.
  - apply run_errors.
Qed.

Lemma persistence_failure_recorded_witness :
  let e := Pipeline.mkEnv
             (Reply (Classification.mkReply (Some "medium") (Some "sanitation")
                       (Some "pune_municipal") None Absent))
             NoJson NoJson NoJson (Reply (Val (Fin 48))) (Some (None, false))
             (Some "Your complaint has been registered")
             false "id-1" 0 in
  let i := Pipeline.mkInput "Garbage not collected for 3 days"
             (Classification.mkLocation true (Val "Pune")) "citizen@example.org" in
  snd (Pipeline.run e i (Store.mkDb [] [])) = Store.mkDb [] [].
Proof.
  intros e i.
  destruct (persistence_failure_recorded e i (Store.mkDb [] [])) as (H & _);
    [reflexivity | exact H].
Defined.

Lemma adjust_urgency_urgent (emotion priority : string) :
  Pipeline.adjust_urgency emotion priority "urgent" = "urgent".
Proof.
  unfold Pipeline.adjust_urgency. cbn.
  repeat match goal with |- context [if ?b then _ else _] => destruct b end;
    reflexivity.
Qed.

(** The safety-net list of the workflow is part of the list of the agent. *)
Lemma workflow_fire_keywords (d : string) :
  any_in Classification.fire_keywords d = false ->
  any_in Pipeline.fire_keywords d = false.
Proof.
  unfold any_in, Classification.fire_keywords, Pipeline.fire_keywords.
  cbn [existsb]. rewrite !orb_false_iff. tauto.
Qed.

(** What the emergency branches of the keyword scan give once the reply
    has been read. *)
Lemma classify_emergency (loc : Classification.location)
    (p : Classification.reply_json) (description dep cat : string) :
  description <> "" ->
  Classification.keyword_routing loc (lower description)
  = Return (Some dep, Some "urgent", Some cat) ->
  mem cat Classification.valid_categories = true ->
  mem dep ["municipal"; "bmc"; "pune_municipal"; "nagpur_municipal"] = false ->
  Departments.is_department dep = true ->
  typed (Classification.j_location p) = true ->
  exists name,
    Classification.process loc (Reply p) description
    = Return (Classification.mkResult "urgent" cat dep name).
Proof.
  intros Hne K Vc Nm Hd Tl. unfold Classification.process.
  destruct description as [|a description']; [congruence|].
  unfold Classification.classify_with_llm. rewrite K. cbn [bind].
  change (mem "urgent" Classification.valid_urgencies) with true. cbv iota.
  rewrite Vc. unfold Classification.police_safety_check.
  rewrite Nm, andb_false_r. cbn [bind].
  unfold Classification.municipal_by_location.
  assert (M : (dep =? "municipal") = false).
  { cbn in Nm. now destruct (dep =? "municipal"). }
  rewrite M. cbn [bind]. rewrite Hd.
  destruct (Classification.j_location p); try discriminate Tl; cbn; eauto.
Qed.

Lemma run_emergency (e : Pipeline.env) (i : Pipeline.input) (d : Store.db)
    (cat dep name : string) :
  Classification.process (Pipeline.in_location i) (Pipeline.classification_reply e)
    (Pipeline.in_description i)
  = Return (Classification.mkResult "urgent" cat dep name) ->
  any_in Pipeline.fire_keywords (lower (Pipeline.in_description i)) = false
  \/ (dep = "fire" /\ cat = "safety") ->
  let final := fst (Pipeline.run e i d) in
  Pipeline.department final = dep
  /\ Pipeline.urgency final = "urgent"
  /\ Pipeline.structured_category final = cat.
Proof.
  intros C F final.
  destruct (after_sentiment_keeps e i d) as (U & D & G). fold final in U, D, G.
  rewrite U, D, G.
  assert (S0 : let s0 := Pipeline.classify_complaint e (Pipeline.initial_state i) in
               Pipeline.department s0 = dep /\ Pipeline.urgency s0 = "urgent"
               /\ Pipeline.structured_category s0 = cat).
  { unfold Pipeline.classify_complaint.
    cbn [Pipeline.initial_state Pipeline.location Pipeline.description].
    rewrite C.
    cbn [Pipeline.set_classification Pipeline.description Pipeline.department
         Pipeline.urgency Classification.urgency Classification.department
         Classification.structured_category Classification.department_name].
    change (Pipeline.description (Pipeline.initial_state i))
      with (Pipeline.in_description i).
    destruct F as [F|[-> ->]].
    - rewrite F. cbn. auto.
    - cbn [String.eqb Ascii.eqb Bool.eqb negb]. rewrite !andb_false_r.
      cbn. auto. }
  cbv zeta in S0. destruct S0 as (D0 & U0 & G0).
  unfold Pipeline.analyze_sentiment.
  cbn [Pipeline.department Pipeline.urgency Pipeline.structured_category
       Pipeline.set_urgency Pipeline.set_classification Pipeline.set_sentiment
       Pipeline.emotion_level Pipeline.priority_recommendation].
  rewrite U0, D0, G0, adjust_urgency_urgent. auto.
Qed.

(** C4, as stated, fails: a description with a medical keyword that also
    holds a fire keyword goes to the fire department, the fire branch
    being tried first. *)
Lemma medical_with_fire_goes_to_fire :
  let e := Pipeline.mkEnv
             (Reply (Classification.mkReply (Some "urgent") (Some "health")
                       (Some "maharashtra_health") None Absent))
             NoJson NoJson NoJson (Reply (Val (Fin 0.5))) None None true "id-1" 0 in
  let i := Pipeline.mkInput "Ambulance needed, people hurt in a house on fire"
             (Classification.mkLocation true (Val "Pune")) "" in
  any_in Classification.medical_keywords (lower (Pipeline.in_description i)) = true
  /\ Pipeline.department (fst (Pipeline.run e i (Store.mkDb [] []))) = "fire"
  /\ "fire" <> "maharashtra_health".
Proof.
  cbv zeta. split; [vm_compute; reflexivity|].
  split; [vm_compute; reflexivity|discriminate].
Qed.

(** C4, amended. When the classification reply is read without error:
    a description with a fire keyword ends the pipeline with department
    fire, urgency urgent and category safety; a description with a medical
    keyword and no fire keyword ends it with department
    maharashtra_health, urgency urgent and category health; the other
    entries of the reply play no part. *)
Theorem emergency_keywords_decide :
  forall (e : Pipeline.env) (i : Pipeline.input) (d : Store.db)
         (p : Classification.reply_json),
    Pipeline.classification_reply e = Reply p ->
    typed (Classification.j_location p) = true ->
    let description := lower (Pipeline.in_description i) in
    let final := fst (Pipeline.run e i d) in
    (any_in Classification.fire_keywords description = true ->
       Pipeline.department final = "fire"
       /\ Pipeline.urgency final = "urgent"
       /\ Pipeline.structured_category final = "safety")
    /\ (any_in Classification.fire_keywords description = false ->
        any_in Classification.medical_keywords description = true ->
          Pipeline.department final = "maharashtra_health"
          /\ Pipeline.urgency final = "urgent"
          /\ Pipeline.structured_category final = "health").
Proof.
  intros e i d p R T description final. split.
  - intro F.
    assert (Hne : Pipeline.in_description i <> "")
      by (apply (any_in_nonempty Classification.fire_keywords);
          [reflexivity|exact F]).
    destruct (classify_emergency (Pipeline.in_location i) p
                (Pipeline.in_description i) "fire" "safety" Hne)
      as [name C]; try reflexivity; try exact T.
    { unfold Classification.keyword_routing. fold description. now rewrite F. }
    rewrite <- R in C.
    apply (run_emergency e i d "safety" "fire" name C). right. auto.
  - intros F M.
    assert (Hne : Pipeline.in_description i <> "")
      by (apply (any_in_nonempty Classification.medical_keywords);
          [reflexivity|exact M]).
    destruct (classify_emergency (Pipeline.in_location i) p
                (Pipeline.in_description i) "maharashtra_health" "health" Hne)
      as [name C]; try reflexivity; try exact T.
    { unfold Classification.keyword_routing. fold description. now rewrite F, M. }
    rewrite <- R in C.
    apply (run_emergency e i d "health" "maharashtra_health" name C). left.
    now apply workflow_fire_keywords.
Qed.

Lemma emergency_keywords_decide_witness :
  let e := Pipeline.mkEnv
             (Reply (Classification.mkReply (Some "low") (Some "other")
                       (Some "municipal") None Absent))
             NoJson NoJson NoJson (Reply (Val (Fin 24))) None None true "id-1" 0 in
  (Pipeline.department
     (fst (Pipeline.run e
             (Pipeline.mkInput "Fire in Hinjewadi Pune"
                (Classification.mkLocation true (Val "Pune")) "")
             (Store.mkDb [] []))) = "fire")
  /\ (Pipeline.department
        (fst (Pipeline.run e
                (Pipeline.mkInput "My neighbour had a heart attack"
                   (Classification.mkLocation true (Val "Pune")) "")
                (Store.mkDb [] []))) = "maharashtra_health").
Proof.
  intros e. split.
  - destruct (emergency_keywords_decide e
                (Pipeline.mkInput "Fire in Hinjewadi Pune"
                   (Classification.mkLocation true (Val "Pune")) "")
                (Store.mkDb [] [])
                (Classification.mkReply (Some "low") (Some "other")
                   (Some "municipal") None Absent) eq_refl eq_refl) as (H & _).
    apply H. vm_compute. reflexivity.
  - destruct (emergency_keywords_decide e
                (Pipeline.mkInput "My neighbour had a heart attack"
                   (Classification.mkLocation true (Val "Pune")) "")
                (Store.mkDb [] [])
                (Classification.mkReply (Some "low") (Some "other")
                   (Some "municipal") None Absent) eq_refl eq_refl) as (_ & H).
    apply H; vm_compute; reflexivity.
Defined.

(** The keyword decision does not survive a classification that raises:
    with a reply that holds no JSON object the node falls back on the two
    separate agents and on the fixed defaults, without a keyword check. *)
Example fire_lost_when_classification_raises :
  let e := Pipeline.mkEnv NoJson NoJson NoJson NoJson (Reply (Val (Fin 24)))
             None None true "id-1" 0 in
  let s := fst (Pipeline.run e
                  (Pipeline.mkInput "Fire in Hinjewadi Pune"
                     (Classification.mkLocation true (Val "Pune")) "")
                  (Store.mkDb [] [])) in
  Pipeline.department s = "municipal" /\ Pipeline.urgency s = "medium"
  /\ Pipeline.structured_category s = "other".
Proof.
  cbv zeta. repeat split; vm_compute; reflexivity.
Qed.

(** ** Monitoring and escalation *)

(** One escalation of the loop, by what the store answers. *)
Lemma escalate_one_cases (w : Monitoring.writes) (now : Q) (d : Store.db)
    (i : Monitoring.escalation_info) :
  Store.complaints (Monitoring.escalate_one w now d i)
  = (if Monitoring.insert_accepted w && Monitoring.update_accepted w
     then map (fun c => if Store.c_id c =? Monitoring.ei_complaint_id i
                        then Store.touch now
                               (Monitoring.set_escalated (Monitoring.ei_level i) c)
                        else c) (Store.complaints d)
     else Store.complaints d)
  /\ Store.escalations (Monitoring.escalate_one w now d i)
     = (if Monitoring.insert_accepted w
        then Store.escalations d ++ [Monitoring.escalation_record now i]
        else Store.escalations d)%list.
Proof.
  unfold Monitoring.escalate_one, Store.create_escalation, Store.update_complaint.
  destruct (Monitoring.insert_accepted w), (Monitoring.update_accepted w);
    split; reflexivity.
Qed.

(** The store after the loop of [_escalate_complaints]: the rows after
    the escalations that reached them, the records of those the store
    recorded. *)
Lemma complaints_after_escalations (store : nat -> Monitoring.writes) (now : Q)
    (l : list Monitoring.escalation_info) (d : Store.db) :
  Store.complaints (Monitoring.escalate_complaints store now d l)
  = map (apply_escalations now (applied store l)) (Store.complaints d)
  /\ Store.escalations (Monitoring.escalate_complaints store now d l)
     = (Store.escalations d
        ++ map (Monitoring.escalation_record now) (recorded store l))%list.
Proof.
  revert store d. induction l as [|i l IH]; intros store d.
  - cbn [Monitoring.escalate_complaints applied recorded map apply_escalations
         fold_left].
    unfold apply_escalations. cbn [fold_left]. rewrite map_id, app_nil_r. auto.
  - cbn [Monitoring.escalate_complaints applied recorded].
    destruct (IH (fun k => store (S k))
                (Monitoring.escalate_one (store 0%nat) now d i)) as [C E].
    destruct (escalate_one_cases (store 0%nat) now d i) as [C1 E1].
    rewrite C, E, C1, E1. split.
    + destruct (Monitoring.insert_accepted (store 0%nat)
                && Monitoring.update_accepted (store 0%nat)); [|reflexivity].
      rewrite map_map. reflexivity.
    + destruct (Monitoring.insert_accepted (store 0%nat)); [|reflexivity].
      cbn [map]. now rewrite <- app_assoc.
Qed.

Lemma applied_In (l : list Monitoring.escalation_info) :
  forall (store : nat -> Monitoring.writes) (i : Monitoring.escalation_info),
    In i (applied store l) -> In i l.
Proof.
  induction l as [|j l IH]; intros store i; cbn [applied]; [tauto|].
  destruct (_ && _); cbn [In]; [intros [H|H]|intro H]; eauto.
Qed.

Lemma recorded_In (l : list Monitoring.escalation_info) :
  forall (store : nat -> Monitoring.writes) (i : Monitoring.escalation_info),
    In i (recorded store l) -> In i l.
Proof.
  induction l as [|j l IH]; intros store i; cbn [recorded]; [tauto|].
  destruct (Monitoring.insert_accepted _); cbn [In]; [intros [H|H]|intro H]; eauto.
Qed.

(** Where the store performs the writes of every escalation of the list,
    all of them are recorded and reach their complaint. *)
Lemma performed_all (l : list Monitoring.escalation_info) :
  forall store : nat -> Monitoring.writes,
    performs store (length l) ->
    applied store l = l /\ recorded store l = l.
Proof.
  induction l as [|j l IH]; intros store P; [split; reflexivity|].
  cbn [applied recorded].
  destruct (P 0%nat) as [I U]; [cbn; lia|]. rewrite I, U. cbn [andb].
  destruct (IH (fun k => store (S k))) as [A R].
  { intros k K. apply P. cbn. lia. }
  rewrite A, R. split; reflexivity.
Qed.

(** [_followup_stale], by the store's answer. *)
Lemma followup_stale_unfold (columns : bool) (now : Q) (d : Store.db) :
  Monitoring.followup_stale columns now d
  = if columns then
      fold_left (fun d c => Store.updated_rows now d (Store.c_id c)
                              (Monitoring.stamp_followup c))
        (Monitoring.find_stale_complaints now d) d
    else d.
Proof.
  unfold Monitoring.followup_stale.
  generalize (Monitoring.find_stale_complaints now d) as l.
  destruct columns; intro l.
  - reflexivity.
  - revert d. induction l as [|c l IH]; intro d; [reflexivity|exact (IH d)].
Qed.

Lemma complaints_after_followups (now : Q) (l : list Store.complaint) (d : Store.db) :
  Store.complaints
    (fold_left (fun d c => Store.updated_rows now d (Store.c_id c)
                             (Monitoring.stamp_followup c)) l d)
  = map (apply_followups now l) (Store.complaints d)
  /\ Store.escalations
       (fold_left (fun d c => Store.updated_rows now d (Store.c_id c)
                                (Monitoring.stamp_followup c)) l d)
     = Store.escalations d.
Proof.
  unfold apply_followups.
  revert d. induction l as [|f l IH]; intro d; cbn [fold_left map].
  - rewrite map_id. auto.
  - destruct (IH (Store.updated_rows now d (Store.c_id f)
                    (Monitoring.stamp_followup f))) as [C E].
    rewrite C, E. split; [|reflexivity].
    cbn [Store.updated_rows Store.complaints]. rewrite map_map. reflexivity.
Qed.

Lemma same_core_refl (c : Store.complaint) : same_core c c.
Proof. repeat split. Qed.

Lemma same_core_trans (a b c : Store.complaint) :
  same_core a b -> same_core b c -> same_core a c.
Proof. unfold same_core. intuition congruence. Qed.

(** A follow-up leaves the core, the status and the level of a row. *)
Lemma apply_followups_keeps (now : Q) (l : list Store.complaint) (c : Store.complaint) :
  same_core c (apply_followups now l c)
  /\ Store.c_status (apply_followups now l c) = Store.c_status c
  /\ Store.c_escalation_level (apply_followups now l c) = Store.c_escalation_level c.
Proof.
  unfold apply_followups. revert c.
  induction l as [|f l IH]; intro c; cbn [fold_left].
  - split; [apply same_core_refl|auto].
  - destruct (Store.c_id c =? Store.c_id f); [|apply IH].
    destruct (IH (Store.touch now (Monitoring.stamp_followup f c))) as (K & S & L).
    split; [|split].
    + eapply same_core_trans; [|exact K]. repeat split.
    + rewrite S. reflexivity.
    + rewrite L. reflexivity.
Qed.

(** An escalation leaves the core of a row. *)
Lemma apply_escalations_core (now : Q) (l : list Monitoring.escalation_info)
    (c : Store.complaint) :
  same_core c (apply_escalations now l c).
Proof.
  unfold apply_escalations. revert c.
  induction l as [|i l IH]; intro c; cbn [fold_left].
  - apply same_core_refl.
  - destruct (Store.c_id c =? Monitoring.ei_complaint_id i); [|apply IH].
    eapply same_core_trans; [|apply IH]. repeat split.
Qed.

(** A row no escalation names is left as it was. *)
Lemma apply_escalations_other (now : Q) (l : list Monitoring.escalation_info)
    (c : Store.complaint) :
  ~ In (Store.c_id c) (map Monitoring.ei_complaint_id l) ->
  apply_escalations now l c = c.
Proof.
  unfold apply_escalations. revert c.
  induction l as [|i l IH]; intros c N; cbn [fold_left]; [reflexivity|].
  cbn [map In] in N.
  destruct (Store.c_id c =? Monitoring.ei_complaint_id i) eqn:E.
  - apply String.eqb_eq in E. exfalso. apply N. left. now symmetry.
  - apply IH. tauto.
Qed.

(** A row some escalation names takes the level of one of those. *)
Lemma apply_escalations_named (now : Q) (l : list Monitoring.escalation_info)
    (c : Store.complaint) :
  In (Store.c_id c) (map Monitoring.ei_complaint_id l) ->
  exists i, In i l /\ Monitoring.ei_complaint_id i = Store.c_id c
            /\ Store.c_escalation_level (apply_escalations now l c)
               = Monitoring.ei_level i.
Proof.
  unfold apply_escalations. revert c.
  induction l as [|i l IH]; intros c N; cbn [fold_left]; [destruct N|].
  destruct (Store.c_id c =? Monitoring.ei_complaint_id i) eqn:E.
  - apply String.eqb_eq in E.
    set (c' := Store.touch now (Monitoring.set_escalated (Monitoring.ei_level i) c)).
    destruct (in_dec string_dec (Store.c_id c') (map Monitoring.ei_complaint_id l))
      as [Y|Y].
    + destruct (IH c' Y) as (j & Hj & Ij & Lj).
      exists j. split; [now right|]. split; [exact Ij|exact Lj].
    + exists i. split; [now left|]. split; [now symmetry|].
      fold (apply_escalations now l c'). rewrite (apply_escalations_other now l c' Y).
      reflexivity.
  - cbn [map In] in N. destruct N as [N|N].
    + apply String.eqb_neq in E. congruence.
    + destruct (IH c N) as (j & Hj & Ij & Lj).
      exists j. split; [now right|]. auto.
Qed.

Lemma find_by_id_map (g : Store.complaint -> Store.complaint)
    (l : list Store.complaint) (id : string) :
  (forall c, Store.c_id (g c) = Store.c_id c) ->
  find (fun c => Store.c_id c =? id) (map g l)
  = option_map g (find (fun c => Store.c_id c =? id) l).
Proof.
  intro G. induction l as [|c l IH]; cbn [map find option_map]; [reflexivity|].
  rewrite G. destruct (Store.c_id c =? id); [reflexivity|exact IH].
Qed.

Lemma ids_map (g : Store.complaint -> Store.complaint) (l : list Store.complaint) :
  (forall c, Store.c_id (g c) = Store.c_id c) ->
  map Store.c_id (map g l) = map Store.c_id l.
Proof.
  intro G. rewrite map_map. apply map_ext. exact G.
Qed.

Lemma mem_In (x : string) (l : list string) : mem x l = true <-> In x l.
Proof.
  unfold mem. rewrite existsb_exists. split.
  - intros (y & Hy & E). apply String.eqb_eq in E. now subst.
  - intro H. exists x. split; [exact H|apply String.eqb_refl].
Qed.

Lemma distinct_NoDup (l : list string) : distinct l = true -> NoDup l.
Proof.
  induction l as [|x l IH]; cbn [distinct]; intro D; constructor;
    apply andb_prop in D; destruct D as [N D].
  - apply negb_true_iff in N. intro H. apply mem_In in H. congruence.
  - now apply IH.
Qed.

(** With distinct ids, the row found by an id is the only row with it. *)
Lemma find_unique (l : list Store.complaint) (r : Store.complaint) :
  NoDup (map Store.c_id l) -> In r l ->
  find (fun c => Store.c_id c =? Store.c_id r) l = Some r.
Proof.
  induction l as [|c l IH]; intros D H; [destruct H|].
  cbn [map] in D. inversion D as [|x xs N D' E]; subst.
  cbn [find]. destruct H as [->|H].
  - now rewrite String.eqb_refl.
  - destruct (Store.c_id c =? Store.c_id r) eqn:E; [|now apply IH].
    apply String.eqb_eq in E. exfalso. apply N. rewrite E. now apply in_map.
Qed.

Lemma find_In (l : list Store.complaint) (id : string) (c : Store.complaint) :
  find (fun c => Store.c_id c =? id) l = Some c -> In c l /\ Store.c_id c = id.
Proof.
  intro H. apply find_some in H. destruct H as [H E].
  apply String.eqb_eq in E. auto.
Qed.

(** What the loop of [_check_escalations] needs in order to append an
    entry, and the entry it appends. *)
Lemma check_one_Some (llm : Monitoring.service) (now : Q) (d : Store.db)
    (id : string) (i : Monitoring.escalation_info) :
  Monitoring.check_one llm now d id = Some i ->
  exists c dl p,
    Store.get_complaint d id = Some c
    /\ Store.c_sla_deadline c = Some dl /\ dl < now
    /\ llm (Monitoring.decision_input_of d c (Monitoring.round2 (now - dl))
              (Store.c_urgency c)) = Reply p
    /\ Monitoring.j_escalation_needed p = Some true
    /\ Monitoring.j_escalation_level p = Some (Monitoring.ei_level i)
    /\ Monitoring.ei_level i <> "none"
    /\ Monitoring.ei_level i <> Store.c_escalation_level c
    /\ Monitoring.ei_complaint_id i = id.
Proof.
  unfold Monitoring.check_one, Monitoring.process.
  destruct (Store.get_complaint d id) as [c|] eqn:G; [|discriminate].
  unfold Monitoring.check_complaint_status.
  destruct (Store.c_sla_deadline c) as [dl|] eqn:D; [|discriminate].
  destruct (Qltb dl now) eqn:B; [|discriminate].
  unfold Monitoring.escalate_with_llm.
  destruct (llm _) as [| |p] eqn:R; try discriminate.
  destruct (Monitoring.j_escalation_needed p) as [[|]|] eqn:N; try discriminate.
  destruct (Monitoring.j_escalation_level p) as [lvl|] eqn:L; [|discriminate].
  cbn [negb orb].
  destruct (lvl =? Store.NONE) eqn:E1; [discriminate|].
  destruct (lvl =? Store.c_escalation_level c) eqn:E2; [discriminate|].
  cbn [orb]. intro H; injection H as <-.
  cbn [Monitoring.ei_level Monitoring.ei_complaint_id].
  apply String.eqb_neq in E1, E2. apply Qltb_lt in B.
  exists c, dl, p. repeat split; auto.
Qed.

(** The converse: a breaching complaint for which the service proposes a
    level other than none and other than its own gets an entry with that
    level. *)
Lemma check_one_proposed (llm : Monitoring.service) (now : Q) (d : Store.db)
    (id : string) (c : Store.complaint) (dl : Q) (p : Monitoring.decision_json)
    (lvl : string) :
  Store.get_complaint d id = Some c ->
  Store.c_sla_deadline c = Some dl -> dl < now ->
  llm (Monitoring.decision_input_of d c (Monitoring.round2 (now - dl))
         (Store.c_urgency c)) = Reply p ->
  Monitoring.j_escalation_needed p = Some true ->
  Monitoring.j_escalation_level p = Some lvl ->
  lvl <> "none" ->
  Monitoring.check_one llm now d id
  = if lvl =? Store.c_escalation_level c then None
    else Some (Monitoring.mkInfo id lvl
                 (match Monitoring.j_authority p with
                  | Some a => a
                  | None => Monitoring.get_escalation_authority lvl
                              (Store.c_responsible_department c)
                  end)
                 (match Monitoring.j_reason p with
                  | Some r => Store.Given r
                  | None => Store.Overdue (Monitoring.round2 (now - dl))
                              (Store.c_urgency c)
                  end)).
Proof.
  intros G D B R N L E1.
  unfold Monitoring.check_one, Monitoring.process. rewrite G.
  unfold Monitoring.check_complaint_status. rewrite D.
  apply Qltb_lt in B. rewrite B.
  unfold Monitoring.escalate_with_llm. rewrite R, N, L. cbn [negb orb].
  apply String.eqb_neq in E1. unfold Store.NONE. rewrite E1. cbn [orb].
  destruct (lvl =? Store.c_escalation_level c); reflexivity.
Qed.

Lemma in_check_escalations (llm : Monitoring.service) (now : Q) (d : Store.db)
    (breaching stale : list string) (i : Monitoring.escalation_info) :
  In i (Monitoring.check_escalations llm now d breaching stale)
  <-> exists id, In id (breaching ++ stale)
                 /\ Monitoring.check_one llm now d id = Some i.
Proof.
  unfold Monitoring.check_escalations. rewrite in_flat_map. split.
  - intros (id & H & K). exists id. split; [exact H|].
    destruct (Monitoring.check_one llm now d id); [|destruct K].
    destruct K as [->|[]]. reflexivity.
  - intros (id & H & K). exists id. split; [exact H|]. rewrite K. now left.
Qed.

(** The store that the follow-up node leaves: the rows keep their place,
    core, status and level; the escalations are untouched. *)
Lemma followup_stale_rows (columns : bool) (now : Q) (d : Store.db) :
  exists g,
    Store.complaints (Monitoring.followup_stale columns now d)
    = map g (Store.complaints d)
    /\ Store.escalations (Monitoring.followup_stale columns now d)
       = Store.escalations d
    /\ forall c, same_core c (g c)
                 /\ Store.c_status (g c) = Store.c_status c
                 /\ Store.c_escalation_level (g c) = Store.c_escalation_level c.
Proof.
  rewrite followup_stale_unfold. destruct columns.
  - exists (apply_followups now (Monitoring.find_stale_complaints now d)).
    destruct (complaints_after_followups now
                (Monitoring.find_stale_complaints now d) d) as [C E].
    split; [exact C|]. split; [exact E|]. apply apply_followups_keeps.
  - exists (fun c => c). rewrite map_id. split; [reflexivity|].
    split; [reflexivity|]. intro c. split; [apply same_core_refl|auto].
Qed.

(** The prompt depends on the core of the complaint and on the
    escalations on record. *)
Lemma decision_input_same (d d' : Store.db) (c c' : Store.complaint) (h : Q)
    (u : string) :
  same_core c c' -> Store.escalations d' = Store.escalations d ->
  Monitoring.decision_input_of d' c' h u = Monitoring.decision_input_of d c h u.
Proof.
  intros (I & De & Ca & Dp & _ & _) E.
  unfold Monitoring.decision_input_of, Store.get_escalations_for_complaint.
  now rewrite I, De, Ca, Dp, E.
Qed.

(** The complaint that the check step reads after the follow-ups is the
    stored one up to the follow-up stamp. *)
Lemma get_complaint_after_followup (columns : bool) (now : Q) (d : Store.db)
    (id : string) (c1 : Store.complaint) :
  Store.get_complaint (Monitoring.followup_stale columns now d) id = Some c1 ->
  exists c, Store.get_complaint d id = Some c
            /\ same_core c c1
            /\ Store.c_status c1 = Store.c_status c
            /\ Store.c_escalation_level c1 = Store.c_escalation_level c.
Proof.
  destruct (followup_stale_rows columns now d) as (g & C & _ & K).
  unfold Store.get_complaint. rewrite C, find_by_id_map by (intro c; apply (K c)).
  destruct (find _ (Store.complaints d)) as [c|]; [|discriminate].
  cbn [option_map]. intro H; injection H as <-.
  exists c. split; [reflexivity|]. apply K.
Qed.

(** C1, as stated, fails: a low-urgency complaint one hour past its
    deadline and already at level_4 is escalated, to level_1, because the
    decision service says so. *)
Lemma escalation_below_threshold_and_downward :
  let c := Store.mkComplaint "c1" "Street light broken" "infrastructure"
             "pune_municipal" "escalated" "low" (Some 99) "level_4" "" 168 [] 0 50 [] in
  let d := Store.mkDb [c]
             [Store.mkEscalation "c1" "level_4" (Store.Given "still open")
                "Chief Minister / Governor Office" 60] in
  let e := Monitoring.mkEnv
             (fun _ => Reply (Monitoring.mkDecision (Some true) (Some "level_1")
                                None None))
             100 true
             (fun _ => Monitoring.mkWrites true true) in
  snd (Monitoring.check_complaint_status 100 c) == 1
  /\ map Store.e_escalation_level (Store.escalations (fst (Monitoring.run e d)))
     = ["level_4"; "level_1"]
  /\ map Store.c_escalation_level (Store.complaints (fst (Monitoring.run e d)))
     = ["level_1"].
Proof.
  cbv zeta. split; [vm_compute; reflexivity|].
  split; vm_compute; reflexivity.
Qed.

(** C1, amended. Every record that a monitoring cycle adds to the
    escalation records is the record of an escalation that the cycle
    recommended, and carries its proposed level: the records added are
    those of the recommended escalations whose insert the store accepted,
    and nothing else.  And an escalation is recommended for a complaint
    only if the complaint is past its SLA deadline, the decision service
    answered that an escalation is needed, and the level it proposed is
    neither none nor the complaint's current level. *)
Theorem escalation_only_on_proposal :
  forall (e : Monitoring.env) (d : Store.db),
    let now := Monitoring.utcnow e in
    let escalated := snd (Monitoring.run e d) in
    Store.escalations (fst (Monitoring.run e d))
    = (Store.escalations d
       ++ map (Monitoring.escalation_record now)
            (recorded (Monitoring.store e) escalated))%list
    /\ (forall i, In i (recorded (Monitoring.store e) escalated) -> In i escalated)
    /\ forall i, In i escalated ->
         exists c dl p,
           Store.get_complaint d (Monitoring.ei_complaint_id i) = Some c
           /\ Store.c_sla_deadline c = Some dl /\ dl < now
           /\ Monitoring.llm e
                (Monitoring.decision_input_of d c (Monitoring.round2 (now - dl))
                   (Store.c_urgency c)) = Reply p
           /\ Monitoring.j_escalation_needed p = Some true
           /\ Monitoring.j_escalation_level p = Some (Monitoring.ei_level i)
           /\ Monitoring.ei_level i <> "none"
           /\ Monitoring.ei_level i <> Store.c_escalation_level c.
Proof.
  intros e d now escalated. subst escalated. unfold Monitoring.run.
  destruct (Monitoring.monitor (Monitoring.utcnow e) d) as [breaching stale].
  cbn [fst snd]. fold now.
  destruct (followup_stale_rows (Monitoring.followup_columns e) now d)
    as (g & _ & E & _).
  split; [|split].
  - destruct (complaints_after_escalations (Monitoring.store e) now
                (Monitoring.check_escalations (Monitoring.llm e) now
                   (Monitoring.followup_stale (Monitoring.followup_columns e) now d)
                   breaching stale)
                (Monitoring.followup_stale (Monitoring.followup_columns e) now d))
      as [_ R].
    rewrite R, E. reflexivity.
  - intro i. apply recorded_In.
  - intros i H. apply in_check_escalations in H. destruct H as (id & _ & H).
    apply check_one_Some in H.
    destruct H as (c1 & dl & p & G & D & B & R & N & L & E1 & E2 & I).
    apply get_complaint_after_followup in G.
    destruct G as (c & G & K & _ & Lv).
    rewrite (decision_input_same d _ c c1 _ _ K E) in R.
    destruct K as (_ & _ & _ & _ & U & Dl).
    rewrite U in R. rewrite Dl in D. rewrite Lv in E2. rewrite I.
    exists c, dl, p. repeat split; auto.
Qed.

Lemma escalation_only_on_proposal_witness :
  let c := Store.mkComplaint "c2" "Water pipe burst" "utilities" "pune_municipal"
             "open" "high" (Some 70) "none" "" 6 [] 0 50 [] in
  let e := Monitoring.mkEnv
             (fun _ => Reply (Monitoring.mkDecision (Some true) (Some "level_1")
                                None None))
             100 true
             (fun _ => Monitoring.mkWrites true true) in
  let i := Monitoring.mkInfo "c2" "level_1"
             "Pune Municipal Corporation (PMC) - Department Head"
             (Store.Overdue (Monitoring.round2 (100 - 70)) "high") in
  exists c' dl p,
    Store.get_complaint (Store.mkDb [c] []) "c2" = Some c'
    /\ Store.c_sla_deadline c' = Some dl /\ dl < 100
    /\ Monitoring.llm e
         (Monitoring.decision_input_of (Store.mkDb [c] []) c'
            (Monitoring.round2 (100 - dl)) (Store.c_urgency c')) = Reply p
    /\ Monitoring.j_escalation_needed p = Some true
    /\ Monitoring.j_escalation_level p = Some "level_1"
    /\ "level_1" <> "none"
    /\ "level_1" <> Store.c_escalation_level c'.
Proof.
  intros c e i.
  destruct (escalation_only_on_proposal e (Store.mkDb [c] [])) as (_ & _ & H).
  apply (H i). vm_compute. left. reflexivity.
Defined.

Lemma In_firstn {A : Type} (n : nat) (l : list A) (x : A) :
  In x (firstn n l) -> In x l.
Proof.
  revert l. induction n as [|n IH]; intros [|a l]; cbn; try tauto.
  intros [H|H]; [now left|right; now apply IH].
Qed.

Lemma run_unfold (e : Monitoring.env) (d : Store.db) :
  let now := Monitoring.utcnow e in
  let d1 := Monitoring.followup_stale (Monitoring.followup_columns e) now d in
  let escalated :=
    Monitoring.check_escalations (Monitoring.llm e) now d1
      (map Store.c_id (Store.get_complaints_breaching_sla now d))
      (map Store.c_id
         (filter (Monitoring.stale7 now)
            (Store.get_complaints_by_status d Store.IN_PROGRESS 100))) in
  Monitoring.run e d
  = (Monitoring.escalate_complaints (Monitoring.store e) now d1 escalated, escalated).
Proof. reflexivity. Qed.

(** Every id the monitor node lists belongs to a stored row with that
    id; a listed id of a row past its deadline is in the breaching list
    once the row is neither resolved nor closed. *)
Lemma listed_row (now : Q) (d : Store.db) (id : string) :
  In id (map Store.c_id (Store.get_complaints_breaching_sla now d)
         ++ map Store.c_id
              (filter (Monitoring.stale7 now)
                 (Store.get_complaints_by_status d Store.IN_PROGRESS 100)))%list ->
  exists r, In r (Store.complaints d) /\ Store.c_id r = id
            /\ (Store.breaching now r = true
                \/ Store.c_status r = Store.IN_PROGRESS).
Proof.
  intro H. apply in_app_or in H. destruct H as [H|H];
    apply in_map_iff in H; destruct H as (r & I & H).
  - unfold Store.get_complaints_breaching_sla in H. apply filter_In in H.
    exists r. tauto.
  - apply filter_In in H. destruct H as [H _].
    unfold Store.get_complaints_by_status in H. apply In_firstn in H.
    apply filter_In in H. destruct H as [H S]. apply String.eqb_eq in S.
    exists r. tauto.
Qed.

Lemma in_progress_breaching (now : Q) (c : Store.complaint) (dl : Q) :
  Store.c_sla_deadline c = Some dl -> dl < now ->
  Store.c_status c = Store.IN_PROGRESS ->
  Store.breaching now c = true.
Proof.
  intros D B S. unfold Store.breaching. rewrite D, S.
  apply Qltb_lt in B. rewrite B. reflexivity.
Qed.

(** The entries of the check step for one id are the one the loop body
    gives for that id. *)
Lemma escalated_entry (llm : Monitoring.service) (now : Q) (d : Store.db)
    (breaching stale : list string) (j : Monitoring.escalation_info) :
  In j (Monitoring.check_escalations llm now d breaching stale) ->
  In (Monitoring.ei_complaint_id j) (breaching ++ stale)
  /\ Monitoring.check_one llm now d (Monitoring.ei_complaint_id j) = Some j.
Proof.
  intro H. apply in_check_escalations in H. destruct H as (id & H & K).
  pose proof (check_one_Some _ _ _ _ _ K) as (_ & _ & _ & _ & _ & _ & _ & _ & _ & _ & _ & I).
  rewrite I. auto.
Qed.

Section SecondCycle.

Variables (llm : Monitoring.service) (now : Q) (columns : bool)
  (store : nat -> Monitoring.writes) (d : Store.db).
Hypothesis ids : NoDup (map Store.c_id (Store.complaints d)).
Hypothesis ignores :
  forall i n,
    llm (Monitoring.mkDecisionInput (Monitoring.di_complaint_id i)
           (Monitoring.di_category i) (Monitoring.di_description i)
           (Monitoring.di_department i) (Monitoring.di_hours_overdue i)
           (Monitoring.di_urgency i) n)
    = llm i.

(** The first cycle. *)
Let listed1 : list string :=
  (map Store.c_id (Store.get_complaints_breaching_sla now d)
   ++ map Store.c_id
        (filter (Monitoring.stale7 now)
           (Store.get_complaints_by_status d Store.IN_PROGRESS 100)))%list.
Let d1 : Store.db := Monitoring.followup_stale columns now d.
Let escalated1 : list Monitoring.escalation_info :=
  Monitoring.check_escalations llm now d1
    (map Store.c_id (Store.get_complaints_breaching_sla now d))
    (map Store.c_id
       (filter (Monitoring.stale7 now)
          (Store.get_complaints_by_status d Store.IN_PROGRESS 100))).
Let d2 : Store.db := Monitoring.escalate_complaints store now d1 escalated1.

(** The store performed the writes of the first cycle. *)
Hypothesis performed :
  forall k, (k < length escalated1)%nat ->
    Monitoring.insert_accepted (store k) = true
    /\ Monitoring.update_accepted (store k) = true.

Lemma first_cycle_rows :
  Store.complaints d2
  = map (apply_escalations now escalated1) (Store.complaints d1).
Proof.
  unfold d2.
  destruct (complaints_after_escalations store now escalated1 d1) as [C _].
  destruct (performed_all escalated1 store performed) as [A _].
  rewrite C, A. reflexivity.
Qed.

(** The second cycle, on the store the first one left. *)
Let listed2 : list string :=
  (map Store.c_id (Store.get_complaints_breaching_sla now d2)
   ++ map Store.c_id
        (filter (Monitoring.stale7 now)
           (Store.get_complaints_by_status d2 Store.IN_PROGRESS 100)))%list.
Let d3 : Store.db := Monitoring.followup_stale columns now d2.

Lemma second_cycle_ids : NoDup (map Store.c_id (Store.complaints d2)).
Proof.
  rewrite first_cycle_rows.
  rewrite ids_map by (intro c; apply (apply_escalations_core now escalated1 c)).
  unfold d1. destruct (followup_stale_rows columns now d) as (g & G & _ & K).
  rewrite G, ids_map by (intro c; apply (K c)).
  exact ids.
Qed.

Lemma second_cycle_row (id : string) (c2 : Store.complaint) :
  Store.get_complaint d2 id = Some c2 ->
  exists c1, Store.get_complaint d1 id = Some c1
             /\ c2 = apply_escalations now escalated1 c1.
Proof.
  unfold Store.get_complaint. rewrite first_cycle_rows.
  rewrite find_by_id_map by (intro c; apply (apply_escalations_core now escalated1 c)).
  destruct (find _ (Store.complaints d1)) as [c1|]; [|discriminate].
  cbn [option_map]. intro H; injection H as <-. eauto.
Qed.

(** In the second cycle the loop body appends nothing for a listed id. *)
Lemma second_check_one (id : string) :
  In id listed2 -> Monitoring.check_one llm now d3 id = None.
Proof.
  intro Listed.
  destruct (Monitoring.check_one llm now d3 id) as [i|] eqn:K; [exfalso|reflexivity].
  apply check_one_Some in K.
  destruct K as (c3 & dl & p & G3 & D3 & B & R3 & N & L & E1 & E2 & _).
  set (lvl := Monitoring.ei_level i) in *.
  (* the row behind [c3], back to the store the first cycle started from *)
  apply get_complaint_after_followup in G3.
  destruct G3 as (c2 & G2 & K23 & S23 & L23).
  destruct (second_cycle_row id c2 G2) as (c1 & G1 & C21).
  pose proof G1 as G0. apply get_complaint_after_followup in G0.
  destruct G0 as (c0 & G0 & K01 & S01 & L01).
  pose proof (apply_escalations_core now escalated1 c1) as K12. rewrite <- C21 in K12.
  assert (I1 : Store.c_id c1 = id) by (apply find_In in G1; tauto).
  assert (D1 : Store.c_sla_deadline c1 = Some dl).
  { destruct K12 as (_ & _ & _ & _ & _ & X), K23 as (_ & _ & _ & _ & _ & Y).
    congruence. }
  (* the service is asked the same question, up to the count *)
  assert (R1 : llm (Monitoring.decision_input_of d1 c1 (Monitoring.round2 (now - dl))
                      (Store.c_urgency c1)) = Reply p).
  { rewrite <- R3. rewrite <- (ignores (Monitoring.decision_input_of d3 c3 _ _)
                                 (length (Store.get_escalations_for_complaint d1
                                            (Store.c_id c1)))).
    f_equal. unfold Monitoring.decision_input_of.
    cbn [Monitoring.di_complaint_id Monitoring.di_category Monitoring.di_description
         Monitoring.di_department Monitoring.di_hours_overdue Monitoring.di_urgency].
    destruct K12 as (A1 & A2 & A3 & A4 & A5 & _), K23 as (B1 & B2 & B3 & B4 & B5 & _).
    rewrite B1, B2, B3, B4, B5, A1, A2, A3, A4, A5. reflexivity. }
  pose proof (check_one_proposed llm now d1 id c1 dl p lvl G1 D1 B R1 N L E1) as P.
  (* an entry of the first cycle for this id is the one of [P] *)
  assert (Entry : forall j, In j escalated1 -> Monitoring.ei_complaint_id j = id ->
                            Monitoring.check_one llm now d1 id = Some j
                            /\ In id listed1).
  { intros j Hj Ij. apply escalated_entry in Hj. rewrite Ij in Hj. tauto. }
  assert (Level3 : Store.c_escalation_level c3 = Store.c_escalation_level c2)
    by exact L23.
  destruct (in_dec string_dec id (map Monitoring.ei_complaint_id escalated1)) as [Y|Y].
  - (* escalated in the first cycle: the row is at the proposed level *)
    rewrite <- I1 in Y.
    destruct (apply_escalations_named now escalated1 c1 Y) as (j & Hj & Ij & Lj).
    rewrite I1 in Ij. destruct (Entry j Hj Ij) as [Cj _].
    rewrite P in Cj.
    destruct (lvl =? Store.c_escalation_level c1); [discriminate|].
    injection Cj as <-. cbn [Monitoring.ei_level] in Lj.
    apply E2. rewrite Level3, C21. now symmetry.
  - (* not escalated in the first cycle: the row is as it was *)
    assert (C12 : c2 = c1).
    { rewrite C21. apply apply_escalations_other. now rewrite I1. }
    destruct (lvl =? Store.c_escalation_level c1) eqn:Q.
    + apply String.eqb_eq in Q. apply E2. rewrite Level3, C12. exact Q.
    + (* the first cycle would have escalated it, had it been listed *)
      assert (NL : ~ In id listed1).
      { intro HL. apply Y.
        apply in_map_iff. eexists. split; [|apply in_check_escalations].
        2:{ exists id. split; [exact HL|exact P]. }
        reflexivity. }
      apply NL.
      destruct (listed_row now d2 id Listed) as (r2 & Hr & Ir & Why).
      assert (r2 = c2).
      { pose proof (find_unique _ r2 second_cycle_ids Hr) as F.
        rewrite Ir in F. unfold Store.get_complaint in G2. congruence. }
      subst r2. rewrite C12 in Why.
      assert (D0 : Store.c_sla_deadline c0 = Some dl).
      { destruct K01 as (_ & _ & _ & _ & _ & X). congruence. }
      assert (B0 : Store.breaching now c0 = true).
      { destruct Why as [W|W].
        - unfold Store.breaching in *. rewrite D1 in W. rewrite D0.
          rewrite S01 in W. exact W.
        - apply (in_progress_breaching now c0 dl D0 B). congruence. }
      apply find_In in G0. destruct G0 as [H0 I0].
      unfold listed1. apply in_or_app. left.
      apply in_map_iff. exists c0. split; [exact I0|].
      unfold Store.get_complaints_breaching_sla. apply filter_In. auto.
Qed.

Lemma second_cycle_nothing :
  Monitoring.check_escalations llm now d3
    (map Store.c_id (Store.get_complaints_breaching_sla now d2))
    (map Store.c_id
       (filter (Monitoring.stale7 now)
          (Store.get_complaints_by_status d2 Store.IN_PROGRESS 100)))
  = [].
Proof.
  unfold Monitoring.check_escalations. fold listed2.
  assert (H : forall id, In id listed2 -> Monitoring.check_one llm now d3 id = None)
    by exact second_check_one.
  induction listed2 as [|id l IH]; cbn [flat_map]; [reflexivity|].
  rewrite (H id) by now left. cbn [app]. apply IH.
  intros x Hx. apply H. now right.
Qed.

End SecondCycle.

(** A cycle adds the records of the recommended escalations that the
    store recorded. *)
Lemma escalation_records_of_run (e : Monitoring.env) (d : Store.db) :
  Store.escalations (fst (Monitoring.run e d))
  = (Store.escalations d
     ++ map (Monitoring.escalation_record (Monitoring.utcnow e))
          (recorded (Monitoring.store e) (snd (Monitoring.run e d))))%list.
Proof.
  rewrite run_unfold. cbn [fst snd].
  match goal with
  | |- Store.escalations (Monitoring.escalate_complaints ?st ?n ?d1 ?l) = _ =>
      destruct (complaints_after_escalations st n l d1) as [_ R]; rewrite R
  end.
  destruct (followup_stale_rows (Monitoring.followup_columns e)
              (Monitoring.utcnow e) d) as (g & _ & E & _).
  now rewrite E.
Qed.

(** C5, as stated, fails: the prompt of the decision service counts the
    past escalations, which the first cycle changes; a service that
    proposes level_1 for a complaint never escalated and level_2
    afterwards escalates again in a second cycle at the same clock
    reading. *)
Lemma second_cycle_escalates_again :
  let c := Store.mkComplaint "c2" "Water pipe burst" "utilities" "pune_municipal"
             "open" "high" (Some 70) "none" "" 6 [] 0 50 [] in
  let e := Monitoring.mkEnv
             (fun i => Reply (Monitoring.mkDecision (Some true)
                                (Some (if (Monitoring.di_past_escalations i =? 0)%nat
                                       then "level_1" else "level_2"))
                                None None))
             100 true
             (fun _ => Monitoring.mkWrites true true) in
  let d1 := fst (Monitoring.run e (Store.mkDb [c] [])) in
  let d2 := fst (Monitoring.run e d1) in
  map Store.e_escalation_level (Store.escalations d1) = ["level_1"]
  /\ map Store.e_escalation_level (Store.escalations d2) = ["level_1"; "level_2"]
  /\ length (snd (Monitoring.run e d1)) = 1%nat.
Proof.
  cbv zeta. repeat split; vm_compute; reflexivity.
Qed.

(** The store refuses the update of the complaint in the first cycle:
    the record is made, the level stays, and the second cycle recommends
    the same escalation again and records it. *)
Example second_cycle_after_refused_update :
  let c := Store.mkComplaint "c2" "Water pipe burst" "utilities" "pune_municipal"
             "open" "high" (Some 70) "none" "" 6 [] 0 50 [] in
  let llm := fun _ => Reply (Monitoring.mkDecision (Some true) (Some "level_1")
                               None None) in
  let first := Monitoring.mkEnv llm 100 true
                 (fun _ => Monitoring.mkWrites true false) in
  let second := Monitoring.mkEnv llm 100 true
                  (fun _ => Monitoring.mkWrites true true) in
  let d1 := fst (Monitoring.run first (Store.mkDb [c] [])) in
  map Store.c_escalation_level (Store.complaints d1) = ["none"]
  /\ map Store.e_escalation_level (Store.escalations d1) = ["level_1"]
  /\ map Store.e_escalation_level
       (Store.escalations (fst (Monitoring.run second d1)))
     = ["level_1"; "level_1"].
Proof.
  cbv zeta. repeat split; vm_compute; reflexivity.
Qed.

(** C5, amended. When the ids of the stored complaints are distinct, the
    decision service answers alike whatever the count of past escalations
    it is told, and the store performed both writes of every escalation of
    the first cycle, a second monitoring cycle run on the store the first
    one left, at the same clock reading, recommends no escalation and
    adds no Escalation record. *)
Theorem second_cycle_adds_nothing :
  forall (e : Monitoring.env) (d : Store.db),
    unique_ids d = true ->
    ignores_past_escalations (Monitoring.llm e) ->
    performs (Monitoring.store e) (length (snd (Monitoring.run e d))) ->
    let after_first := fst (Monitoring.run e d) in
    snd (Monitoring.run e after_first) = []
    /\ Store.escalations (fst (Monitoring.run e after_first))
       = Store.escalations after_first.
Proof.
  intros e d U I P after_first.
  assert (N : snd (Monitoring.run e after_first) = []).
  { subst after_first. rewrite (run_unfold e d) in P |- *. cbn [fst snd] in P |- *.
    rewrite run_unfold. cbn [snd].
    apply second_cycle_nothing; [now apply distinct_NoDup|exact I|exact P]. }
  split; [exact N|].
  pose proof (escalation_records_of_run e after_first) as R.
  rewrite R, N. cbn [map recorded]. now rewrite app_nil_r.
Qed.

Lemma second_cycle_adds_nothing_witness :
  let c := Store.mkComplaint "c2" "Water pipe burst" "utilities" "pune_municipal"
             "open" "high" (Some 70) "none" "" 6 [] 0 50 [] in
  let e := Monitoring.mkEnv
             (fun _ => Reply (Monitoring.mkDecision (Some true) (Some "level_1")
                                None None))
             100 true
             (fun _ => Monitoring.mkWrites true true) in
  snd (Monitoring.run e (fst (Monitoring.run e (Store.mkDb [c] [])))) = [].
Proof.
  intros c e.
  destruct (second_cycle_adds_nothing e (Store.mkDb [c] [])) as [H _];
    [reflexivity | intros i n; reflexivity | intros k _; split; reflexivity
    | exact H].
Defined.

(* ================================================================== *)
(** * Further properties *)

(** ** SLA stage: the tiers and the emergency windows *)

Lemma process_clamp (now : Q) (reply : llm_reply SLA.sla_field)
    (urgency description department : string) (r : SLA.result) :
  SLA.process now reply urgency description department = Return r ->
  exists f h,
    reply = Reply f
    /\ SLA.read_sla_hours urgency f = Return h
    /\ SLA.clamp urgency description department h = Fin (SLA.sla_hours r).
Proof.
  unfold SLA.process, SLA.assign_sla_with_llm.
  destruct reply as [| |f]; try discriminate.
  destruct (SLA.read_sla_hours urgency f) as [h|] eqn:R; cbn [bind]; [|discriminate].
  unfold SLA.deadline_after.
  destruct (SLA.clamp urgency description department h) as [q| | |] eqn:C;
    try discriminate.
  intro H; injection H as <-. cbn [SLA.sla_hours]. eauto.
Qed.

(** X1. Whatever the service suggests, a result for a high complaint has
    at most 12 hours and a result for a medium complaint has between 24
    and 168 hours. *)
Theorem sla_tier_bounds :
  forall (now : Q) (reply : llm_reply SLA.sla_field)
         (urgency description department : string) (r : SLA.result),
    SLA.process now reply urgency description department = Return r ->
    (urgency = "high" -> SLA.sla_hours r <= 12)
    /\ (urgency = "medium" -> 24 <= SLA.sla_hours r /\ SLA.sla_hours r <= 168).
Proof.
  intros now reply urgency description department r H.
  destruct (process_clamp _ _ _ _ _ _ H) as (f & h & _ & _ & C).
  unfold SLA.clamp in C.
  split; intros ->; cbn [String.eqb Ascii.eqb Bool.eqb] in C.
  - unfold SLA.clamp_high in C. apply final_cap_bounds in C; lra.
  - unfold SLA.clamp_medium in C. apply final_band_bounds in C; lra.
Qed.

Lemma sla_tier_bounds_witness :
  SLA.sla_hours (SLA.mkResult (0 + 168) 168) <= 168.
Proof.
  destruct (sla_tier_bounds 0 (Reply (Val (Fin 1000))) "medium"
              "The footpath tiles are loose" "municipal"
              (SLA.mkResult (0 + 168) 168)) as [_ H];
    [vm_compute; reflexivity|].
  apply H. reflexivity.
Defined.

(** A float that is NaN or a number of the window. *)
Lemma band_lands (lo hi : Q) (h : pyfloat) :
  lo <= hi -> h = NaN \/ within lo hi (SLA.band lo hi h).
Proof.
  intro L. unfold SLA.band, fgt, within.
  destruct h as [x| | |]; cbn [flt]; auto; right; split_cmp; reflect_Q;
    eexists; (split; [reflexivity|]); lra.
Qed.

Lemma band_nan (lo hi : Q) : SLA.band lo hi NaN = NaN.
Proof. reflexivity. Qed.

(** A later window or cap leaves a number of [lo, hi] inside [lo, hi]
    when it overlaps it from above or contains it. *)
Lemma band_keeps (lo hi lo' hi' : Q) (h : pyfloat) :
  lo' <= hi -> lo <= hi' ->
  within lo hi h -> within lo hi (SLA.band lo' hi' h).
Proof.
  intros A B (q & -> & L & U). unfold SLA.band, fgt, within. cbn [flt].
  split_cmp; reflect_Q; eexists; (split; [reflexivity|]); lra.
Qed.

Lemma on_band_keeps (b : bool) (lo hi lo' hi' : Q) (h : pyfloat) :
  lo' <= hi -> lo <= hi' ->
  (h = NaN \/ within lo hi h) ->
  SLA.on b (SLA.band lo' hi') h = NaN \/ within lo hi (SLA.on b (SLA.band lo' hi') h).
Proof.
  intros A B [->|W].
  - left. now destruct b.
  - right. destruct b; [|exact W]. apply band_keeps; auto.
Qed.

Lemma cap_keeps (lo hi c : Q) (h : pyfloat) :
  hi <= c -> (h = NaN \/ within lo hi h) ->
  SLA.cap c h = NaN \/ within lo hi (SLA.cap c h).
Proof.
  intros A [->|(q & -> & L & U)]; [now left|right].
  unfold SLA.cap, fgt, within. cbn [flt].
  split_cmp; reflect_Q; eexists; (split; [reflexivity|]); lra.
Qed.

Lemma final_validation_keeps (lo hi : Q) (h : pyfloat) :
  0.25 <= lo -> hi <= 336 -> (h = NaN \/ within lo hi h) ->
  SLA.final_validation h = NaN \/ within lo hi (SLA.final_validation h).
Proof.
  intros A B [->|(q & -> & L & U)]; [now left|right].
  unfold SLA.final_validation, fgt, within. cbn [flt].
  split_cmp; cbn [flt]; split_cmp; reflect_Q; eexists; (split; [reflexivity|]); lra.
Qed.

Lemma on_band_lands (b : bool) (lo hi : Q) (h : pyfloat) :
  b = true -> lo <= hi ->
  SLA.on b (SLA.band lo hi) h = NaN \/ within lo hi (SLA.on b (SLA.band lo hi) h).
Proof.
  intros -> L. cbn [SLA.on]. destruct (band_lands lo hi h L) as [->|W]; auto.
Qed.

(** Walks down the stages of a tier from the last one: a stage known to
    apply puts the hours in the window, the stages after it keep them
    there. *)
Ltac walk_stages :=
  repeat first
    [ apply final_validation_keeps; [lra | lra | ]
    | apply cap_keeps; [lra | ]
    | apply on_band_lands; [assumption | lra]
    | apply on_band_keeps; [lra | lra | ] ].

(** X2. For an urgent complaint the emergency windows hold whatever the
    service suggests: 15 to 30 minutes for a fire, a medical emergency, a
    gas leak, a crime in progress handled by the police or an electrical
    danger handled by fire or MSEB; 30 to 60 minutes for an accident
    handled by the police or a structural collapse. *)
Theorem urgent_emergency_windows :
  forall (now : Q) (reply : llm_reply SLA.sla_field)
         (description department : string) (r : SLA.result),
    SLA.process now reply "urgent" description department = Return r ->
    let d := lower description in
    ((any_in SLA.fire_keywords d || (department =? "fire")) = true
     \/ (any_in SLA.medical_keywords d || (department =? "maharashtra_health")) = true
     \/ any_in SLA.gas_keywords d = true
     \/ (any_in SLA.crime_keywords d && mem department SLA.police) = true
     \/ (any_in SLA.electrical_keywords d && mem department ["fire"; "mseb"]) = true ->
     0.25 <= SLA.sla_hours r /\ SLA.sla_hours r <= 0.5)
    /\ ((any_in SLA.accident_keywords d && mem department SLA.police) = true
        \/ any_in SLA.collapse_keywords d = true ->
        0.5 <= SLA.sla_hours r /\ SLA.sla_hours r <= 1).
Proof.
  intros now reply description department r H d.
  destruct (process_clamp _ _ _ _ _ _ H) as (f & h & _ & _ & C).
  unfold SLA.clamp in C. cbn [String.eqb Ascii.eqb Bool.eqb] in C.
  fold d in C. unfold SLA.clamp_urgent in C.
  assert (Fin_within : forall lo hi x q,
             x = Fin q -> x = NaN \/ within lo hi x -> lo <= q /\ q <= hi).
  { intros lo hi x q -> [E|(q' & E & B)]; [discriminate|].
    injection E as <-. exact B. }
  split; intro K.
  - apply (Fin_within _ _ _ _ C).
    destruct K as [K|[K|[K|[K|K]]]]; walk_stages.
  - apply (Fin_within _ _ _ _ C).
    destruct K as [K|K]; walk_stages.
Qed.

Lemma urgent_emergency_windows_witness :
  0.25 <= SLA.sla_hours (SLA.mkResult (0 + 0.5) 0.5)
  /\ SLA.sla_hours (SLA.mkResult (0 + 0.5) 0.5) <= 0.5.
Proof.
  destruct (urgent_emergency_windows 0 (Reply (Val (Fin 24))) "Fire in Hinjewadi Pune"
              "fire" (SLA.mkResult (0 + 0.5) 0.5)) as [H _];
    [vm_compute; reflexivity|].
  apply H. left. vm_compute. reflexivity.
Defined.

Lemma band_mono (lo hi : Q) (a b : pyfloat) :
  lo <= hi -> fle a b -> fle (SLA.band lo hi a) (SLA.band lo hi b).
Proof.
  intro L. unfold SLA.band, fgt, fle.
  destruct a as [x| | |], b as [y| | |]; try tauto.
  cbn [flt]. intro H. split_cmp; reflect_Q; lra.
Qed.

Lemma on_band_mono (c : bool) (lo hi : Q) (a b : pyfloat) :
  lo <= hi -> fle a b ->
  fle (SLA.on c (SLA.band lo hi) a) (SLA.on c (SLA.band lo hi) b).
Proof.
  intros L H. destruct c; [now apply band_mono|exact H].
Qed.

Lemma cap_mono (hi : Q) (a b : pyfloat) :
  fle a b -> fle (SLA.cap hi a) (SLA.cap hi b).
Proof.
  unfold SLA.cap, fgt, fle.
  destruct a as [x| | |], b as [y| | |]; try tauto.
  cbn [flt]. intro H. split_cmp; reflect_Q; lra.
Qed.

Lemma final_validation_mono (a b : pyfloat) :
  fle a b -> fle (SLA.final_validation a) (SLA.final_validation b).
Proof.
  unfold SLA.final_validation, fgt, fle.
  destruct a as [x| | |], b as [y| | |]; try tauto.
  cbn [flt]. intro H. split_cmp; cbn [flt]; split_cmp; reflect_Q; lra.
Qed.

Lemma clamp_mono (urgency description department : string) (a b : pyfloat) :
  fle a b ->
  fle (SLA.clamp urgency description department a)
      (SLA.clamp urgency description department b).
Proof.
  intro H. unfold SLA.clamp. apply final_validation_mono.
  unfold SLA.clamp_urgent, SLA.clamp_high, SLA.clamp_medium, SLA.clamp_low.
  repeat match goal with
         | |- context [(urgency =? ?u)%string] => destruct (urgency =? u)%string
         end;
    repeat first [ apply cap_mono
                 | apply on_band_mono; [lra|]
                 | apply band_mono; [lra|] ];
    exact H.
Qed.

(** X3. The SLA stage is monotone in the suggestion: of two finite
    suggestions for the same complaint, the larger one never gets the
    shorter deadline. *)
Theorem sla_monotone_in_suggestion :
  forall (now x y : Q) (urgency description department : string)
         (rx ry : SLA.result),
    x <= y ->
    SLA.process now (Reply (Val (Fin x))) urgency description department = Return rx ->
    SLA.process now (Reply (Val (Fin y))) urgency description department = Return ry ->
    SLA.sla_hours rx <= SLA.sla_hours ry
    /\ SLA.sla_deadline rx <= SLA.sla_deadline ry.
Proof.
  intros now x y urgency description department rx ry L Hx Hy.
  pose proof (process_bounds _ _ _ _ _ _ Hx) as (_ & Dx & _).
  pose proof (process_bounds _ _ _ _ _ _ Hy) as (_ & Dy & _).
  destruct (process_clamp _ _ _ _ _ _ Hx) as (fx & hx & Ex & Rx & Cx).
  destruct (process_clamp _ _ _ _ _ _ Hy) as (fy & hy & Ey & Ry & Cy).
  injection Ex as <-. injection Ey as <-.
  cbn in Rx, Ry. injection Rx as <-. injection Ry as <-.
  assert (M : fle (Fin x) (Fin y)) by exact L.
  apply (clamp_mono urgency description department) in M.
  rewrite Cx, Cy in M. cbn [fle] in M.
  split; [exact M|]. rewrite Dx, Dy. lra.
Qed.

Lemma sla_monotone_in_suggestion_witness :
  SLA.sla_hours (SLA.mkResult (0 + 24) 24) <= SLA.sla_hours (SLA.mkResult (0 + 100) 100).
Proof.
  apply (sla_monotone_in_suggestion 0 3 100 "medium" "The footpath tiles are loose"
           "municipal" (SLA.mkResult (0 + 24) 24) (SLA.mkResult (0 + 100) 100)).
  - vm_compute. discriminate.
  - vm_compute. reflexivity.
  - vm_compute. reflexivity.
Defined.

Lemma plain_band_lands (lo hi : Q) (h : pyfloat) :
  lo <= hi -> SLA.band lo hi h = NaN \/ within lo hi (SLA.band lo hi h).
Proof.
  intro L. destruct (band_lands lo hi h L) as [->|W]; auto.
Qed.

Lemma plain_band_keeps (lo hi lo' hi' : Q) (h : pyfloat) :
  lo' <= hi -> lo <= hi' ->
  (h = NaN \/ within lo hi h) ->
  SLA.band lo' hi' h = NaN \/ within lo hi (SLA.band lo' hi' h).
Proof.
  intros A B [->|W]; [now left|right]. now apply band_keeps.
Qed.

(** As [walk_stages], for the tiers that end with a window of their own. *)
Ltac walk_tier :=
  repeat first
    [ apply final_validation_keeps; [lra | lra | ]
    | apply cap_keeps; [lra | ]
    | apply plain_band_keeps; [lra | lra | ]
    | apply on_band_lands; [assumption | lra]
    | apply on_band_keeps; [lra | lra | ] ].

Lemma on_band_fix (b : bool) (lo hi q : Q) :
  (b = true -> lo <= q /\ q <= hi) ->
  SLA.on b (SLA.band lo hi) (Fin q) = Fin q.
Proof.
  destruct b; [|reflexivity]. intro H. destruct (H eq_refl) as [L U].
  unfold SLA.on, SLA.band, fgt. cbn [flt].
  split_cmp; reflect_Q; try reflexivity; exfalso; lra.
Qed.

Lemma band_fix (lo hi q : Q) :
  lo <= q /\ q <= hi -> SLA.band lo hi (Fin q) = Fin q.
Proof.
  intro H. apply (on_band_fix true lo hi q). auto.
Qed.

Lemma cap_fix (c q : Q) : q <= c -> SLA.cap c (Fin q) = Fin q.
Proof.
  intro H. unfold SLA.cap, fgt. cbn [flt].
  split_cmp; reflect_Q; try reflexivity; exfalso; lra.
Qed.

Lemma final_validation_fix (q : Q) :
  0.25 <= q /\ q <= 336 -> SLA.final_validation (Fin q) = Fin q.
Proof.
  intros [L U]. unfold SLA.final_validation, fgt. cbn [flt].
  split_cmp; cbn [flt]; split_cmp; reflect_Q; try reflexivity; exfalso; lra.
Qed.

Lemma number_within (lo hi : Q) (x : pyfloat) (q : Q) :
  x = Fin q -> x = NaN \/ within lo hi x -> lo <= q /\ q <= hi.
Proof.
  intros -> [E|(q' & E & B)]; [discriminate|]. injection E as <-. exact B.
Qed.

(** The hours the clamp gives are left alone by the clamp. *)
Lemma clamp_fixed (urgency description department : string) (h : pyfloat) (q : Q) :
  SLA.clamp urgency description department h = Fin q ->
  SLA.clamp urgency description department (Fin q) = Fin q.
Proof.
  intro C. pose proof C as B. unfold SLA.clamp in B.
  apply final_validation_bounds in B.
  unfold SLA.clamp in *.
  assert (Last : forall x, x = Fin q -> SLA.final_validation x = Fin q)
    by (intros x ->; now apply final_validation_fix).
  apply Last. clear Last.
  unfold SLA.clamp_urgent, SLA.clamp_high, SLA.clamp_medium, SLA.clamp_low in *.
  repeat match goal with
         | |- context [(urgency =? ?u)%string] =>
             destruct (urgency =? u)%string
         end;
    repeat match goal with
           | |- context [SLA.on ?b (SLA.band ?lo ?hi) (Fin q)] =>
               rewrite (on_band_fix b lo hi q)
                 by (intro K; apply (number_within _ _ _ _ C); walk_tier)
           end;
    try reflexivity.
  - apply cap_fix. apply final_cap_bounds in C; lra.
  - apply cap_fix. apply final_cap_bounds in C; lra.
  - apply band_fix. apply final_band_bounds in C; lra.
  - apply band_fix. apply final_band_bounds in C; lra.
Qed.

(** X4. The hours the SLA stage returns are a fixed point of the stage:
    suggested again for the same complaint, they come back unchanged. *)
Theorem sla_result_is_stable :
  forall (now : Q) (reply : llm_reply SLA.sla_field)
         (urgency description department : string) (r : SLA.result),
    SLA.process now reply urgency description department = Return r ->
    SLA.process now (Reply (Val (Fin (SLA.sla_hours r)))) urgency description department
    = Return (SLA.mkResult (now + SLA.sla_hours r) (SLA.sla_hours r)).
Proof.
  intros now reply urgency description department r H.
  destruct (process_clamp _ _ _ _ _ _ H) as (f & h & _ & _ & C).
  apply clamp_fixed in C.
  unfold SLA.process, SLA.assign_sla_with_llm.
  cbn [SLA.read_sla_hours read bind]. rewrite C. reflexivity.
Qed.

Lemma sla_result_is_stable_witness :
  SLA.process 0 (Reply (Val (Fin 72))) "medium" "Garbage not collected for 3 days"
    "pune_municipal"
  = Return (SLA.mkResult (0 + 72) 72).
Proof.
  apply (sla_result_is_stable 0 (Reply (Val (Fin 500))) "medium"
           "Garbage not collected for 3 days" "pune_municipal"
           (SLA.mkResult (0 + 72) 72)).
  vm_compute. reflexivity.
Defined.

(** ** Sentiment stage: ranges, overlays and failures *)

Lemma validated_member (x dflt : string) (l : list string) :
  mem dflt l = true -> mem (if mem x l then x else dflt) l = true.
Proof.
  intro D. destruct (mem x l) eqn:E; [exact E|exact D].
Qed.

Lemma analyze_in_range (reply : llm_reply Sentiment.reply_json) (r : Sentiment.result) :
  Sentiment.analyze_sentiment_with_llm reply = Return r -> sentiment_in_range r.
Proof.
  unfold Sentiment.analyze_sentiment_with_llm.
  destruct reply as [| |p]; try discriminate.
  destruct (read tt (Fin 0) (Sentiment.j_sentiment_score p)) as [s|]; cbn [bind];
    [|discriminate].
  destruct (read tt "calm" (Sentiment.j_emotion_level p)) as [e|]; cbn [bind];
    [|discriminate].
  destruct (read tt (Fin 0) (Sentiment.j_urgency_boost p)) as [b|]; cbn [bind];
    [|discriminate].
  destruct (read tt "normal" (Sentiment.j_priority_recommendation p)) as [pr|];
    cbn [bind]; [|discriminate].
  intro H; injection H as <-. unfold sentiment_in_range.
  cbn [Sentiment.sentiment_score Sentiment.urgency_boost Sentiment.emotion_level
       Sentiment.priority_recommendation].
  split; [apply clamp_between; lra|]. split; [apply clamp_between; lra|].
  split.
  - exact (validated_member (lower e) "calm" Sentiment.valid_emotions eq_refl).
  - exact (validated_member (lower pr) "normal" Sentiment.valid_priorities eq_refl).
Qed.

Lemma fmin_within (c lo hi : Q) (x : pyfloat) :
  lo <= c -> c <= hi -> within lo hi x -> within lo c (fmin (Fin c) x).
Proof.
  intros A B (q & -> & L & U). rewrite fmin_Fin. unfold within.
  split_cmp; reflect_Q; eexists; (split; [reflexivity|]); lra.
Qed.

Lemma fmax_within (c lo hi : Q) (x : pyfloat) :
  lo <= c -> c <= hi -> within lo hi x -> within c hi (fmax (Fin c) x).
Proof.
  intros A B (q & -> & L & U). rewrite fmax_Fin. unfold within.
  split_cmp; reflect_Q; eexists; (split; [reflexivity|]); lra.
Qed.

Lemma within_weaken (lo hi lo' hi' : Q) (x : pyfloat) :
  lo' <= lo -> hi <= hi' -> within lo hi x -> within lo' hi' x.
Proof.
  intros A B (q & -> & L & U). exists q. split; [reflexivity|]. lra.
Qed.

Lemma boost_anger_in_range (r r' : Sentiment.result) :
  sentiment_in_range r -> Sentiment.boost_anger r = Return r' ->
  sentiment_in_range r'.
Proof.
  intros (S & B & _ & _). unfold Sentiment.boost_anger.
  destruct (Sentiment.frustration_indicators r); [|discriminate].
  intro H; injection H as <-. unfold sentiment_in_range.
  cbn [Sentiment.sentiment_score Sentiment.urgency_boost Sentiment.emotion_level
       Sentiment.priority_recommendation].
  split; [apply (within_weaken (-1) (-0.8)); try lra;
          apply (fmin_within _ _ 1); auto; lra|].
  split; [apply (within_weaken 0.7 1); try lra;
          apply (fmax_within _ 0); auto; lra|].
  split; reflexivity.
Qed.

Lemma boost_frustration_in_range (r : Sentiment.result) :
  sentiment_in_range r -> sentiment_in_range (Sentiment.boost_frustration r).
Proof.
  intros (S & B & E & P). unfold Sentiment.boost_frustration, sentiment_in_range.
  cbn [Sentiment.sentiment_score Sentiment.urgency_boost Sentiment.emotion_level
       Sentiment.priority_recommendation].
  split; [apply (within_weaken (-1) (-0.5)); try lra;
          apply (fmin_within _ _ 1); auto; lra|].
  split; [apply (within_weaken 0.4 1); try lra;
          apply (fmax_within _ 0); auto; lra|].
  split.
  - destruct (mem (Sentiment.emotion_level r) ["angry"; "urgent"]); [exact E|reflexivity].
  - destruct (Sentiment.priority_recommendation r =? "normal"); [reflexivity|exact P].
Qed.

Lemma boost_urgency_language_in_range (r : Sentiment.result) :
  sentiment_in_range r -> sentiment_in_range (Sentiment.boost_urgency_language r).
Proof.
  intros (S & B & E & P). unfold Sentiment.boost_urgency_language, sentiment_in_range.
  cbn [Sentiment.sentiment_score Sentiment.urgency_boost Sentiment.emotion_level
       Sentiment.priority_recommendation].
  split; [exact S|].
  split; [apply (within_weaken 0.5 1); try lra;
          apply (fmax_within _ 0); auto; lra|].
  split; [exact E|].
  destruct (Sentiment.priority_recommendation r =? "urgent"); [exact P|reflexivity].
Qed.

Lemma soften_positive_in_range (r : Sentiment.result) :
  sentiment_in_range r -> sentiment_in_range (Sentiment.soften_positive r).
Proof.
  intros (S & B & E & P). unfold Sentiment.soften_positive, sentiment_in_range.
  cbn [Sentiment.sentiment_score Sentiment.urgency_boost Sentiment.emotion_level
       Sentiment.priority_recommendation].
  split; [|auto].
  destruct (flt (Sentiment.sentiment_score r) (Fin 0)); [|exact S].
  apply (within_weaken (-0.3) 1); try lra. apply (fmax_within _ (-1)); auto; lra.
Qed.

Lemma neutral_in_range : sentiment_in_range Sentiment.neutral.
Proof.
  unfold sentiment_in_range, Sentiment.neutral, within. cbn.
  repeat split; try (eexists; split; [reflexivity|]; lra).
Qed.

(** X5. Whatever the reply (or the failure) of the service and whatever
    the description, the Sentiment stage answers with a score in [-1, 1],
    a boost in [0, 1], an emotion level of the closed set and a priority
    of the closed set. *)
Theorem sentiment_output_in_range :
  forall (reply : llm_reply Sentiment.reply_json) (description : string),
    let r := Sentiment.process reply description in
    (exists s, Sentiment.sentiment_score r = Fin s /\ -1 <= s /\ s <= 1)
    /\ (exists b, Sentiment.urgency_boost r = Fin b /\ 0 <= b /\ b <= 1)
    /\ mem (Sentiment.emotion_level r) Sentiment.valid_emotions = true
    /\ mem (Sentiment.priority_recommendation r) Sentiment.valid_priorities = true.
Proof.
  intros reply description.
  change (sentiment_in_range (Sentiment.process reply description)).
  unfold Sentiment.process.
  destruct description as [|c d']; [apply neutral_in_range|].
  destruct (Sentiment.analyze_sentiment_with_llm reply) as [r0|] eqn:A;
    cbn [bind]; [|apply neutral_in_range].
  apply analyze_in_range in A.
  unfold Sentiment.apply_keyword_boosts.
  destruct (any_in Sentiment.critical_anger _).
  - destruct (Sentiment.boost_anger r0) as [r1|] eqn:B; cbn [bind];
      [|apply neutral_in_range].
    apply (boost_anger_in_range r0 r1 A) in B.
    repeat match goal with
           | |- context [if ?b then _ else _] => destruct b
           end;
      repeat first [ apply soften_positive_in_range
                   | apply boost_urgency_language_in_range
                   | apply boost_frustration_in_range ];
      exact B.
  - cbn [bind].
    repeat match goal with
           | |- context [if ?b then _ else _] => destruct b
           end;
      repeat first [ apply soften_positive_in_range
                   | apply boost_urgency_language_in_range
                   | apply boost_frustration_in_range ];
      exact A.
Qed.

Lemma soften_positive_floor (r : Sentiment.result) :
  sentiment_in_range r ->
  exists s, Sentiment.sentiment_score (Sentiment.soften_positive r) = Fin s
            /\ -0.3 <= s.
Proof.
  intros ((q & E & L & U) & _). unfold Sentiment.soften_positive.
  cbn [Sentiment.sentiment_score]. rewrite E. cbn [flt]. rewrite fmax_Fin.
  split_cmp; reflect_Q; eexists; (split; [reflexivity|]); lra.
Qed.

(** The stage's result is the neutral one or the last overlay applied to
    a result in range. *)
Lemma process_shape (reply : llm_reply Sentiment.reply_json) (description : string) :
  Sentiment.process reply description = Sentiment.neutral
  \/ exists r1,
       sentiment_in_range r1
       /\ Sentiment.process reply description
          = let r2 := if any_in Sentiment.high_frustration (lower description)
                      then Sentiment.boost_frustration r1 else r1 in
            let r3 := if any_in Sentiment.urgency_language (lower description)
                      then Sentiment.boost_urgency_language r2 else r2 in
            if any_in Sentiment.positive_indicators (lower description)
            then Sentiment.soften_positive r3 else r3.
Proof.
  unfold Sentiment.process.
  destruct description as [|c d']; [now left|].
  destruct (Sentiment.analyze_sentiment_with_llm reply) as [r0|] eqn:A;
    cbn [bind]; [|now left].
  apply analyze_in_range in A.
  unfold Sentiment.apply_keyword_boosts.
  destruct (any_in Sentiment.critical_anger _).
  - destruct (Sentiment.boost_anger r0) as [r1|] eqn:B; cbn [bind]; [|now left].
    right. exists r1. split; [exact (boost_anger_in_range r0 r1 A B)|reflexivity].
  - right. exists r0. split; [exact A|reflexivity].
Qed.

(** X6. A description with a gratitude or politeness phrase never gets a
    sentiment score below -0.3, whatever the service answers. *)
Theorem polite_score_floor :
  forall (reply : llm_reply Sentiment.reply_json) (description : string),
    any_in Sentiment.positive_indicators (lower description) = true ->
    exists s, Sentiment.sentiment_score (Sentiment.process reply description) = Fin s
              /\ -0.3 <= s.
Proof.
  intros reply description P.
  destruct (process_shape reply description) as [->|(r1 & R & ->)].
  - exists 0. split; [reflexivity|lra].
  - cbv zeta. rewrite P. apply soften_positive_floor.
    repeat match goal with
           | |- context [if ?b then _ else _] => destruct b
           end;
      repeat first [ apply boost_urgency_language_in_range
                   | apply boost_frustration_in_range ];
      exact R.
Qed.

Lemma polite_score_floor_witness :
  exists s,
    Sentiment.sentiment_score
      (Sentiment.process
         (Reply (Sentiment.mkReply (Val (Fin (-1))) (Val "angry") (Val (Fin 1))
                   (Val "urgent") (Val [])))
         "Kindly repair the street light near the school") = Fin s
    /\ -0.3 <= s.
Proof.
  apply polite_score_floor. vm_compute. reflexivity.
Defined.

(** X8. The stage answers the neutral result, whatever the keywords of
    the description, when the description is empty, when the call raises,
    when the reply holds no JSON object, and when the score, the emotion,
    the boost or the priority of the reply has the wrong type. *)
Theorem sentiment_neutral_on_failure :
  forall (reply : llm_reply Sentiment.reply_json) (description : string),
    description = ""
    \/ reply = CallRaises
    \/ reply = NoJson
    \/ (exists p, reply = Reply p
                  /\ (typed (Sentiment.j_sentiment_score p)
                      && typed (Sentiment.j_emotion_level p)
                      && typed (Sentiment.j_urgency_boost p)
                      && typed (Sentiment.j_priority_recommendation p)) = false) ->
    Sentiment.process reply description = Sentiment.neutral.
Proof.
  intros reply description H. unfold Sentiment.process.
  destruct description as [|c d']; [reflexivity|].
  destruct H as [H|[->|[->|(p & -> & T)]]]; try discriminate; try reflexivity.
  unfold Sentiment.analyze_sentiment_with_llm.
  destruct p as [fs fe fb fp fi]. cbn in T |- *.
  destruct fs as [|s|]; cbn; try reflexivity;
    destruct fe as [|e|]; cbn; try reflexivity;
    destruct fb as [|b|]; cbn; try reflexivity;
    destruct fp as [|pr|]; cbn; try reflexivity; discriminate T.
Qed.

Lemma sentiment_neutral_on_failure_witness :
  Sentiment.process NoJson "I am furious, this is unacceptable" = Sentiment.neutral.
Proof.
  apply sentiment_neutral_on_failure. right. right. left. reflexivity.
Defined.

Lemma process_readable (p : Sentiment.reply_json) (description : string) :
  Sentiment.readable p = true -> description <> "" ->
  exists r1,
    sentiment_in_range r1
    /\ Sentiment.process (Reply p) description
       = let r2 := if any_in Sentiment.high_frustration (lower description)
                   then Sentiment.boost_frustration r1 else r1 in
         let r3 := if any_in Sentiment.urgency_language (lower description)
                   then Sentiment.boost_urgency_language r2 else r2 in
         if any_in Sentiment.positive_indicators (lower description)
         then Sentiment.soften_positive r3 else r3.
Proof.
  intros Rd Ne.
  destruct (analyze_readable p Rd) as (s & e & l & b & pr & A & _).
  pose proof (analyze_in_range _ _ A) as R0.
  unfold Sentiment.process.
  destruct description as [|c d']; [congruence|].
  rewrite A. cbn [bind]. unfold Sentiment.apply_keyword_boosts.
  destruct (any_in Sentiment.critical_anger _).
  - destruct (Sentiment.boost_anger _) as [r1|] eqn:B; [|discriminate B].
    cbn [bind]. exists r1.
    split; [exact (boost_anger_in_range _ r1 R0 B)|reflexivity].
  - cbn [bind]. eexists. split; [exact R0|reflexivity].
Qed.

Lemma valid_priority_cases (x : string) :
  mem x Sentiment.valid_priorities = true ->
  x = "normal" \/ x = "high" \/ x = "urgent".
Proof.
  unfold mem, Sentiment.valid_priorities. cbn [existsb].
  rewrite !orb_true_iff, !String.eqb_eq. intuition discriminate.
Qed.

(** X7. For a description with a frustration phrase and a reply whose
    entries have the expected types, the stage answers an emotion level
    among frustrated, angry and urgent, a priority of high or urgent and a
    boost of at least 0.4; the score is at most -0.5 when the description
    holds no gratitude or politeness phrase, and is -0.3 when it holds
    one. *)
Theorem frustration_overlay :
  forall (p : Sentiment.reply_json) (description : string),
    any_in Sentiment.high_frustration (lower description) = true ->
    Sentiment.readable p = true ->
    let r := Sentiment.process (Reply p) description in
    mem (Sentiment.emotion_level r) ["frustrated"; "angry"; "urgent"] = true
    /\ mem (Sentiment.priority_recommendation r) ["high"; "urgent"] = true
    /\ (exists b, Sentiment.urgency_boost r = Fin b /\ 0.4 <= b)
    /\ (if any_in Sentiment.positive_indicators (lower description)
        then Sentiment.sentiment_score r = Fin (-0.3)
        else exists s, Sentiment.sentiment_score r = Fin s /\ s <= -0.5).
Proof.
  intros p description F Rd.
  assert (Ne : description <> "")
    by (apply (any_in_nonempty Sentiment.high_frustration); [reflexivity|exact F]).
  destruct (process_readable p description Rd Ne) as (r1 & R1 & E).
  cbv zeta in *. rewrite E, F. clear E.
  destruct R1 as ((s & Es & Ls & Us) & (b & Eb & Lb & Ub) & Ve & Vp).
  unfold Sentiment.boost_frustration, Sentiment.boost_urgency_language,
    Sentiment.soften_positive.
  assert (Emo : mem (if mem (Sentiment.emotion_level r1) ["angry"; "urgent"]
                     then Sentiment.emotion_level r1 else "frustrated")
                    ["frustrated"; "angry"; "urgent"] = true).
  { destruct (mem (Sentiment.emotion_level r1) ["angry"; "urgent"]) eqn:M;
      [|reflexivity].
    cbn in M |- *. rewrite M. apply orb_true_r. }
  assert (Pri : forall x,
             x = (if Sentiment.priority_recommendation r1 =? "normal"
                  then "high" else Sentiment.priority_recommendation r1) ->
             mem x ["high"; "urgent"] = true
             /\ mem (if x =? "urgent" then x else "high") ["high"; "urgent"] = true).
  { intros x ->.
    destruct (valid_priority_cases _ Vp) as [->|[->| ->]]; split; reflexivity. }
  specialize (Pri _ eq_refl). destruct Pri as [P1 P2].
  destruct (any_in Sentiment.urgency_language (lower description));
    destruct (any_in Sentiment.positive_indicators (lower description));
    cbn [Sentiment.sentiment_score Sentiment.emotion_level
         Sentiment.urgency_boost Sentiment.priority_recommendation];
    rewrite Es, Eb, ?fmin_Fin, ?fmax_Fin;
    (split; [exact Emo|]);
    (split; [first [exact P1 | exact P2]|]);
    (split; [eexists; split; [reflexivity|]; split_cmp; reflect_Q; lra|]);
    cbn [flt]; split_cmp; rewrite ?fmin_Fin, ?fmax_Fin; split_cmp; reflect_Q;
    try (exfalso; lra); try reflexivity;
    try (eexists; split; [reflexivity|]; lra).
Qed.

Lemma frustration_overlay_witness :
  mem (Sentiment.emotion_level
         (Sentiment.process
            (Reply (Sentiment.mkReply (Val (Fin 0.5)) (Val "calm") Absent Absent Absent))
            "I complained before and got no response"))
      ["frustrated"; "angry"; "urgent"] = true.
Proof.
  destruct (frustration_overlay
              (Sentiment.mkReply (Val (Fin 0.5)) (Val "calm") Absent Absent Absent)
              "I complained before and got no response") as [H _];
    [vm_compute; reflexivity | reflexivity | exact H].
Defined.

(** ** Classification stage: closed sets and keyword routing *)

(** The steps of a classification that returns. *)
Lemma classification_steps (loc : Classification.location)
    (reply : llm_reply Classification.reply_json) (description : string)
    (r : Classification.result) :
  Classification.process loc reply description = Return r ->
  exists p kd ku kc dep1 u1 c1 dep2 dep3,
    let d := lower description in
    let u0 := match ku with
              | Some u => u
              | None => match Classification.j_urgency p with
                        | Some u => u
                        | None => "medium"
                        end
              end in
    let u0 := if mem u0 Classification.valid_urgencies then u0 else "medium" in
    let c0 := match kc with
              | Some c => c
              | None => match Classification.j_category p with
                        | Some c => c
                        | None => "other"
                        end
              end in
    let c0 := if mem c0 Classification.valid_categories then c0 else "other" in
    reply = Reply p
    /\ Classification.keyword_routing loc d = Return (kd, ku, kc)
    /\ match kd with
       | Some k => Return (k, u0, c0)
       | None => Classification.department_from_reply loc d p u0 c0
       end = Return (dep1, u1, c1)
    /\ Classification.police_safety_check loc d (dep1, u1, c1)
       = Return (dep2, Classification.urgency r, Classification.structured_category r)
    /\ Classification.municipal_by_location loc d dep2 = Return dep3
    /\ Classification.department r
       = (if Departments.is_department dep3 then dep3 else "municipal").
Proof.
  unfold Classification.process.
  destruct description as [|a description']; [discriminate|].
  unfold Classification.classify_with_llm.
  destruct (Classification.keyword_routing loc _) as [[[kd ku] kc]|] eqn:K;
    cbn [bind]; [|discriminate].
  destruct reply as [| |p]; try discriminate.
  destruct (match kd with Some _ => _ | None => _ end) as [[[dep1 u1] c1]|] eqn:X;
    cbn [bind]; [|discriminate].
  destruct (Classification.police_safety_check loc _ (dep1, u1, c1))
    as [[[dep2 u2] c2]|] eqn:P; cbn [bind]; [|discriminate].
  destruct (Classification.municipal_by_location loc _ dep2) as [dep3|] eqn:M;
    cbn [bind]; [|discriminate].
  destruct (read Classification.BadLocation tt (Classification.j_location p));
    cbn [bind]; [|discriminate].
  intro H; injection H as <-.
  exists p, kd, ku, kc, dep1, u1, c1, dep2, dep3. cbv zeta.
  cbn [Classification.urgency Classification.structured_category
       Classification.department].
  repeat split; auto.
Qed.

Lemma valid_category_nonempty (c dflt : string) :
  mem c Classification.valid_categories = true -> str_or c dflt = c.
Proof.
  destruct c; [discriminate|reflexivity].
Qed.

Lemma validated_category (c : string) :
  mem (if mem c Classification.valid_categories then c else "other")
      Classification.valid_categories = true.
Proof.
  destruct (mem c Classification.valid_categories) eqn:E; [exact E|reflexivity].
Qed.

Lemma department_from_reply_category (loc : Classification.location) (d : string)
    (p : Classification.reply_json) (u c dep u' c' : string) :
  mem c Classification.valid_categories = true ->
  Classification.department_from_reply loc d p u c = Return (dep, u', c') ->
  c' = c.
Proof.
  intros V. unfold Classification.department_from_reply.
  rewrite !(valid_category_nonempty c _ V).
  destruct (Classification.police_city loc d) as [city|]; cbn [bind];
    repeat match goal with
           | |- context [if ?b then _ else _] => destruct b
           end;
    intro H; try discriminate H; now injection H.
Qed.

Lemma police_safety_check_category (loc : Classification.location) (d : string)
    (dep u c dep' u' c' : string) :
  mem c Classification.valid_categories = true ->
  Classification.police_safety_check loc d (dep, u, c) = Return (dep', u', c') ->
  mem c' Classification.valid_categories = true.
Proof.
  intros V. unfold Classification.police_safety_check.
  destruct (_ && _).
  - destruct (Classification.police_city loc d) as [city|]; cbn [bind];
      [|discriminate].
    intro H; injection H as <- <- <-. reflexivity.
  - intro H; injection H as <- <- <-. exact V.
Qed.

Lemma process_closed_sets :
  forall (loc : Classification.location)
         (reply : llm_reply Classification.reply_json) (description : string)
         (r : Classification.result),
    Classification.process loc reply description = Return r ->
    mem (Classification.urgency r) Classification.valid_urgencies = true
    /\ mem (Classification.structured_category r) Classification.valid_categories = true
    /\ Departments.is_department (Classification.department r) = true.
Proof.
  intros loc reply description r H.
  split; [exact (process_urgency_valid _ _ _ _ H)|].
  destruct (classification_steps _ _ _ _ H)
    as (p & kd & ku & kc & dep1 & u1 & c1 & dep2 & dep3 & S).
  cbv zeta in S. destruct S as (_ & _ & X & P & _ & D).
  split.
  - assert (V1 : mem c1 Classification.valid_categories = true).
    { destruct kd.
      - injection X as _ _ <-. apply validated_category.
      - apply department_from_reply_category in X; [|apply validated_category].
        rewrite X. apply validated_category. }
    exact (police_safety_check_category _ _ _ _ _ _ _ _ V1 P).
  - rewrite D. destruct (Departments.is_department dep3) eqn:E; [exact E|reflexivity].
Qed.

(** X9. Whatever the service puts in its reply, a classification that
    returns gives an urgency of the closed set, a category of the closed
    set and a department of the catalogue. *)
Theorem classification_in_closed_sets :
  forall (loc : Classification.location)
         (reply : llm_reply Classification.reply_json) (description : string)
         (r : Classification.result),
    Classification.process loc reply description = Return r ->
    mem (Classification.urgency r) Classification.valid_urgencies = true
    /\ mem (Classification.structured_category r) Classification.valid_categories = true
    /\ Departments.is_department (Classification.department r) = true.
Proof.
  exact process_closed_sets.
Qed.

Lemma classification_in_closed_sets_witness :
  Departments.is_department
    (Classification.department
       (Classification.mkResult "medium" "other" "municipal" "Municipal Corporation"))
  = true.
Proof.
  destruct (classification_in_closed_sets
              (Classification.mkLocation false Absent)
              (Reply (Classification.mkReply (Some "whenever") (Some "misc")
                        (Some "ministry_of_magic") None Absent))
              "The office clock shows the wrong time"
              (Classification.mkResult "medium" "other" "municipal"
                 "Municipal Corporation")) as (_ & _ & H);
    [vm_compute; reflexivity | exact H].
Defined.

(** What the scan fixes when one of its first five lists matches. *)
Lemma emergency_routing (loc : Classification.location) (d : string)
    (kw : Classification.fixed) :
  (any_in Classification.fire_keywords d || any_in Classification.medical_keywords d
   || any_in Classification.accident_keywords d
   || any_in Classification.gas_keywords d
   || any_in Classification.police_keywords d) = true ->
  Classification.keyword_routing loc d = Return kw ->
  exists k u c,
    kw = (Some k, Some u, Some c)
    /\ mem k emergency_departments = true
    /\ mem u ["urgent"; "high"] = true
    /\ mem c ["safety"; "health"] = true
    /\ ((any_in Classification.fire_keywords d
         || any_in Classification.medical_keywords d
         || any_in Classification.accident_keywords d
         || any_in Classification.gas_keywords d) = true -> u = "urgent").
Proof.
  unfold Classification.keyword_routing.
  assert (Pol : forall city, mem (Classification.police_for city)
                               emergency_departments = true).
  { intro city. unfold Classification.police_for.
    destruct (is_in "mumbai" city); reflexivity. }
  destruct (any_in Classification.fire_keywords d);
    [intros _ H; injection H as <-; do 3 eexists; repeat split; reflexivity|].
  destruct (any_in Classification.medical_keywords d);
    [intros _ H; injection H as <-; do 3 eexists; repeat split; reflexivity|].
  destruct (any_in Classification.accident_keywords d).
  { intros _. destruct (Classification.get_city loc) as [city|]; cbn [bind];
      [|discriminate].
    intro H; injection H as <-. do 3 eexists. repeat split; auto. }
  destruct (any_in Classification.gas_keywords d);
    [intros _ H; injection H as <-; do 3 eexists; repeat split; reflexivity|].
  cbn [orb]. intros ->.
  destruct (Classification.police_city loc d) as [city|]; cbn [bind];
    [|discriminate].
  intro H; injection H as <-. do 3 eexists.
  split; [reflexivity|]. split; [apply Pol|].
  split; [destruct (_ || _); reflexivity|]. split; [reflexivity|discriminate].
Qed.

(** A department, urgency and category that the scan fixed outside the
    municipal bodies are the ones of the result. *)
Lemma classify_fixed (loc : Classification.location)
    (reply : llm_reply Classification.reply_json) (description k u c : string)
    (r : Classification.result) :
  Classification.keyword_routing loc (lower description)
  = Return (Some k, Some u, Some c) ->
  mem u Classification.valid_urgencies = true ->
  mem c Classification.valid_categories = true ->
  mem k ["municipal"; "bmc"; "pune_municipal"; "nagpur_municipal"] = false ->
  Departments.is_department k = true ->
  Classification.process loc reply description = Return r ->
  Classification.urgency r = u
  /\ Classification.structured_category r = c
  /\ Classification.department r = k.
Proof.
  intros K Vu Vc Nm Hd H.
  destruct (classification_steps _ _ _ _ H)
    as (p & kd & ku & kc & dep1 & u1 & c1 & dep2 & dep3 & S).
  cbv zeta in S. destruct S as (_ & K' & X & P & M & D).
  rewrite K in K'. injection K' as <- <- <-.
  rewrite Vu, Vc in X. injection X as <- <- <-.
  unfold Classification.police_safety_check in P.
  rewrite Nm, andb_false_r in P. injection P as <- <- <-.
  unfold Classification.municipal_by_location in M.
  assert (E : (k =? "municipal") = false).
  { cbn in Nm. now destruct (k =? "municipal"). }
  rewrite E in M. injection M as <-.
  rewrite Hd in D. auto.
Qed.

Lemma emergency_department_facts (k : string) :
  mem k emergency_departments = true ->
  mem k ["municipal"; "bmc"; "pune_municipal"; "nagpur_municipal"] = false
  /\ Departments.is_department k = true.
Proof.
  unfold mem, emergency_departments. cbn [existsb].
  rewrite !orb_true_iff, !String.eqb_eq.
  intros [->|[->|[->|[->|H]]]]; try discriminate H; split; reflexivity.
Qed.

Lemma emergency_result (loc : Classification.location)
    (reply : llm_reply Classification.reply_json) (description : string)
    (r : Classification.result) :
  (any_in Classification.fire_keywords (lower description)
   || any_in Classification.medical_keywords (lower description)
   || any_in Classification.accident_keywords (lower description)
   || any_in Classification.gas_keywords (lower description)
   || any_in Classification.police_keywords (lower description)) = true ->
  Classification.process loc reply description = Return r ->
  mem (Classification.department r) emergency_departments = true
  /\ mem (Classification.urgency r) ["urgent"; "high"] = true
  /\ ((any_in Classification.fire_keywords (lower description)
       || any_in Classification.medical_keywords (lower description)
       || any_in Classification.accident_keywords (lower description)
       || any_in Classification.gas_keywords (lower description)) = true ->
      Classification.urgency r = "urgent").
Proof.
  intros A H.
  destruct (classification_steps _ _ _ _ H)
    as (p & kd & ku & kc & dep1 & u1 & c1 & dep2 & dep3 & S).
  cbv zeta in S. destruct S as (_ & K & _).
  destruct (emergency_routing _ _ _ A K) as (k & u & c & E & Mk & Mu & Mc & Urg).
  rewrite E in K.
  destruct (emergency_department_facts k Mk) as [Nm Hd].
  assert (Vu : mem u Classification.valid_urgencies = true).
  { cbn in Mu |- *. destruct (u =? "urgent"); [reflexivity|].
    destruct (u =? "high"); [reflexivity|discriminate Mu]. }
  assert (Vc : mem c Classification.valid_categories = true).
  { cbn in Mc. rewrite !orb_true_iff, !String.eqb_eq in Mc.
    destruct Mc as [->|[->|F]]; try discriminate F; reflexivity. }
  destruct (classify_fixed _ _ _ _ _ _ _ K Vu Vc Nm Hd H) as (-> & _ & ->).
  auto.
Qed.

(** X10. A description with a police or crime keyword is never routed to
    a municipal body: a classification that returns names the police, the
    fire or the health department, with urgency high or urgent, whatever
    department the service proposed. *)
Theorem crime_never_municipal :
  forall (loc : Classification.location)
         (reply : llm_reply Classification.reply_json) (description : string)
         (r : Classification.result),
    any_in Classification.police_keywords (lower description) = true ->
    Classification.process loc reply description = Return r ->
    mem (Classification.department r)
        ["fire"; "maharashtra_health"; "maharashtra_police"; "mumbai_police"] = true
    /\ mem (Classification.urgency r) ["urgent"; "high"] = true.
Proof.
  intros loc reply description r P H.
  destruct (emergency_result loc reply description r) as (D & U & _); auto.
  rewrite P. apply orb_true_r.
Qed.

Lemma crime_never_municipal_witness :
  mem (Classification.department
         (Classification.mkResult "high" "safety" "maharashtra_police"
            "Maharashtra Police"))
      ["fire"; "maharashtra_health"; "maharashtra_police"; "mumbai_police"] = true.
Proof.
  destruct (crime_never_municipal
              (Classification.mkLocation true (Val "Pune"))
              (Reply (Classification.mkReply (Some "low") (Some "other")
                        (Some "pune_municipal") None Absent))
              "My bicycle was stolen outside the market"
              (Classification.mkResult "high" "safety" "maharashtra_police"
                 "Maharashtra Police")) as [H _];
    [vm_compute; reflexivity | vm_compute; reflexivity | exact H].
Defined.

(** X11. A description with a fire, medical, accident or gas keyword is
    classified urgent, and sent to the fire, the health or the police
    department, by every classification that returns. *)
Theorem emergency_is_urgent :
  forall (loc : Classification.location)
         (reply : llm_reply Classification.reply_json) (description : string)
         (r : Classification.result),
    (any_in Classification.fire_keywords (lower description)
     || any_in Classification.medical_keywords (lower description)
     || any_in Classification.accident_keywords (lower description)
     || any_in Classification.gas_keywords (lower description)) = true ->
    Classification.process loc reply description = Return r ->
    Classification.urgency r = "urgent"
    /\ mem (Classification.department r)
           ["fire"; "maharashtra_health"; "maharashtra_police"; "mumbai_police"] = true.
Proof.
  intros loc reply description r E H.
  destruct (emergency_result loc reply description r) as (D & _ & U); auto.
  rewrite E. reflexivity.
Qed.

Lemma emergency_is_urgent_witness :
  Classification.urgency
    (Classification.mkResult "urgent" "safety" "fire" "Maharashtra Fire Department")
  = "urgent".
Proof.
  destruct (emergency_is_urgent
              (Classification.mkLocation true (Val "Thane"))
              (Reply (Classification.mkReply (Some "low") (Some "utilities")
                        (Some "mseb") None Absent))
              "Strong smell of LPG in the stairwell"
              (Classification.mkResult "urgent" "safety" "fire"
                 "Maharashtra Fire Department")) as [H _];
    [vm_compute; reflexivity | vm_compute; reflexivity | exact H].
Defined.

Lemma police_safety_check_department (loc : Classification.location) (d : string)
    (k u c u' c' dep1 u1 c1 dep2 u2 c2 : string) :
  Classification.police_safety_check loc d (k, u, c) = Return (dep1, u1, c1) ->
  Classification.police_safety_check loc d (k, u', c') = Return (dep2, u2, c2) ->
  dep1 = dep2.
Proof.
  unfold Classification.police_safety_check.
  destruct (_ && _).
  - destruct (Classification.police_city loc d) as [city|]; cbn [bind];
      [|discriminate].
    intros H1 H2. injection H1 as <- _ _. injection H2 as <- _ _. reflexivity.
  - intros H1 H2. injection H1 as <- _ _. injection H2 as <- _ _. reflexivity.
Qed.

(** X13. When the keyword scan finds a department, the department of
    the result does not depend on the reply of the service: two replies
    that are both read give the same department. *)
Theorem keyword_department_overrides_reply :
  forall (loc : Classification.location) (description : string)
         (p p' : Classification.reply_json) (k : string)
         (ku kc : option string) (r r' : Classification.result),
    Classification.keyword_routing loc (lower description) = Return (Some k, ku, kc) ->
    Classification.process loc (Reply p) description = Return r ->
    Classification.process loc (Reply p') description = Return r' ->
    Classification.department r = Classification.department r'.
Proof.
  intros loc description p p' k ku kc r r' K H H'.
  destruct (classification_steps _ _ _ _ H)
    as (q & kd & ku1 & kc1 & dep1 & u1 & c1 & dep2 & dep3 & S).
  destruct (classification_steps _ _ _ _ H')
    as (q' & kd' & ku1' & kc1' & dep1' & u1' & c1' & dep2' & dep3' & S').
  cbv zeta in S, S'.
  destruct S as (_ & K1 & X & P & M & D), S' as (_ & K1' & X' & P' & M' & D').
  rewrite K in K1, K1'. injection K1 as <- <- <-. injection K1' as <- <- <-.
  injection X as <- <- <-. injection X' as <- <- <-.
  pose proof (police_safety_check_department _ _ _ _ _ _ _ _ _ _ _ _ _ P P') as E.
  subst dep2'. rewrite M in M'. injection M' as <-.
  now rewrite D, D'.
Qed.

Lemma keyword_department_overrides_reply_witness :
  Classification.department
    (Classification.mkResult "low" "utilities" "mseb"
       "Maharashtra State Electricity Board (MSEB)")
  = Classification.department
      (Classification.mkResult "high" "utilities" "mseb" "Power company").
Proof.
  apply (keyword_department_overrides_reply
           (Classification.mkLocation true (Val "Pune"))
           "The electricity meter runs too fast"
           (Classification.mkReply (Some "low") (Some "other") (Some "municipal")
              None Absent)
           (Classification.mkReply (Some "high") (Some "transport") (Some "msrtc")
              (Some "Power company") Absent)
           "mseb" None (Some "utilities"));
    vm_compute; reflexivity.
Defined.

(** X12. A location that holds a null city makes the classification of
    an accident report raise, whatever the service replies: the accident
    branch of the keyword scan lower-cases the city before the service is
    called. *)
Theorem accident_without_city_raises :
  forall (loc : Classification.location)
         (reply : llm_reply Classification.reply_json) (description : string),
    Classification.loc_nonempty loc = true ->
    Classification.loc_city loc = Mistyped ->
    any_in Classification.fire_keywords (lower description) = false ->
    any_in Classification.medical_keywords (lower description) = false ->
    any_in Classification.accident_keywords (lower description) = true ->
    Classification.process loc reply description = Raise Classification.CityNotText.
Proof.
  intros loc reply description N C F M A.
  assert (Ne : description <> "")
    by (apply (any_in_nonempty Classification.accident_keywords);
        [reflexivity|exact A]).
  unfold Classification.process.
  destruct description as [|a d']; [congruence|].
  unfold Classification.classify_with_llm, Classification.keyword_routing.
  rewrite F, M, A. unfold Classification.get_city. rewrite N, C. reflexivity.
Qed.

Lemma accident_without_city_raises_witness :
  Classification.process (Classification.mkLocation true Mistyped)
    (Reply (Classification.mkReply (Some "urgent") (Some "safety")
              (Some "maharashtra_police") None Absent))
    "Two cars in a collision on the highway"
  = Raise Classification.CityNotText.
Proof.
  apply accident_without_city_raises; vm_compute; reflexivity.
Defined.

(** ** Complaint pipeline: errors, deadline, stored row *)

Lemma classify_errors (e : Pipeline.env) (s : Pipeline.state) :
  Pipeline.errors (Pipeline.classify_complaint e s)
  = (Pipeline.errors s
     ++ flag (raised (Classification.process (Pipeline.location s)
                        (Pipeline.classification_reply e) (Pipeline.description s)))
          Store.ClassificationFailed)%list.
Proof.
  unfold Pipeline.classify_complaint.
  destruct (Classification.process _ _ _); cbn [raised flag].
  - rewrite app_nil_r.
    repeat match goal with
           | |- context [if ?b then _ else _] => destruct b
           end; reflexivity.
  - unfold Pipeline.classify_fallback.
    destruct (Understanding.process _ _); [destruct (Routing.process _)|]; reflexivity.
Qed.

Lemma assign_sla_errors (e : Pipeline.env) (s : Pipeline.state) :
  Pipeline.errors (Pipeline.assign_sla e s)
  = (Pipeline.errors s
     ++ flag (raised (SLA.process (Pipeline.utcnow e) (Pipeline.sla_reply e)
                        (Pipeline.urgency s) (Pipeline.description s)
                        (Pipeline.department s)))
          Store.SLAFailed)%list.
Proof.
  unfold Pipeline.assign_sla.
  destruct (SLA.process _ _ _ _ _); cbn [raised flag];
    [now rewrite app_nil_r|reflexivity].
Qed.

Lemma analyze_policy_errors (e : Pipeline.env) (s : Pipeline.state) :
  Pipeline.errors (Pipeline.analyze_policy e s)
  = (Pipeline.errors s
     ++ flag (match Pipeline.policy_result e with None => true | Some _ => false end)
          Store.PolicyFailed)%list.
Proof.
  unfold Pipeline.analyze_policy.
  destruct (Pipeline.policy_result e) as [[legal v]|]; cbn [flag];
    [now rewrite app_nil_r|reflexivity].
Qed.

Lemma persist_complaint_errors (e : Pipeline.env) (s : Pipeline.state) (d : Store.db) :
  Pipeline.errors (fst (Pipeline.persist_complaint e s d))
  = (Pipeline.errors s
     ++ flag (negb (Pipeline.create_complaint_succeeds e))
          Store.PersistenceFailed)%list.
Proof.
  unfold Pipeline.persist_complaint.
  destruct (Pipeline.create_complaint_succeeds e); cbn [fst negb flag];
    [now rewrite app_nil_r|reflexivity].
Qed.

Lemma notify_citizen_errors (e : Pipeline.env) (s : Pipeline.state) :
  Pipeline.errors (Pipeline.notify_citizen e s)
  = (Pipeline.errors s
     ++ flag (match Pipeline.communication_result e with
              | None => true
              | Some _ => false
              end)
          Store.NotificationFailed)%list.
Proof.
  unfold Pipeline.notify_citizen.
  destruct (Pipeline.communication_result e); cbn [flag];
    [now rewrite app_nil_r|reflexivity].
Qed.

(** X14. The error list that a run returns names, in the order of the
    stages, exactly the stages that failed: the classification when the
    Classification stage raised, the SLA assignment when the SLA stage
    raised on the classified and sentiment-adjusted complaint, the policy
    analysis, the persistence when the store refused the row and the
    notification when the message could not be produced; a failing
    sentiment service leaves no entry. *)
Theorem errors_name_the_failed_stages :
  forall (e : Pipeline.env) (i : Pipeline.input) (d : Store.db),
    let adjusted :=
      Pipeline.analyze_sentiment e
        (Pipeline.classify_complaint e (Pipeline.initial_state i)) in
    Pipeline.errors (fst (Pipeline.run e i d))
    = (flag (raised (Classification.process (Pipeline.in_location i)
                       (Pipeline.classification_reply e) (Pipeline.in_description i)))
         Store.ClassificationFailed
       ++ flag (raised (SLA.process (Pipeline.utcnow e) (Pipeline.sla_reply e)
                          (Pipeline.urgency adjusted) (Pipeline.in_description i)
                          (Pipeline.department adjusted)))
            Store.SLAFailed
       ++ flag (match Pipeline.policy_result e with None => true | Some _ => false end)
            Store.PolicyFailed
       ++ flag (negb (Pipeline.create_complaint_succeeds e)) Store.PersistenceFailed
       ++ flag (match Pipeline.communication_result e with
                | None => true
                | Some _ => false
                end)
            Store.NotificationFailed)%list.
Proof.
  intros e i d adjusted.
  rewrite run_state, notify_citizen_errors, persist_complaint_errors,
    analyze_policy_errors, assign_sla_errors. fold adjusted.
  assert (D : Pipeline.description adjusted = Pipeline.in_description i).
  { subst adjusted. unfold Pipeline.analyze_sentiment, Pipeline.classify_complaint,
      Pipeline.classify_fallback.
    repeat match goal with
           | |- context [match ?x with _ => _ end] => destruct x
           end; reflexivity. }
  assert (E : Pipeline.errors adjusted
              = Pipeline.errors
                  (Pipeline.classify_complaint e (Pipeline.initial_state i)))
    by reflexivity.
  rewrite D, E, classify_errors. cbn [Pipeline.initial_state Pipeline.errors
    Pipeline.location Pipeline.description app].
  now rewrite <- !app_assoc.
Qed.

(** The stages after the SLA node leave the deadline as they find it. *)
Lemma after_sla_keeps (e : Pipeline.env) (i : Pipeline.input) (d : Store.db) :
  let assigned :=
    Pipeline.assign_sla e
      (Pipeline.analyze_sentiment e
         (Pipeline.classify_complaint e (Pipeline.initial_state i))) in
  Pipeline.sla_deadline (fst (Pipeline.run e i d)) = Pipeline.sla_deadline assigned
  /\ Pipeline.sla_hours (fst (Pipeline.run e i d)) = Pipeline.sla_hours assigned.
Proof.
  intro assigned. rewrite run_state. fold assigned.
  unfold Pipeline.notify_citizen, Pipeline.persist_complaint, Pipeline.analyze_policy.
  repeat match goal with
         | |- context [match ?x with _ => _ end] => destruct x
         end; split; reflexivity.
Qed.

Lemma fallback_sla_hours_bounds (s : Pipeline.state) :
  0.25 <= Pipeline.fallback_sla_hours s /\ Pipeline.fallback_sla_hours s <= 336.
Proof.
  unfold Pipeline.fallback_sla_hours.
  repeat match goal with
         | |- context [if ?b then _ else _] => destruct b
         end; lra.
Qed.

(** X15. Every run assigns a deadline: whether the SLA stage returned or
    the workflow fell back on its own table, the final state holds a
    number of hours between 0.25 and 336 and the deadline is the clock
    reading plus those hours. *)
Theorem run_always_sets_deadline :
  forall (e : Pipeline.env) (i : Pipeline.input) (d : Store.db),
    let final := fst (Pipeline.run e i d) in
    Pipeline.sla_deadline final
    = Some (Pipeline.utcnow e + Pipeline.sla_hours final)
    /\ 0.25 <= Pipeline.sla_hours final
    /\ Pipeline.sla_hours final <= 336.
Proof.
  intros e i d final.
  destruct (after_sla_keeps e i d) as [D H]. fold final in D, H.
  rewrite D, H. unfold Pipeline.assign_sla.
  destruct (SLA.process _ _ _ _ _) as [r|err] eqn:P.
  - apply process_bounds in P. destruct P as (B & Dl & _).
    cbn [Pipeline.set_sla Pipeline.sla_deadline Pipeline.sla_hours].
    rewrite Dl. split; [reflexivity|exact B].
  - cbn [Pipeline.set_sla Pipeline.sla_deadline Pipeline.sla_hours].
    split; [reflexivity|apply fallback_sla_hours_bounds].
Qed.

Lemma routing_department_valid (reply : llm_reply Routing.reply_json)
    (r : Routing.result) :
  Routing.process reply = Return r ->
  Departments.is_department (Routing.department r) = true.
Proof.
  unfold Routing.process. destruct reply as [| |p]; try discriminate.
  intro H; injection H as <-. cbn [Routing.department].
  set (k := match Routing.j_department p with Some k => k | None => "municipal" end).
  destruct (Departments.is_department k) eqn:E; [exact E|reflexivity].
Qed.

Lemma understanding_category_valid (reply : llm_reply Understanding.reply_json)
    (description : string) (u : Understanding.result) :
  Understanding.process reply description = Return u ->
  mem (Understanding.structured_category u) Classification.valid_categories = true.
Proof.
  unfold Understanding.process.
  destruct description; [discriminate|].
  destruct reply as [| |p]; try discriminate.
  destruct (read tt tt (Understanding.j_location p)); cbn [bind]; [|discriminate].
  intro H; injection H as <-. apply validated_category.
Qed.

(** X16. Every run ends with an urgency and a category of the closed
    sets and a department of the catalogue, on the main path, through the
    fire safety net and on both levels of fallback. *)
Theorem run_ends_in_closed_sets :
  forall (e : Pipeline.env) (i : Pipeline.input) (d : Store.db),
    let final := fst (Pipeline.run e i d) in
    mem (Pipeline.urgency final) Classification.valid_urgencies = true
    /\ mem (Pipeline.structured_category final) Classification.valid_categories = true
    /\ Departments.is_department (Pipeline.department final) = true.
Proof.
  intros e i d final.
  destruct (after_sentiment_keeps e i d) as (U & D & G). fold final in U, D, G.
  split.
  { rewrite U. apply adjust_urgency_valid.
    apply (classify_complaint_urgency e (Pipeline.initial_state i)). }
  rewrite D, G.
  change (Pipeline.department (Pipeline.analyze_sentiment e ?s))
    with (Pipeline.department s).
  change (Pipeline.structured_category (Pipeline.analyze_sentiment e ?s))
    with (Pipeline.structured_category s).
  unfold Pipeline.classify_complaint.
  destruct (Classification.process _ _ _) as [r|err] eqn:C.
  - apply process_closed_sets in C. destruct C as (_ & Vc & Vd).
    repeat match goal with
           | |- context [if ?b then _ else _] => destruct b
           end; cbn; auto.
  - unfold Pipeline.classify_fallback.
    destruct (Understanding.process _ _) as [u|] eqn:Un; [|split; reflexivity].
    destruct (Routing.process _) as [r|] eqn:Ro; [|split; reflexivity].
    cbn. split.
    + exact (understanding_category_valid _ _ _ Un).
    + exact (routing_department_valid _ _ Ro).
Qed.

Lemma before_persist_keeps_id (e : Pipeline.env) (i : Pipeline.input) :
  Pipeline.complaint_id
    (Pipeline.analyze_policy e
       (Pipeline.assign_sla e
          (Pipeline.analyze_sentiment e
             (Pipeline.classify_complaint e (Pipeline.initial_state i)))))
  = "".
Proof.
  unfold Pipeline.analyze_policy, Pipeline.assign_sla, Pipeline.analyze_sentiment,
    Pipeline.classify_complaint, Pipeline.classify_fallback.
  repeat match goal with
         | |- context [match ?x with _ => _ end] => destruct x
         end; reflexivity.
Qed.

(** The row of an accepted run and the state the run returns. *)
Lemma run_persisted (e : Pipeline.env) (i : Pipeline.input) (d : Store.db) :
  Pipeline.create_complaint_succeeds e = true ->
  let final := fst (Pipeline.run e i d) in
  exists row,
    snd (Pipeline.run e i d) = Store.create_complaint d row
    /\ Pipeline.complaint_id final = Pipeline.uuid4 e
    /\ Store.get_complaint (snd (Pipeline.run e i d)) (Pipeline.complaint_id final)
       = Some row
    /\ Store.c_id row = Pipeline.uuid4 e
    /\ Store.c_status row = "open"
    /\ Store.c_escalation_level row = "none"
    /\ Store.c_urgency row = Pipeline.urgency final
    /\ Store.c_responsible_department row = Pipeline.department final
    /\ Store.c_structured_category row = Pipeline.structured_category final
    /\ Store.c_sla_deadline row = Pipeline.sla_deadline final
    /\ Store.c_sla_hours row = Pipeline.sla_hours final.
Proof.
  intros S final. subst final. rewrite run_state, run_store.
  unfold Pipeline.persist_complaint. rewrite S, before_persist_keeps_id.
  cbn [str_or fst snd].
  eexists. split; [reflexivity|].
  unfold Pipeline.notify_citizen.
  destruct (Pipeline.communication_result e);
    cbn [Pipeline.complaint_id Pipeline.set_citizen_message Pipeline.add_error
         Pipeline.set_complaint_id Store.get_complaint Store.create_complaint
         Store.complaints find Pipeline.complaint_data Store.c_id];
    rewrite String.eqb_refl; repeat split.
Qed.

(** X17. When the store accepts the row, the complaint can be read back
    under the id the run returns, and the row read back carries the
    urgency, department, category, deadline and hours of the returned
    state, with status open and escalation level none. *)
Theorem persisted_row_mirrors_state :
  forall (e : Pipeline.env) (i : Pipeline.input) (d : Store.db),
    Pipeline.create_complaint_succeeds e = true ->
    let final := fst (Pipeline.run e i d) in
    exists row,
      Store.get_complaint (snd (Pipeline.run e i d)) (Pipeline.complaint_id final)
      = Some row
      /\ Store.c_id row = Pipeline.complaint_id final
      /\ Store.c_status row = "open"
      /\ Store.c_escalation_level row = "none"
      /\ Store.c_urgency row = Pipeline.urgency final
      /\ Store.c_responsible_department row = Pipeline.department final
      /\ Store.c_structured_category row = Pipeline.structured_category final
      /\ Store.c_sla_deadline row = Pipeline.sla_deadline final
      /\ Store.c_sla_hours row = Pipeline.sla_hours final.
Proof.
  intros e i d S final.
  destruct (run_persisted e i d S)
    as (row & _ & I & G & Ir & St & Lv & U & D & C & Dl & H).
  fold final in I, G, U, D, C, Dl, H.
  exists row. rewrite I. rewrite I in G. repeat split; assumption.
Qed.

Lemma persisted_row_mirrors_state_witness :
  let e := Pipeline.mkEnv
             (Reply (Classification.mkReply (Some "medium") (Some "sanitation")
                       (Some "pune_municipal") None Absent))
             NoJson NoJson NoJson (Reply (Val (Fin 48))) None None true "id-7" 0 in
  let i := Pipeline.mkInput "Garbage not collected for 3 days"
             (Classification.mkLocation true (Val "Pune")) "" in
  exists row,
    Store.get_complaint (snd (Pipeline.run e i (Store.mkDb [] [])))
      (Pipeline.complaint_id (fst (Pipeline.run e i (Store.mkDb [] [])))) = Some row
    /\ Store.c_status row = "open".
Proof.
  intros e i.
  destruct (persisted_row_mirrors_state e i (Store.mkDb [] []) eq_refl)
    as (row & G & _ & S & _).
  exists row. split; assumption.
Defined.

(* ------------------------------------------------------------------ *)
(** ** Callers: submission, status update, community boost *)

(** A run whose write the store refuses: the state carries the new id,
    the store is as it was. *)
Lemma run_not_persisted (e : Pipeline.env) (i : Pipeline.input) (d : Store.db) :
  Pipeline.create_complaint_succeeds e = false ->
  Pipeline.complaint_id (fst (Pipeline.run e i d)) = Pipeline.uuid4 e
  /\ snd (Pipeline.run e i d) = d.
Proof.
  intro S. rewrite run_state, run_store.
  unfold Pipeline.persist_complaint. rewrite S, before_persist_keeps_id.
  cbn [str_or fst snd]. split; [|reflexivity].
  unfold Pipeline.notify_citizen.
  destruct (Pipeline.communication_result e); reflexivity.
Qed.

Lemma create_complaint_unfold (e : Pipeline.env) (i : Pipeline.input) (d : Store.db)
    (id : string) :
  Pipeline.complaint_id (fst (Pipeline.run e i d)) = id -> id <> "" ->
  Controllers.create_complaint e i d
  = match Store.get_complaint (snd (Pipeline.run e i d)) id with
    | None => (Controllers.Http404, snd (Pipeline.run e i d))
    | Some c =>
        (Controllers.Submitted (Store.c_id c) (Store.c_status c)
           (Store.c_responsible_department c) (Store.c_sla_deadline c)
           (Store.c_urgency c), snd (Pipeline.run e i d))
    end.
Proof.
  unfold Controllers.create_complaint.
  destruct (Pipeline.run e i d) as [s d1]. cbn [fst snd].
  intros I N. rewrite I. destruct id; [congruence|reflexivity].
Qed.

(** X18. When the store refuses the write, the submission is answered
    with "not found after creation": the workflow has put the new id in
    its state before the write, so the controller looks the complaint up
    and misses it.  The store is left as it was. *)
Theorem refused_write_answers_not_found :
  forall (e : Pipeline.env) (i : Pipeline.input) (d : Store.db),
    Pipeline.create_complaint_succeeds e = false ->
    Pipeline.uuid4 e <> "" ->
    Store.get_complaint d (Pipeline.uuid4 e) = None ->
    Controllers.create_complaint e i d = (Controllers.Http404, d).
Proof.
  intros e i d S N F.
  destruct (run_not_persisted e i d S) as [I D].
  rewrite (create_complaint_unfold e i d _ I N), D, F. reflexivity.
Qed.

Lemma refused_write_answers_not_found_witness :
  Controllers.create_complaint
    (Pipeline.mkEnv
       (Reply (Classification.mkReply (Some "medium") (Some "sanitation")
                 (Some "pune_municipal") None Absent))
       NoJson NoJson NoJson (Reply (Val (Fin 48))) None None false "id-7" 0)
    (Pipeline.mkInput "Garbage not collected for 3 days"
       (Classification.mkLocation true (Val "Pune")) "")
    (Store.mkDb [] [])
  = (Controllers.Http404, Store.mkDb [] []).
Proof.
  apply refused_write_answers_not_found; [reflexivity|discriminate|reflexivity].
Defined.

(** X19. When the store accepts the write, the submission is answered
    with the new id, status open, and the department, deadline and
    urgency of the state the workflow ended in; the deadline is the
    clock reading plus the hours of that state. *)
Theorem submission_reports_final_state :
  forall (e : Pipeline.env) (i : Pipeline.input) (d : Store.db),
    Pipeline.create_complaint_succeeds e = true ->
    Pipeline.uuid4 e <> "" ->
    let final := fst (Pipeline.run e i d) in
    fst (Controllers.create_complaint e i d)
    = Controllers.Submitted (Pipeline.uuid4 e) "open" (Pipeline.department final)
        (Some (Pipeline.utcnow e + Pipeline.sla_hours final))
        (Pipeline.urgency final).
Proof.
  intros e i d S N final.
  destruct (run_persisted e i d S)
    as (row & _ & I & G & Ir & St & _ & U & D & _ & Dl & _).
  fold final in I, G, U, D, Dl.
  rewrite (create_complaint_unfold e i d _ I N).
  rewrite I in G. rewrite G. cbn [fst].
  rewrite Ir, St, U, D, Dl.
  destruct (after_sla_keeps e i d) as [Dk Hk]. fold final in Dk, Hk.
  rewrite Dk, Hk. unfold Pipeline.assign_sla.
  destruct (SLA.process _ _ _ _ _) as [r|err] eqn:P.
  - apply process_bounds in P. destruct P as (_ & Dr & _).
    cbn [Pipeline.set_sla Pipeline.sla_deadline Pipeline.sla_hours].
    rewrite Dr. reflexivity.
  - reflexivity.
Qed.

Lemma submission_reports_final_state_witness :
  fst (Controllers.create_complaint
         (Pipeline.mkEnv
            (Reply (Classification.mkReply (Some "medium") (Some "sanitation")
                      (Some "pune_municipal") None Absent))
            NoJson NoJson NoJson (Reply (Val (Fin 48))) None None true "id-7" 0)
         (Pipeline.mkInput "Garbage not collected for 3 days"
            (Classification.mkLocation true (Val "Pune")) "")
         (Store.mkDb [] []))
  = Controllers.Submitted "id-7" "open" "pune_municipal" (Some (0 + 48)) "medium".
Proof.
  apply (submission_reports_final_state
           (Pipeline.mkEnv
              (Reply (Classification.mkReply (Some "medium") (Some "sanitation")
                        (Some "pune_municipal") None Absent))
              NoJson NoJson NoJson (Reply (Val (Fin 48))) None None true "id-7" 0)
           (Pipeline.mkInput "Garbage not collected for 3 days"
              (Classification.mkLocation true (Val "Pune")) "")
           (Store.mkDb [] []));
    [reflexivity|discriminate].
Defined.

(** The row found under an id after an update of that id. *)
Lemma get_after_update (now : Q) (d : Store.db) (id : string)
    (updates : Store.complaint -> Store.complaint) (c : Store.complaint) :
  (forall r, Store.c_id (updates r) = Store.c_id r) ->
  Store.get_complaint d id = Some c ->
  Store.get_complaint (Store.updated_rows now d id updates) id
  = Some (Store.touch now (updates c)).
Proof.
  intros K G. unfold Store.get_complaint, Store.updated_rows.
  cbn [Store.complaints].
  rewrite find_by_id_map.
  - unfold Store.get_complaint in G. rewrite G. cbn [option_map].
    apply find_In in G. destruct G as [_ <-]. rewrite String.eqb_refl. reflexivity.
  - intro r. destruct (Store.c_id r =? id); [apply K|reflexivity].
Qed.

(** The rows under the other ids are found as before. *)
Lemma get_other_after_update (now : Q) (d : Store.db) (id id' : string)
    (updates : Store.complaint -> Store.complaint) :
  (forall r, Store.c_id (updates r) = Store.c_id r) ->
  id' <> id ->
  Store.get_complaint (Store.updated_rows now d id updates) id'
  = Store.get_complaint d id'.
Proof.
  intros K N. unfold Store.get_complaint, Store.updated_rows.
  cbn [Store.complaints].
  induction (Store.complaints d) as [|r l IH]; [reflexivity|].
  cbn [map find].
  destruct (Store.c_id r =? id) eqn:E.
  - cbn [Store.touch Store.c_id]. rewrite K.
    apply String.eqb_eq in E. rewrite E.
    destruct (id =? id') eqn:E'; [apply String.eqb_eq in E'; congruence|exact IH].
  - destruct (Store.c_id r =? id'); [reflexivity|exact IH].
Qed.

Lemma status_updates_id (current : Store.complaint) (new_status : string)
    (notes : option string) (r : Store.complaint) :
  Store.c_id (Controllers.status_updates current new_status notes r) = Store.c_id r.
Proof.
  unfold Controllers.status_updates.
  destruct (Controllers.noted current new_status notes); reflexivity.
Qed.

(** A status update that passes the two checks, by the store's answer. *)
Lemma update_complaint_status_cases (now : Q) (d : Store.db) (id new_status : string)
    (notes : option string) (c : Store.complaint) :
  mem new_status Controllers.valid_statuses = true ->
  Store.get_complaint d id = Some c ->
  Controllers.update_complaint_status true now d id new_status notes
  = (Controllers.Updated
       (Store.touch now (Controllers.status_updates c new_status notes c)),
     Store.updated_rows now d id (Controllers.status_updates c new_status notes))
  /\ Controllers.update_complaint_status false now d id new_status notes
     = (Controllers.UpdateFailed, d).
Proof.
  intros V G. unfold Controllers.update_complaint_status, Store.update_complaint.
  rewrite V, G. cbn [negb]. split; [|reflexivity].
  rewrite (get_after_update now d id _ c (status_updates_id c new_status notes) G).
  reflexivity.
Qed.

(** X20. A status update with one of the five statuses, for a complaint
    of the store.  When the store performs the update, the answer is the
    updated row: it has the new status and the new timestamp, its admin
    notes are those of the complaint followed by the note given, if one
    is given, and it is otherwise the row as it was, escalation level and
    deadline included; the rows under other ids and the escalation
    records are as before.  When the store refuses the update, the answer
    is the update failure and the store is as it was.  Any of the five
    statuses may follow any status. *)
Theorem status_update_writes_status_only :
  forall (now : Q) (d : Store.db) (id new_status : string) (notes : option string)
         (c : Store.complaint),
    mem new_status Controllers.valid_statuses = true ->
    Store.get_complaint d id = Some c ->
    (exists c' d',
       Controllers.update_complaint_status true now d id new_status notes
       = (Controllers.Updated c', d')
       /\ Store.get_complaint d' id = Some c'
       /\ Store.c_status c' = new_status
       /\ Store.c_updated_at c' = now
       /\ same_but_status c c'
       /\ Store.c_admin_notes c'
          = match Controllers.noted c new_status notes with
            | Some admin_notes => admin_notes
            | None => Store.c_admin_notes c
            end
       /\ (forall id', id' <> id ->
              Store.get_complaint d' id' = Store.get_complaint d id')
       /\ Store.escalations d' = Store.escalations d)
    /\ Controllers.update_complaint_status false now d id new_status notes
       = (Controllers.UpdateFailed, d).
Proof.
  intros now d id new_status notes c V G.
  destruct (update_complaint_status_cases now d id new_status notes c V G) as [A R].
  split; [|exact R].
  pose proof (status_updates_id c new_status notes) as K.
  eexists. eexists. split; [exact A|].
  split; [exact (get_after_update now d id _ c K G)|].
  unfold Controllers.status_updates.
  destruct (Controllers.noted c new_status notes) as [l|].
  - split; [reflexivity|]. split; [reflexivity|].
    split; [repeat split|]. split; [reflexivity|].
    split; [|reflexivity].
    intros id' N. apply get_other_after_update; [|exact N].
    intro r. reflexivity.
  - split; [reflexivity|]. split; [reflexivity|].
    split; [repeat split|]. split; [reflexivity|].
    split; [|reflexivity].
    intros id' N. apply get_other_after_update; [|exact N].
    intro r. reflexivity.
Qed.

Lemma status_update_writes_status_only_witness :
  let c := Store.mkComplaint "c1" "Street light broken" "infrastructure"
             "municipal" "escalated" "high" (Some 10) "level_2" "" 24 [] 0 3 [] in
  exists c' d',
    Controllers.update_complaint_status true 50 (Store.mkDb [c] []) "c1" "open"
      (Some "reopened on request")
    = (Controllers.Updated c', d')
    /\ Store.c_status c' = "open"
    /\ Store.c_escalation_level c' = "level_2"
    /\ Store.c_admin_notes c' = [("reopened on request", "open")].
Proof.
  intro c.
  destruct (status_update_writes_status_only 50 (Store.mkDb [c] []) "c1" "open"
              (Some "reopened on request") c eq_refl eq_refl)
    as ((c' & d' & R & _ & S & _ & B & N & _) & _).
  exists c', d'. split; [exact R|]. split; [exact S|].
  split; [|exact N].
  destruct B as (_ & _ & _ & _ & _ & _ & L & _). exact L.
Defined.

(** X21. A status update is refused, and the store left as it is, when
    the status is not one of the five or no complaint has the id; the
    status is looked at first. *)
Theorem status_update_refusals :
  forall (update_accepted : bool) (now : Q) (d : Store.db) (id new_status : string)
         (notes : option string),
    mem new_status Controllers.valid_statuses = false
    \/ Store.get_complaint d id = None ->
    Controllers.update_complaint_status update_accepted now d id new_status notes
    = (if mem new_status Controllers.valid_statuses
       then Controllers.ComplaintNotFound else Controllers.InvalidStatus, d).
Proof.
  intros accepted now d id new_status notes [V|G];
    unfold Controllers.update_complaint_status.
  - rewrite V. reflexivity.
  - destruct (mem new_status Controllers.valid_statuses); cbn [negb];
      [rewrite G|]; reflexivity.
Qed.

Lemma status_update_refusals_witness :
  Controllers.update_complaint_status true 50 (Store.mkDb [] []) "c1" "reopened" None
  = (Controllers.InvalidStatus, Store.mkDb [] []).
Proof.
  apply (status_update_refusals true 50 (Store.mkDb [] []) "c1" "reopened" None).
  left. reflexivity.
Defined.

Lemma urgency_level_min (u : string) : (1 <= Pipeline.urgency_level u)%nat.
Proof.
  unfold Pipeline.urgency_level.
  repeat match goal with |- context [if ?b then _ else _] => destruct b end; lia.
Qed.

(** The level of the urgency that the upvotes earn. *)
Lemma boosted_urgency_level (u : string) (n : Z) :
  match Controllers.boosted_urgency u n with
  | Some u' =>
      Pipeline.urgency_level u'
      = Nat.max (Pipeline.urgency_level u) (earned_level n)
      /\ (Pipeline.urgency_level u < Pipeline.urgency_level u')%nat
  | None =>
      Pipeline.urgency_level u
      = Nat.max (Pipeline.urgency_level u) (earned_level n)
  end.
Proof.
  unfold Controllers.boosted_urgency, earned_level.
  pose proof (urgency_level_min u) as Lo.
  pose proof (urgency_level_max u) as Hi.
  destruct (50 <=? n)%Z eqn:E50; cbn [andb].
  - destruct (Pipeline.urgency_level u <? 4)%nat eqn:L4.
    + apply Nat.ltb_lt in L4. change (Pipeline.urgency_level "urgent") with 4%nat. lia.
    + apply Nat.ltb_ge in L4.
      assert (E20 : (20 <=? n)%Z = true) by lia.
      assert (E10 : (10 <=? n)%Z = true) by lia.
      rewrite E20, E10. cbn [andb].
      replace (Pipeline.urgency_level u <? 3)%nat with false
        by (symmetry; apply Nat.ltb_ge; lia).
      replace (Pipeline.urgency_level u <? 2)%nat with false
        by (symmetry; apply Nat.ltb_ge; lia).
      lia.
  - destruct (20 <=? n)%Z eqn:E20; cbn [andb].
    + destruct (Pipeline.urgency_level u <? 3)%nat eqn:L3.
      * apply Nat.ltb_lt in L3. change (Pipeline.urgency_level "high") with 3%nat. lia.
      * apply Nat.ltb_ge in L3.
        assert (E10 : (10 <=? n)%Z = true) by lia.
        rewrite E10. cbn [andb].
        replace (Pipeline.urgency_level u <? 2)%nat with false
          by (symmetry; apply Nat.ltb_ge; lia).
        lia.
    + destruct (10 <=? n)%Z eqn:E10; cbn [andb].
      * destruct (Pipeline.urgency_level u <? 2)%nat eqn:L2.
        -- apply Nat.ltb_lt in L2.
           change (Pipeline.urgency_level "medium") with 2%nat. lia.
        -- apply Nat.ltb_ge in L2. lia.
      * lia.
Qed.

(** After a boost the same number of upvotes earns nothing more. *)
Lemma boosted_urgency_settles (u u' : string) (n : Z) :
  Controllers.boosted_urgency u n = Some u' ->
  Controllers.boosted_urgency u' n = None.
Proof.
  intro B.
  pose proof (boosted_urgency_level u n) as L. rewrite B in L.
  pose proof (boosted_urgency_level u' n) as L'.
  destruct (Controllers.boosted_urgency u' n) as [u''|]; [|reflexivity].
  lia.
Qed.

(** The row of a complaint after the community boost, by the store's
    answer. *)
Lemma boost_row (update_accepted : bool) (now : Q) (d : Store.db) (id : string)
    (n : Z) (c : Store.complaint) :
  Store.get_complaint d id = Some c ->
  exists c',
    Store.get_complaint
      (Controllers.boost_urgency_from_votes update_accepted now d id n) id = Some c'
    /\ Pipeline.urgency_level (Store.c_urgency c')
       = (if update_accepted
          then Nat.max (Pipeline.urgency_level (Store.c_urgency c)) (earned_level n)
          else Pipeline.urgency_level (Store.c_urgency c))
    /\ same_but_urgency c c'.
Proof.
  intro G. unfold Controllers.boost_urgency_from_votes. rewrite G.
  pose proof (boosted_urgency_level (Store.c_urgency c) n) as L.
  destruct (Controllers.boosted_urgency (Store.c_urgency c) n) as [u|].
  - destruct update_accepted.
    + assert (K : forall r, Store.c_id (Controllers.set_urgency u r) = Store.c_id r)
        by reflexivity.
      rewrite (get_after_update now d id _ c K G).
      eexists. split; [reflexivity|]. split; [exact (proj1 L)|repeat split].
    + exists c. split; [exact G|]. split; [reflexivity|repeat split].
  - exists c. split; [exact G|].
    split; [destruct update_accepted; [exact L|reflexivity]|repeat split].
Qed.

(** X22. The community boost never lowers an urgency.  When the store
    performs the update, the complaint's urgency level afterwards is the
    larger of its level before and the level its upvotes earn (medium
    from 10, high from 20, urgent from 50); when the store refuses it,
    the level is as before.  Nothing else of the row changes but its
    timestamp; in particular the deadline stays the one assigned for the
    old urgency. *)
Theorem vote_boost_level :
  forall (update_accepted : bool) (now : Q) (d : Store.db) (id : string)
         (upvote_count : Z) (c : Store.complaint),
    Store.get_complaint d id = Some c ->
    exists c',
      Store.get_complaint
        (Controllers.boost_urgency_from_votes update_accepted now d id upvote_count)
        id = Some c'
      /\ Pipeline.urgency_level (Store.c_urgency c')
         = (if update_accepted
            then Nat.max (Pipeline.urgency_level (Store.c_urgency c))
                   (earned_level upvote_count)
            else Pipeline.urgency_level (Store.c_urgency c))
      /\ same_but_urgency c c'.
Proof.
  intros accepted now d id n c G. exact (boost_row accepted now d id n c G).
Qed.

Lemma vote_boost_level_witness :
  let c := Store.mkComplaint "c1" "Street light broken" "infrastructure"
             "municipal" "open" "low" (Some 700) "none" "" 720 [] 0 3 [] in
  exists c',
    Store.get_complaint
      (Controllers.boost_urgency_from_votes true 50 (Store.mkDb [c] []) "c1" 23) "c1"
    = Some c'
    /\ Pipeline.urgency_level (Store.c_urgency c') = 3%nat
    /\ Store.c_sla_deadline c' = Some 700.
Proof.
  intro c.
  destruct (vote_boost_level true 50 (Store.mkDb [c] []) "c1" 23 c eq_refl)
    as (c' & G & L & B).
  exists c'. split; [exact G|]. split; [exact L|].
  destruct B as (_ & _ & _ & _ & _ & D & _). exact D.
Defined.

(** X23. The community boost settles once the store has performed it:
    after a boost whose update the store performed, a second boost with
    the same number of upvotes, at whatever time and whatever the store
    would answer, leaves the store exactly as the first one left it. *)
Theorem vote_boost_settles :
  forall (update_accepted : bool) (now now' : Q) (d : Store.db) (id : string)
         (upvote_count : Z),
    Controllers.boost_urgency_from_votes update_accepted now'
      (Controllers.boost_urgency_from_votes true now d id upvote_count)
      id upvote_count
    = Controllers.boost_urgency_from_votes true now d id upvote_count.
Proof.
  intros accepted now now' d id n.
  destruct (Store.get_complaint d id) as [c|] eqn:G.
  - destruct (Controllers.boosted_urgency (Store.c_urgency c) n) as [u|] eqn:B.
    + assert (K : forall r, Store.c_id (Controllers.set_urgency u r) = Store.c_id r)
        by reflexivity.
      assert (E : Controllers.boost_urgency_from_votes true now d id n
                  = Store.updated_rows now d id (Controllers.set_urgency u)).
      { unfold Controllers.boost_urgency_from_votes. rewrite G, B. reflexivity. }
      rewrite E. unfold Controllers.boost_urgency_from_votes.
      rewrite (get_after_update now d id _ c K G).
      cbn [Store.touch Store.c_urgency Controllers.set_urgency].
      rewrite (boosted_urgency_settles _ _ _ B). reflexivity.
    + assert (E : Controllers.boost_urgency_from_votes true now d id n = d).
      { unfold Controllers.boost_urgency_from_votes. rewrite G, B. reflexivity. }
      rewrite E. unfold Controllers.boost_urgency_from_votes. rewrite G, B.
      reflexivity.
  - assert (E : Controllers.boost_urgency_from_votes true now d id n = d).
    { unfold Controllers.boost_urgency_from_votes. rewrite G. reflexivity. }
    rewrite E. unfold Controllers.boost_urgency_from_votes. rewrite G. reflexivity.
Qed.

(* ------------------------------------------------------------------ *)
(** ** The JSON object of a reply, the phone number of a submission *)

Lemma is_open_brace (c : ascii) : JsonSpan.is_open c = true -> c = "{"%char.
Proof. unfold JsonSpan.is_open. apply Ascii.eqb_eq. Qed.

Lemma depth_cons (c : ascii) (r : string) :
  JsonSpan.depth (String c r)
  = ((if JsonSpan.is_open c then 1 else if JsonSpan.is_close c then -1 else 0)
     + JsonSpan.depth r)%Z.
Proof. reflexivity. Qed.

Lemma scan_cons (k : Z) (c : ascii) (r : string) :
  JsonSpan.scan k (String c r)
  = if JsonSpan.is_open c then
      (fst (JsonSpan.scan (k + 1) r),
       option_map (String c) (snd (JsonSpan.scan (k + 1) r)))
    else if JsonSpan.is_close c then
      if (k - 1 =? 0)%Z then (0%Z, Some (String c EmptyString))
      else (fst (JsonSpan.scan (k - 1) r),
            option_map (String c) (snd (JsonSpan.scan (k - 1) r)))
    else (fst (JsonSpan.scan k r), option_map (String c) (snd (JsonSpan.scan k r))).
Proof.
  cbn [JsonSpan.scan].
  destruct (JsonSpan.is_open c); [destruct (JsonSpan.scan (k + 1) r); reflexivity|].
  destruct (JsonSpan.is_close c); [|destruct (JsonSpan.scan k r); reflexivity].
  destruct (k - 1 =? 0)%Z; [reflexivity|].
  destruct (JsonSpan.scan (k - 1) r); reflexivity.
Qed.

(** When the loop breaks, it has read a text in which the count came
    down to zero at the last character and not before. *)
Lemma scan_break (s : string) :
  forall (k : Z) (j : string),
    (0 < k)%Z ->
    snd (JsonSpan.scan k s) = Some j ->
    fst (JsonSpan.scan k s) = 0%Z
    /\ (exists post, s = j ++ post)
    /\ (k + JsonSpan.depth j = 0)%Z
    /\ (forall p q, j = p ++ q -> q <> "" -> (0 < k + JsonSpan.depth p)%Z).
Proof.
  induction s as [|c r IH]; intros k j K S; [discriminate S|].
  rewrite scan_cons in S |- *.
  assert (step : forall k1 : Z,
             (0 < k1)%Z ->
             k1 = (k + (if JsonSpan.is_open c then 1
                        else if JsonSpan.is_close c then -1 else 0))%Z ->
             option_map (String c) (snd (JsonSpan.scan k1 r)) = Some j ->
             fst (JsonSpan.scan k1 r) = 0%Z
             /\ (exists post, String c r = j ++ post)
             /\ (k + JsonSpan.depth j = 0)%Z
             /\ (forall p q, j = p ++ q -> q <> "" -> (0 < k + JsonSpan.depth p)%Z)).
  { intros k1 K1 E S1.
    destruct (snd (JsonSpan.scan k1 r)) as [j1|] eqn:S2; [|discriminate S1].
    cbn [option_map] in S1. injection S1 as <-.
    destruct (IH k1 j1 K1 S2) as (F & (post & P) & D & A).
    split; [exact F|]. split; [exists post; rewrite P; reflexivity|].
    split; [rewrite depth_cons; lia|].
    intros p q E' Q. destruct p as [|c' p'].
    - cbn [JsonSpan.depth]. lia.
    - cbn [append] in E'. injection E' as <- E'.
      rewrite depth_cons. specialize (A p' q E' Q). lia. }
  destruct (JsonSpan.is_open c) eqn:O.
  - cbn [fst]. apply (step (k + 1)%Z); [lia|reflexivity|exact S].
  - destruct (JsonSpan.is_close c) eqn:C.
    + destruct (k - 1 =? 0)%Z eqn:Z.
      * cbn [snd] in S. injection S as <-. cbn [fst].
        split; [reflexivity|]. split; [exists r; reflexivity|].
        split; [rewrite depth_cons, O, C; cbn [JsonSpan.depth]; lia|].
        intros p q E Q. destruct p as [|c' p'].
        -- cbn [JsonSpan.depth]. lia.
        -- cbn [append] in E. injection E as _ E.
           destruct p'; [cbn [append] in E; congruence|discriminate E].
      * cbn [fst]. apply (step (k - 1)%Z); [lia|lia|exact S].
    + cbn [fst]. apply (step k); [exact K|lia|exact S].
Qed.

(** When the loop does not break, the count stays above zero. *)
Lemma scan_no_break (s : string) :
  forall k : Z,
    (0 < k)%Z ->
    snd (JsonSpan.scan k s) = None ->
    (0 < fst (JsonSpan.scan k s))%Z.
Proof.
  induction s as [|c r IH]; intros k K S; [exact K|].
  rewrite scan_cons in S |- *.
  destruct (JsonSpan.is_open c).
  - cbn [fst snd] in S |- *. apply IH; [lia|].
    destruct (snd (JsonSpan.scan (k + 1) r)); [discriminate S|reflexivity].
  - destruct (JsonSpan.is_close c).
    + destruct (k - 1 =? 0)%Z eqn:Z; [discriminate S|].
      cbn [fst snd] in S |- *. apply IH; [lia|].
      destruct (snd (JsonSpan.scan (k - 1) r)); [discriminate S|reflexivity].
    + cbn [fst snd] in S |- *. apply IH; [exact K|].
      destruct (snd (JsonSpan.scan k r)); [discriminate S|reflexivity].
Qed.

(** The loop breaks at the end of a text in which the count comes down
    to zero at the last character and not before, whatever follows. *)
Lemma scan_closed (j : string) :
  forall (k : Z) (post : string),
    (0 < k)%Z ->
    (k + JsonSpan.depth j = 0)%Z ->
    (forall p q, j = p ++ q -> q <> "" -> (0 < k + JsonSpan.depth p)%Z) ->
    JsonSpan.scan k (j ++ post) = (0%Z, Some j).
Proof.
  induction j as [|c r IH]; intros k post K D A.
  - cbn [JsonSpan.depth] in D. lia.
  - cbn [append]. rewrite scan_cons. rewrite depth_cons in D.
    assert (step : forall k1 : Z,
               k1 = (k + (if JsonSpan.is_open c then 1
                          else if JsonSpan.is_close c then -1 else 0))%Z ->
               r <> "" ->
               (fst (JsonSpan.scan k1 (r ++ post)),
                option_map (String c) (snd (JsonSpan.scan k1 (r ++ post))))
               = (0%Z, Some (String c r))).
    { intros k1 E N.
      assert (K1 : (0 < k1)%Z).
      { specialize (A (String c EmptyString) r eq_refl N).
        rewrite depth_cons in A. cbn [JsonSpan.depth] in A. lia. }
      rewrite (IH k1 post K1); [reflexivity|lia|].
      intros p q E' Q. specialize (A (String c p) q).
      rewrite depth_cons in A. cbn [append] in A.
      rewrite E' in A. specialize (A eq_refl Q). lia. }
    assert (R : r = "" \/ r <> "") by (destruct r; [left|right]; congruence).
    destruct (JsonSpan.is_open c) eqn:O.
    + destruct R as [->|N]; [cbn [JsonSpan.depth] in D; lia|].
      apply step; [reflexivity|exact N].
    + destruct (JsonSpan.is_close c) eqn:C.
      * destruct R as [->|N].
        -- cbn [JsonSpan.depth] in D.
           replace (k - 1 =? 0)%Z with true by (symmetry; apply Z.eqb_eq; lia).
           reflexivity.
        -- specialize (A (String c EmptyString) r eq_refl N) as A1.
           rewrite depth_cons, O, C in A1. cbn [JsonSpan.depth] in A1.
           replace (k - 1 =? 0)%Z with false by (symmetry; apply Z.eqb_neq; lia).
           apply step; [lia|exact N].
      * destruct R as [->|N]; [cbn [JsonSpan.depth] in D; lia|].
        apply step; [lia|exact N].
Qed.

(** The loop does not break on a text in which the count stays above
    zero. *)
Lemma scan_open (s : string) :
  forall k : Z,
    (0 < k)%Z ->
    (forall p q, s = p ++ q -> (0 < k + JsonSpan.depth p)%Z) ->
    JsonSpan.scan k s = ((k + JsonSpan.depth s)%Z, None).
Proof.
  induction s as [|c r IH]; intros k K A.
  - cbn [JsonSpan.scan JsonSpan.depth]. f_equal. lia.
  - rewrite scan_cons, depth_cons.
    assert (A1 := A (String c EmptyString) r eq_refl).
    rewrite depth_cons in A1. cbn [JsonSpan.depth] in A1.
    assert (step : forall k1 : Z,
               k1 = (k + (if JsonSpan.is_open c then 1
                          else if JsonSpan.is_close c then -1 else 0))%Z ->
               (fst (JsonSpan.scan k1 r),
                option_map (String c) (snd (JsonSpan.scan k1 r)))
               = ((k1 + JsonSpan.depth r)%Z, None)).
    { intros k1 E. rewrite (IH k1); [reflexivity|lia|].
      intros p q E'. specialize (A (String c p) q).
      rewrite depth_cons in A. cbn [append] in A. rewrite E' in A.
      specialize (A eq_refl). lia. }
    destruct (JsonSpan.is_open c) eqn:O.
    + rewrite (step (k + 1)%Z eq_refl). f_equal; lia.
    + destruct (JsonSpan.is_close c) eqn:C.
      * replace (k - 1 =? 0)%Z with false by (symmetry; apply Z.eqb_neq; lia).
        rewrite (step (k - 1)%Z) by lia. f_equal; lia.
      * rewrite (step k) by lia. f_equal; lia.
Qed.

Lemma from_first_brace_none (response : string) :
  JsonSpan.from_first_brace response = None <-> JsonSpan.no_open response = true.
Proof.
  induction response as [|c r IH]; [split; reflexivity|].
  cbn [JsonSpan.from_first_brace JsonSpan.no_open].
  destruct (JsonSpan.is_open c); cbn [negb andb]; [split; discriminate|exact IH].
Qed.

Lemma from_first_brace_some (response s : string) :
  JsonSpan.from_first_brace response = Some s ->
  exists pre r, response = pre ++ s /\ JsonSpan.no_open pre = true
                /\ s = String "{" r.
Proof.
  induction response as [|c r IH]; [discriminate|].
  cbn [JsonSpan.from_first_brace].
  destruct (JsonSpan.is_open c) eqn:O.
  - intro H; injection H as <-. exists "", r.
    apply is_open_brace in O. subst c. repeat split.
  - intro H. destruct (IH H) as (pre & r' & E & N & S).
    exists (String c pre), r'. cbn [append JsonSpan.no_open].
    rewrite O, N, <- E. repeat split. exact S.
Qed.

Lemma from_first_brace_skip (pre r : string) :
  JsonSpan.no_open pre = true ->
  JsonSpan.from_first_brace (pre ++ String "{" r) = Some (String "{" r).
Proof.
  induction pre as [|c p IH]; [reflexivity|].
  cbn [JsonSpan.no_open append JsonSpan.from_first_brace].
  destruct (JsonSpan.is_open c); cbn [negb andb]; [discriminate|exact IH].
Qed.

(** What [json_str] returns is an object of the text, after a part
    without opening brace. *)
Lemma json_str_object (response j : string) :
  JsonSpan.json_str response = Return j ->
  JsonSpan.object j
  /\ exists pre post, response = pre ++ j ++ post /\ JsonSpan.no_open pre = true.
Proof.
  unfold JsonSpan.json_str.
  destruct (JsonSpan.from_first_brace response) as [s|] eqn:F; [|discriminate].
  destruct (from_first_brace_some _ _ F) as (pre & r & E & N & ->).
  rewrite scan_cons. change (JsonSpan.is_open "{") with true. cbn [Z.add].
  destruct (snd (JsonSpan.scan 1 r)) as [j1|] eqn:S.
  - destruct (scan_break r 1 j1 ltac:(lia) S) as (K & (post & P) & D & A).
    rewrite K. cbn [option_map Z.eqb].
    intro H; injection H as <-.
    split.
    + split; [exists j1; reflexivity|].
      split; [rewrite depth_cons; change (JsonSpan.is_open "{") with true; lia|].
      intros p q E' Np Nq. destruct p as [|c p']; [congruence|].
      cbn [append] in E'. injection E' as <- E'.
      rewrite depth_cons. change (JsonSpan.is_open "{") with true.
      exact (A p' q E' Nq).
    + exists pre, post. split; [|exact N].
      rewrite E, P. reflexivity.
  - pose proof (scan_no_break r 1 ltac:(lia) S) as K.
    replace (fst (JsonSpan.scan 1 r) =? 0)%Z with false
      by (symmetry; apply Z.eqb_neq; lia).
    discriminate.
Qed.

(** X24. The text handed to the JSON parser is an object cut out of the
    reply: it starts at the first opening brace of the reply and ends
    with the brace that closes it, and the braces inside it balance
    nowhere before its end.  (The branch that would hand over the lone
    opening brace when the loop ends without break is never taken.) *)
Theorem json_span_is_first_object :
  forall (response j : string),
    JsonSpan.json_str response = Return j ->
    JsonSpan.object j
    /\ exists pre post, response = pre ++ j ++ post /\ JsonSpan.no_open pre = true.
Proof.
  intros response j H. exact (json_str_object response j H).
Qed.

Lemma json_span_is_first_object_witness :
  JsonSpan.object "{'a': {'b': 1}}"
  /\ exists pre post,
       "Here it is: {'a': {'b': 1}} and {more}" = pre ++ "{'a': {'b': 1}}" ++ post
       /\ JsonSpan.no_open pre = true.
Proof.
  apply (json_span_is_first_object "Here it is: {'a': {'b': 1}} and {more}").
  vm_compute. reflexivity.
Defined.

Lemma json_str_of_object (pre j post : string) :
  JsonSpan.no_open pre = true -> JsonSpan.object j ->
  JsonSpan.json_str (pre ++ j ++ post) = Return j.
Proof.
  intros N ((r & ->) & D & A).
  unfold JsonSpan.json_str. cbn [append].
  rewrite (from_first_brace_skip pre (r ++ post) N).
  rewrite scan_cons. change (JsonSpan.is_open "{") with true. cbn [Z.add].
  rewrite depth_cons in D. change (JsonSpan.is_open "{") with true in D.
  rewrite (scan_closed r 1 post); [reflexivity|lia|lia|].
  intros p q E Q.
  specialize (A (String "{" p) q). cbn [append] in A. rewrite E in A.
  specialize (A eq_refl ltac:(discriminate) Q).
  rewrite depth_cons in A. change (JsonSpan.is_open "{") with true in A. exact A.
Qed.

(** X25. Round trip: an object wrapped in any text before it that has no
    opening brace, and any text at all after it, is found again exactly. *)
Theorem json_span_round_trip :
  forall (pre j post : string),
    JsonSpan.no_open pre = true ->
    JsonSpan.object j ->
    JsonSpan.json_str (pre ++ j ++ post) = Return j.
Proof.
  intros pre j post N O. exact (json_str_of_object pre j post N O).
Qed.

Lemma json_span_round_trip_witness :
  JsonSpan.json_str ("Sure! " ++ "{'score': {'v': 1}}" ++ " Hope this helps }")
  = Return "{'score': {'v': 1}}".
Proof.
  apply json_span_round_trip; [reflexivity|].
  apply (json_str_object "{'score': {'v': 1}}"). vm_compute. reflexivity.
Defined.

Lemma json_str_unclosed (pre s : string) :
  JsonSpan.no_open pre = true -> s <> "" -> never_closes s ->
  JsonSpan.json_str (pre ++ s) = Raise JsonSpan.IncompleteJson.
Proof.
  intros N Ns A. destruct s as [|c r]; [congruence|].
  assert (O : JsonSpan.is_open c = true).
  { specialize (A (String c EmptyString) r eq_refl ltac:(discriminate)).
    rewrite depth_cons in A. cbn [JsonSpan.depth] in A.
    destruct (JsonSpan.is_open c); [reflexivity|].
    destruct (JsonSpan.is_close c); lia. }
  pose proof (is_open_brace c O) as ->.
  unfold JsonSpan.json_str. rewrite (from_first_brace_skip pre r N).
  rewrite scan_cons. change (JsonSpan.is_open "{") with true. cbn [Z.add].
  assert (P : forall p q, r = p ++ q -> (0 < 1 + JsonSpan.depth p)%Z).
  { intros p q E. specialize (A (String "{" p) q). cbn [append] in A.
    rewrite E in A. specialize (A eq_refl ltac:(discriminate)).
    rewrite depth_cons in A. change (JsonSpan.is_open "{") with true in A. exact A. }
  rewrite (scan_open r 1 ltac:(lia) P). cbn [fst snd option_map].
  specialize (P r "").
  assert (E : r = r ++ "") by (clear; induction r; cbn; congruence).
  specialize (P E).
  replace (1 + JsonSpan.depth r =? 0)%Z with false
    by (symmetry; apply Z.eqb_neq; lia).
  reflexivity.
Qed.

(** When the loop does not break, the count was above zero after every
    character. *)
Lemma scan_no_break_prefixes (s : string) :
  forall k : Z,
    (0 < k)%Z ->
    snd (JsonSpan.scan k s) = None ->
    forall p q, s = p ++ q -> (0 < k + JsonSpan.depth p)%Z.
Proof.
  induction s as [|c r IH]; intros k K S p q E.
  - destruct p; [cbn [JsonSpan.depth]; lia|discriminate E].
  - destruct p as [|c' p']; [cbn [JsonSpan.depth]; lia|].
    cbn [append] in E. injection E as <- E.
    rewrite scan_cons in S. rewrite depth_cons.
    destruct (JsonSpan.is_open c).
    + cbn [snd] in S.
      assert (S1 : snd (JsonSpan.scan (k + 1) r) = None)
        by (destruct (snd (JsonSpan.scan (k + 1) r)); [discriminate S|reflexivity]).
      specialize (IH (k + 1)%Z ltac:(lia) S1 p' q E). lia.
    + destruct (JsonSpan.is_close c).
      * destruct (k - 1 =? 0)%Z eqn:Z; [discriminate S|].
        cbn [snd] in S.
        assert (S1 : snd (JsonSpan.scan (k - 1) r) = None)
          by (destruct (snd (JsonSpan.scan (k - 1) r)); [discriminate S|reflexivity]).
        specialize (IH (k - 1)%Z ltac:(lia) S1 p' q E). lia.
      * cbn [snd] in S.
        assert (S1 : snd (JsonSpan.scan k r) = None)
          by (destruct (snd (JsonSpan.scan k r)); [discriminate S|reflexivity]).
        specialize (IH k K S1 p' q E). lia.
Qed.

(** A text from its first opening brace on that is refused as
    incomplete never closes. *)
Lemma incomplete_never_closes (r : string) :
  JsonSpan.json_str (String "{" r) = Raise JsonSpan.IncompleteJson ->
  never_closes (String "{" r).
Proof.
  unfold JsonSpan.json_str. cbn [JsonSpan.from_first_brace].
  change (JsonSpan.is_open "{") with true. cbv iota.
  rewrite scan_cons. change (JsonSpan.is_open "{") with true. cbn [Z.add].
  destruct (snd (JsonSpan.scan 1 r)) as [j1|] eqn:S.
  - destruct (scan_break r 1 j1 ltac:(lia) S) as (K & _).
    rewrite K. discriminate.
  - intros _ p q E N. destruct p as [|c p']; [congruence|].
    cbn [append] in E. injection E as <- E.
    rewrite depth_cons. change (JsonSpan.is_open "{") with true.
    exact (scan_no_break_prefixes r 1 ltac:(lia) S p' q E).
Qed.

(** X26. A reply is refused as holding no JSON exactly when it has no
    opening brace. *)
Theorem no_json_iff_no_brace :
  forall response : string,
    JsonSpan.json_str response = Raise JsonSpan.NoJsonFound
    <-> JsonSpan.no_open response = true.
Proof.
  intro response. rewrite <- from_first_brace_none.
  unfold JsonSpan.json_str.
  destruct (JsonSpan.from_first_brace response) as [s|]; [|split; reflexivity].
  destruct (JsonSpan.scan 0 s) as [k sp].
  destruct (k =? 0)%Z; split; discriminate.
Qed.

(** X27. A reply cut off before its first object closes is refused as
    incomplete, and the Sentiment stage then answers the neutral result
    whatever the description says. *)
Theorem cut_off_reply_is_neutral :
  forall (loads : string -> option Sentiment.reply_json)
         (pre s description : string),
    JsonSpan.no_open pre = true ->
    s <> "" ->
    never_closes s ->
    JsonSpan.json_str (pre ++ s) = Raise JsonSpan.IncompleteJson
    /\ Sentiment.process (JsonSpan.reply_of loads (Some (pre ++ s))) description
       = Sentiment.neutral.
Proof.
  intros loads pre s description N Ns A.
  pose proof (json_str_unclosed pre s N Ns A) as J.
  split; [exact J|].
  unfold JsonSpan.reply_of, JsonSpan.parse_json_response. rewrite J.
  cbn [bind]. unfold Sentiment.process.
  destruct description; reflexivity.
Qed.

Lemma cut_off_reply_is_neutral_witness :
  Sentiment.process
    (JsonSpan.reply_of (fun _ => None)
       (Some ("Result: " ++ "{'sentiment_score': -0.9, 'detail': {'a': 1}")))
    "I am furious, this is unacceptable"
  = Sentiment.neutral.
Proof.
  apply (cut_off_reply_is_neutral (fun _ => None) "Result: "
           "{'sentiment_score': -0.9, 'detail': {'a': 1}"
           "I am furious, this is unacceptable");
    [reflexivity|discriminate|].
  apply incomplete_never_closes. vm_compute. reflexivity.
Defined.

Lemma digit_is_no_separator (c : ascii) :
  Schemas.is_digit c = true ->
  (Ascii.eqb c " " || Ascii.eqb c "-" || Ascii.eqb c "+") = false.
Proof.
  destruct c as [[] [] [] [] [] [] [] []]; vm_compute; intro H;
    first [reflexivity | discriminate H].
Qed.

Lemma strip_separators_digits (s : string) :
  Schemas.all_digits s = true -> Schemas.strip_separators s = s.
Proof.
  induction s as [|c r IH]; [reflexivity|].
  cbn [Schemas.all_digits Schemas.strip_separators].
  intro H. apply andb_true_iff in H. destruct H as [D R].
  rewrite (digit_is_no_separator c D), (IH R). reflexivity.
Qed.

Lemma substring_all (s : string) : String.substring 0 (String.length s) s = s.
Proof. induction s as [|c r IH]; [reflexivity|]. cbn. rewrite IH. reflexivity. Qed.

Lemma isdigit_ten (s : string) :
  Schemas.all_digits s = true -> String.length s = 10%nat ->
  Schemas.isdigit s && (String.length s =? 10)%nat = true.
Proof.
  intros D L. rewrite L. destruct s; [discriminate L|].
  unfold Schemas.isdigit. rewrite D. reflexivity.
Qed.

Lemma prefix_code (s : string) : String.prefix "91" ("91" ++ s) = true.
Proof. destruct s; reflexivity. Qed.

Lemma cleaned_with_code (s : string) :
  (if String.prefix "91" ("91" ++ s)
   then String.substring 2 (String.length ("91" ++ s) - 2) ("91" ++ s)
   else "91" ++ s) = s.
Proof.
  rewrite prefix_code. cbn [append String.length Nat.sub String.substring].
  rewrite Nat.sub_0_r. apply substring_all.
Qed.

(** The two ways a number of ten digits is written. *)
Lemma validate_phone_ten_digits (s : string) :
  Schemas.all_digits s = true -> String.length s = 10%nat ->
  Schemas.validate_phone (Some ("+91" ++ s)) = Return (Some ("+91" ++ s))
  /\ Schemas.validate_phone (Some ("91" ++ s)) = Return (Some ("91" ++ s))
  /\ Schemas.validate_phone (Some s)
     = if String.prefix "91" s then Raise tt else Return (Some s).
Proof.
  intros D L.
  assert (S1 : Schemas.strip_separators ("+91" ++ s) = "91" ++ s).
  { cbn. rewrite (strip_separators_digits s D). reflexivity. }
  assert (S2 : Schemas.strip_separators ("91" ++ s) = "91" ++ s).
  { cbn. rewrite (strip_separators_digits s D). reflexivity. }
  split; [|split].
  - unfold Schemas.validate_phone.
    change ("+91" ++ s) with (String "+" ("91" ++ s)) at 1. cbv iota.
    change (String "+" ("91" ++ s)) with ("+91" ++ s).
    rewrite S1. cbv zeta. rewrite cleaned_with_code, (isdigit_ten s D L). reflexivity.
  - unfold Schemas.validate_phone.
    change ("91" ++ s) with (String "9" ("1" ++ s)) at 1. cbv iota.
    change (String "9" ("1" ++ s)) with ("91" ++ s).
    rewrite S2. cbv zeta. rewrite cleaned_with_code, (isdigit_ten s D L). reflexivity.
  - unfold Schemas.validate_phone.
    destruct s as [|a r] eqn:Es; [discriminate L|]. rewrite <- Es in *.
    rewrite (strip_separators_digits s D). cbv zeta.
    destruct (String.prefix "91" s) eqn:Px.
    + replace (String.length (String.substring 2 (String.length s - 2) s) =? 10)%nat
        with false; [rewrite andb_false_r; reflexivity|].
      symmetry. apply Nat.eqb_neq. rewrite L.
      assert (T : forall n m t, (String.length (String.substring n m t) <= m)%nat).
      { clear. induction n as [|n IH]; intros m t.
        - revert t. induction m as [|m IHm]; intro t; destruct t; cbn; try lia.
          specialize (IHm t). lia.
        - destruct t; cbn; [destruct m; cbn; lia|apply IH]. }
      specialize (T 2%nat (10 - 2)%nat s). cbn [Nat.sub] in T |- *. lia.
    + rewrite (isdigit_ten s D L). reflexivity.
Qed.

(** X28. A phone number of ten digits is accepted with the country code
    in front, written +91 or 91; written bare it is accepted unless its
    own first two digits are 91, which the validator takes for the
    country code and then finds eight digits. *)
Theorem ten_digit_phone_numbers :
  forall s : string,
    Schemas.all_digits s = true ->
    String.length s = 10%nat ->
    Schemas.validate_phone (Some ("+91" ++ s)) = Return (Some ("+91" ++ s))
    /\ Schemas.validate_phone (Some ("91" ++ s)) = Return (Some ("91" ++ s))
    /\ Schemas.validate_phone (Some s)
       = if String.prefix "91" s then Raise tt else Return (Some s).
Proof.
  intros s D L. exact (validate_phone_ten_digits s D L).
Qed.

Lemma ten_digit_phone_numbers_witness :
  Schemas.validate_phone (Some ("+91" ++ "9123456780")) = Return (Some ("+91" ++ "9123456780"))
  /\ Schemas.validate_phone (Some ("91" ++ "9123456780")) = Return (Some ("91" ++ "9123456780"))
  /\ Schemas.validate_phone (Some "9123456780")
     = if String.prefix "91" "9123456780" then Raise tt else Return (Some "9123456780").
Proof.
  apply ten_digit_phone_numbers; reflexivity.
Defined.

(* ------------------------------------------------------------------ *)
(** ** Monitoring cycle: what it leaves alone *)

Lemma apply_escalations_status (now : Q) (l : list Monitoring.escalation_info) :
  forall c : Store.complaint,
    In (Store.c_id c) (map Monitoring.ei_complaint_id l)
    \/ Store.c_status c = Store.ESCALATED ->
    Store.c_status (apply_escalations now l c) = Store.ESCALATED.
Proof.
  induction l as [|i l IH]; intros c H.
  - destruct H as [[]|H]. exact H.
  - unfold apply_escalations. cbn [fold_left].
    fold (apply_escalations now l).
    destruct (Store.c_id c =? Monitoring.ei_complaint_id i) eqn:E.
    + apply IH. right. reflexivity.
    + apply IH. destruct H as [[H|H]|H].
      * apply String.eqb_neq in E. congruence.
      * left. exact H.
      * right. exact H.
Qed.

Lemma apply_followups_other (now : Q) (l : list Store.complaint) :
  forall c : Store.complaint,
    ~ In (Store.c_id c) (map Store.c_id l) ->
    apply_followups now l c = c.
Proof.
  induction l as [|f l IH]; intros c N; [reflexivity|].
  unfold apply_followups. cbn [fold_left]. fold (apply_followups now l).
  cbn [map In] in N.
  destruct (Store.c_id c =? Store.c_id f) eqn:E.
  - apply String.eqb_eq in E. exfalso. apply N. left. congruence.
  - apply IH. intro H. apply N. right. exact H.
Qed.

Lemma Forall2_map_r {A : Type} (R : A -> A -> Prop) (h : A -> A) (l : list A) :
  (forall a, R a (h a)) -> Forall2 R l (map h l).
Proof. intro H. induction l; cbn; constructor; auto. Qed.

(** One row through a cycle. *)
Lemma cycle_row (now : Q) (escalated : list Monitoring.escalation_info)
    (g : Store.complaint -> Store.complaint) (c : Store.complaint) :
  (same_core c (g c) /\ Store.c_status (g c) = Store.c_status c
   /\ Store.c_escalation_level (g c) = Store.c_escalation_level c) ->
  cycle_step escalated c (apply_escalations now escalated (g c)).
Proof.
  intros (K & S & L). split.
  - apply (same_core_trans _ (g c)); [exact K|apply apply_escalations_core].
  - destruct (in_dec string_dec (Store.c_id (g c))
                (map Monitoring.ei_complaint_id escalated)) as [I|N].
    + right. split; [apply apply_escalations_status; left; exact I|].
      destruct (apply_escalations_named now escalated (g c) I) as (i & Ii & Ei & Li).
      exists i. split; [exact Ii|]. split; [|exact Li].
      rewrite Ei. apply K.
    + left. rewrite (apply_escalations_other now escalated (g c) N). auto.
Qed.

Lemma cycle_step_more (l l' : list Monitoring.escalation_info)
    (c c' : Store.complaint) :
  (forall i, In i l -> In i l') -> cycle_step l c c' -> cycle_step l' c c'.
Proof.
  intros I [K [S|(S & i & Hi & Ei & Li)]]; split; auto.
  right. split; [exact S|]. exists i. auto.
Qed.

Lemma run_rows (e : Monitoring.env) (d : Store.db) :
  Forall2 (cycle_step (snd (Monitoring.run e d)))
    (Store.complaints d) (Store.complaints (fst (Monitoring.run e d))).
Proof.
  rewrite (run_unfold e d). cbn [fst snd].
  set (now := Monitoring.utcnow e).
  set (d1 := Monitoring.followup_stale (Monitoring.followup_columns e) now d).
  set (escalated := Monitoring.check_escalations _ _ _ _ _).
  destruct (complaints_after_escalations (Monitoring.store e) now escalated d1)
    as [C _].
  rewrite C.
  destruct (followup_stale_rows (Monitoring.followup_columns e) now d)
    as (g & G & _ & K).
  fold d1 in G. rewrite G, map_map.
  apply Forall2_map_r. intro c.
  apply (cycle_step_more (applied (Monitoring.store e) escalated));
    [intro i; apply applied_In|].
  apply cycle_row. apply K.
Qed.

(** X29. A monitoring cycle neither adds nor removes a complaint and
    keeps their order; of each row it keeps id, description, category,
    department, urgency and deadline; status and escalation level stay
    as they were, or the status becomes escalated and the level the one
    of an escalation that the cycle made for this complaint. *)
Theorem cycle_touches_status_and_level_only :
  forall (e : Monitoring.env) (d : Store.db),
    Forall2 (cycle_step (snd (Monitoring.run e d)))
      (Store.complaints d) (Store.complaints (fst (Monitoring.run e d))).
Proof.
  intros e d. exact (run_rows e d).
Qed.

Lemma same_id_same_row (l : list Store.complaint) (r c : Store.complaint) :
  NoDup (map Store.c_id l) -> In r l -> In c l -> Store.c_id r = Store.c_id c ->
  r = c.
Proof.
  intros N Ir Ic E.
  pose proof (find_unique l r N Ir) as Fr.
  pose proof (find_unique l c N Ic) as Fc.
  rewrite E in Fr. congruence.
Qed.

Lemma settled_not_breaching (now : Q) (c : Store.complaint) :
  Store.c_status c = Store.RESOLVED \/ Store.c_status c = Store.CLOSED ->
  Store.breaching now c = false /\ Store.c_status c <> Store.IN_PROGRESS.
Proof.
  unfold Store.breaching. intros [S|S]; rewrite S; split;
    try discriminate; cbn; rewrite ?andb_false_r; reflexivity.
Qed.

(** A settled complaint with an id of its own goes through a cycle as it
    is. *)
Lemma run_settled (e : Monitoring.env) (d : Store.db) (c : Store.complaint) :
  NoDup (map Store.c_id (Store.complaints d)) ->
  In c (Store.complaints d) ->
  Store.c_status c = Store.RESOLVED \/ Store.c_status c = Store.CLOSED ->
  Store.get_complaint (fst (Monitoring.run e d)) (Store.c_id c) = Some c
  /\ ~ In (Store.c_id c) (map Monitoring.ei_complaint_id (snd (Monitoring.run e d))).
Proof.
  intros N I S.
  destruct (settled_not_breaching (Monitoring.utcnow e) c S) as [B P].
  rewrite (run_unfold e d). cbn [fst snd].
  set (now := Monitoring.utcnow e) in *.
  set (d1 := Monitoring.followup_stale (Monitoring.followup_columns e) now d).
  set (escalated := Monitoring.check_escalations _ _ _ _ _).
  assert (NotListed : ~ In (Store.c_id c) (map Monitoring.ei_complaint_id escalated)).
  { intro H. apply in_map_iff in H. destruct H as (j & Ej & Ij).
    apply escalated_entry in Ij. destruct Ij as [Ij _]. rewrite Ej in Ij.
    destruct (listed_row now d _ Ij) as (r & Ir & Er & Hr).
    pose proof (same_id_same_row _ r c N Ir I Er) as ->.
    destruct Hr as [Hr|Hr]; congruence. }
  split; [|exact NotListed].
  assert (D1 : Store.get_complaint d1 (Store.c_id c) = Some c).
  { unfold d1. rewrite followup_stale_unfold.
    destruct (Monitoring.followup_columns e).
    - unfold Store.get_complaint.
      destruct (complaints_after_followups now
                  (Monitoring.find_stale_complaints now d) d) as [C _].
      rewrite C, find_by_id_map
        by (intro r; apply (apply_followups_keeps now _ r)).
      rewrite (find_unique _ c N I). cbn [option_map]. f_equal.
      apply apply_followups_other. intro H.
      apply in_map_iff in H. destruct H as (f & Ef & If).
      unfold Monitoring.find_stale_complaints, Store.get_complaints_by_status in If.
      apply filter_In in If. destruct If as [If _].
      apply In_firstn in If. apply filter_In in If. destruct If as [If Sf].
      apply String.eqb_eq in Sf.
      pose proof (same_id_same_row _ f c N If I Ef) as ->. congruence.
    - exact (find_unique _ c N I). }
  unfold Store.get_complaint in D1 |- *.
  destruct (complaints_after_escalations (Monitoring.store e) now escalated d1)
    as [C _].
  rewrite C, find_by_id_map
    by (intro r; apply (apply_escalations_core now _ r)).
  rewrite D1. cbn [option_map]. f_equal.
  apply apply_escalations_other. intro H. apply NotListed.
  apply in_map_iff in H. destruct H as (j & Ej & Ij).
  apply in_map_iff. exists j. split; [exact Ej|].
  exact (applied_In _ _ _ Ij).
Qed.

(** X30. Where the ids of the store are distinct, a complaint that is
    resolved or closed goes through a monitoring cycle untouched: it is
    found afterwards exactly as it was, timestamp included, and none of
    the escalations of the cycle is for it. *)
Theorem cycle_leaves_settled_complaints :
  forall (e : Monitoring.env) (d : Store.db) (c : Store.complaint),
    NoDup (map Store.c_id (Store.complaints d)) ->
    In c (Store.complaints d) ->
    Store.c_status c = Store.RESOLVED \/ Store.c_status c = Store.CLOSED ->
    Store.get_complaint (fst (Monitoring.run e d)) (Store.c_id c) = Some c
    /\ ~ In (Store.c_id c) (map Monitoring.ei_complaint_id (snd (Monitoring.run e d))).
Proof.
  intros e d c N I S. exact (run_settled e d c N I S).
Qed.

Lemma cycle_leaves_settled_complaints_witness :
  let c1 := Store.mkComplaint "c1" "Garbage not collected" "sanitation"
              "pune_municipal" "resolved" "medium" (Some 60) "level_1" "" 48 [] 0 55 [] in
  let c2 := Store.mkComplaint "c2" "Water pipe burst" "utilities" "pune_municipal"
              "open" "high" (Some 70) "none" "" 6 [] 0 50 [] in
  let e := Monitoring.mkEnv
             (fun _ => Reply (Monitoring.mkDecision (Some true) (Some "level_2")
                                None None))
             100 true
             (fun _ => Monitoring.mkWrites true true) in
  Store.get_complaint (fst (Monitoring.run e (Store.mkDb [c2; c1] []))) "c1" = Some c1
  /\ ~ In "c1" (map Monitoring.ei_complaint_id
                  (snd (Monitoring.run e (Store.mkDb [c2; c1] [])))).
Proof.
  intros c1 c2 e.
  apply (cycle_leaves_settled_complaints e (Store.mkDb [c2; c1] []) c1).
  - apply distinct_NoDup. reflexivity.
  - right. left. reflexivity.
  - left. reflexivity.
Defined.
